(** * Retail demo front end (apps/ecommerce_full_stack/frontend.py)

    A shallow embedding of the Streamlit script: the credential gate
    (lines 5-30), the guarded main page (lines 33-146) with its query
    helpers and the four tabs, and the properties of the specification
    that can be stated over it.

    The script is re-executed from top to bottom on every user
    interaction.  One execution is modelled as a computation in a small
    state-and-exception monad over a [world] that carries what survives a
    re-execution ([st.session_state], the [st.cache_resource] memo) and an
    event trace of every call that leaves the script (digest computations,
    connections, backend queries, widgets drawn). *)

From Stdlib Require Import NArith ZArith Lia List String Ascii Bool.
From stdpp Require Import base option list gmap strings fin_maps.
Import ListNotations.

Local Open Scope N_scope.

(** ** Python strings and bytes

    A Python [str] is a sequence of code points; [bytes] is a sequence of
    octets.  Both are lists of [N]. *)

Definition pystr := list N.
Definition pybytes := list N.

(** ASCII literals of the script. *)
Definition py (s : string) : pystr :=
  List.map N_of_ascii (list_ascii_of_string s).

(** Exceptions that the modelled code can raise. *)
Inductive exn :=
| UnicodeEncodeError
| JSONDecodeError
| KeyError (k : string)
| NameError (name : string)
| TypeError
| StopIteration
| OSError
| BackendError (code : N)
| OtherError (class_name : string).          (* any other class, by its name *)

Inductive result (A : Type) :=
| Ok (a : A)
| Raise (e : exn).
Arguments Ok {A} a.
Arguments Raise {A} e.

(** *** [str.encode()]: UTF-8, strict error handler *)

Definition is_surrogate (c : N) : bool := (0xD800 <=? c) && (c <=? 0xDFFF).

(** A code point that [str.encode()] accepts: a Unicode scalar value. *)
Definition is_scalar (c : N) : bool := (c <? 0x110000) && negb (is_surrogate c).

Definition utf8_char (c : N) : result pybytes :=
  if c <? 0x80 then Ok [c]
  else if c <? 0x800 then Ok [0xC0 + c / 64; 0x80 + c mod 64]
  else if c <? 0x10000 then
    if is_surrogate c then Raise UnicodeEncodeError
    else Ok [0xE0 + c / 4096; 0x80 + (c / 64) mod 64; 0x80 + c mod 64]
  else if c <? 0x110000 then
    Ok [0xF0 + c / 262144; 0x80 + (c / 4096) mod 64;
        0x80 + (c / 64) mod 64; 0x80 + c mod 64]
  else Raise UnicodeEncodeError.

Fixpoint encode (s : pystr) : result pybytes :=
  match s with
  | [] => Ok []
  | c :: s' =>
      match utf8_char c with
      | Raise e => Raise e
      | Ok b =>
          match encode s' with
          | Raise e => Raise e
          | Ok bs => Ok (b ++ bs)
          end
      end
  end.

(** Text as a widget delivers it: every code point is a scalar value. *)
Definition well_formed (s : pystr) : Prop := Forall (fun c => is_scalar c = true) s.

(** ** [hashlib.sha256] (FIPS 180-4) on 32-bit words kept in [N] *)

Module SHA256.

Definition mask32 : N := 0xFFFFFFFF.
Definition wrap (x : N) : N := x mod 2 ^ 32.
Definition add32 (x y : N) : N := wrap (x + y).
Definition not32 (x : N) : N := N.lxor x mask32.
Definition rotr (n x : N) : N :=
  N.lor (N.shiftr x n) (wrap (N.shiftl x (32 - n))).

Definition ch (x y z : N) : N := N.lxor (N.land x y) (N.land (not32 x) z).
Definition maj (x y z : N) : N :=
  N.lxor (N.lxor (N.land x y) (N.land x z)) (N.land y z).
Definition bsig0 (x : N) : N := N.lxor (N.lxor (rotr 2 x) (rotr 13 x)) (rotr 22 x).
Definition bsig1 (x : N) : N := N.lxor (N.lxor (rotr 6 x) (rotr 11 x)) (rotr 25 x).
Definition ssig0 (x : N) : N := N.lxor (N.lxor (rotr 7 x) (rotr 18 x)) (N.shiftr x 3).
Definition ssig1 (x : N) : N := N.lxor (N.lxor (rotr 17 x) (rotr 19 x)) (N.shiftr x 10).

(** The constants of FIPS 180-4, sections 4.2.2 and 5.3.3: the first 32
    bits of the fractional parts of the cube roots (round constants)
    and of the square roots (initial hash value) of the first primes. *)
Definition is_prime (n : nat) : bool :=
  (1 <? n)%nat && forallb (fun d => negb (n mod d =? 0)%nat) (seq 2 (n - 2)).

Definition primes_below (n : nat) : list N :=
  List.map N.of_nat (List.filter is_prime (seq 0 n)).

(** The largest [r] below [2 ^ bits] with [r * r * r <= n], bit by bit. *)
Fixpoint cube_root (bits : nat) (n r : N) : N :=
  match bits with
  | O => r
  | S k =>
      let c := N.lor r (N.shiftl 1 (N.of_nat k)) in
      cube_root k n (if c * c * c <=? n then c else r)
  end.

Definition round_constants : list N := Eval vm_compute in
  List.map (fun p => wrap (cube_root 36 (p * 2 ^ 96) 0)) (primes_below 312).

Record regs := Regs { ra : N; rb : N; rc : N; rd : N; re : N; rf : N; rg : N; rh : N }.

Definition initial_words : list N := Eval vm_compute in
  List.map (fun p => wrap (N.sqrt (p * 2 ^ 64))) (primes_below 20).

Definition initial_hash : regs :=
  match initial_words with
  | [a; b; c; d; e; f; g; h] => Regs a b c d e f g h
  | _ => Regs 0 0 0 0 0 0 0 0
  end.

(** Padding: a 1 bit, zeros up to 56 mod 64, the bit length on 64 bits. *)
Definition be_bytes (n : nat) (x : N) : pybytes :=
  List.map (fun i => (N.shiftr x (8 * N.of_nat i)) mod 256) (rev (seq 0 n)).

Definition pad (msg : pybytes) : pybytes :=
  let len := N.of_nat (length msg) in
  let zeros := N.to_nat ((119 - len mod 64) mod 64) in
  msg ++ [0x80] ++ repeat 0 zeros ++ be_bytes 8 ((8 * len) mod 2 ^ 64).

Fixpoint be_words (b : pybytes) : list N :=
  match b with
  | b0 :: b1 :: b2 :: b3 :: rest =>
      (((b0 * 256 + b1) * 256 + b2) * 256 + b3) :: be_words rest
  | _ => []
  end.

Fixpoint chunks (fuel : nat) (ws : list N) : list (list N) :=
  match fuel, ws with
  | O, _ | _, [] => []
  | S k, _ => firstn 16 ws :: chunks k (skipn 16 ws)
  end.

(** Message schedule: [w] holds the words computed so far, newest first. *)
Fixpoint schedule (n : nat) (w : list N) : list N :=
  match n with
  | O => w
  | S k =>
      let at_ i := nth i w 0 in
      schedule k (add32 (add32 (ssig1 (at_ 1%nat)) (at_ 6%nat))
                        (add32 (ssig0 (at_ 14%nat)) (at_ 15%nat)) :: w)
  end.

Definition round (r : regs) (kw : N * N) : regs :=
  let t1 := add32 (add32 (add32 (rh r) (bsig1 (re r))) (ch (re r) (rf r) (rg r)))
                  (add32 (fst kw) (snd kw)) in
  let t2 := add32 (bsig0 (ra r)) (maj (ra r) (rb r) (rc r)) in
  Regs (add32 t1 t2) (ra r) (rb r) (rc r) (add32 (rd r) t1) (re r) (rf r) (rg r).

Definition compress (h : regs) (block : list N) : regs :=
  let w := rev (schedule 48 (rev block)) in
  let r := fold_left round (combine round_constants w) h in
  Regs (add32 (ra h) (ra r)) (add32 (rb h) (rb r)) (add32 (rc h) (rc r))
       (add32 (rd h) (rd r)) (add32 (re h) (re r)) (add32 (rf h) (rf r))
       (add32 (rg h) (rg r)) (add32 (rh h) (rh r)).

Definition digest (msg : pybytes) : pybytes :=
  let ws := be_words (pad msg) in
  let h := fold_left compress (chunks (length ws) ws) initial_hash in
  flat_map (be_bytes 4) [ra h; rb h; rc h; rd h; re h; rf h; rg h; rh h].

(** [.hexdigest()]: two lower-case hexadecimal digits per octet. *)
Definition hex_digit (d : N) : N := if d <? 10 then 48 + d else 87 + d.

Definition hexdigest (msg : pybytes) : pystr :=
  flat_map (fun b => [hex_digit (b / 16); hex_digit (b mod 16)]) (digest msg).

End SHA256.


(** ** Values, documents, queries *)

(** Field values of a stored document, as the front end sees them after
    [unpack()], and of an entry of [st.session_state].  [VEncoded v] is
    [pil_image(v)]; [VFile b] is the [UploadedFile] that
    [st.file_uploader] returns for a file with the bytes [b]. *)
Inductive value :=
| VNone
| VBool (b : bool)
| VInt (z : Z)
| VStr (s : pystr)
| VImage (pixels : N)
| VEncoded (v : value)
| VFile (content : pybytes).

(** A document is a dict from field names to values. *)
Abbreviation document := (gmap string value).

(** Python truthiness of the values that reach an [if]. *)
Definition truthy (v : value) : bool :=
  match v with
  | VNone => false
  | VBool b => b
  | VInt z => negb (Z.eqb z 0)
  | VStr s => negb (bool_decide (s = []))
  | VImage _ | VEncoded _ | VFile _ => true
  end.

(** What [json.dumps] can write: [None], Booleans, integers and strings.
    An image, an encoded image or a file object makes it raise. *)
Definition serialisable (v : value) : bool :=
  match v with
  | VNone | VBool _ | VInt _ | VStr _ => true
  | VImage _ | VEncoded _ | VFile _ => false
  end.

(** [json.dumps(docs, indent=2)] on a list of dicts with string keys.
    The text is kept as the list it prints. *)
Definition json_dumps (docs : list document) : result (list document) :=
  if forallb (fun d => forallb (fun kv => serialisable (snd kv)) (map_to_list d)) docs
  then Ok docs
  else Raise TypeError.

(** What [json.loads] produces. *)
#[local] Unset Elimination Schemes.
Inductive jsonv :=
| JNull
| JBool (b : bool)
| JNum (z : Z)
| JStr (s : pystr)
| JArr (xs : list jsonv)
| JObj (fields : list (pystr * jsonv)).
#[local] Set Elimination Schemes.

(** The object bound to the module global [collection]. *)
Inductive handle :=
| SdCollection (name : string)
    (* superduperdb.backends.mongodb.Collection(name) *)
| PymongoCollection (uri : pystr) (database name : string).
    (* pymongo.MongoClient(uri)[database][name] *)

Inductive stage :=
| Sample (size : N).                       (* {'$sample': {'size': size}} *)

(** Queries built on a superduperdb [Collection]. *)
Inductive sd_query :=
| Like (c : string) (r : document) (vector_index : string) (n : N)
| Find (q : sd_query)                      (* q.find({}) *)
| Aggregate (c : string) (pipeline : list stage).

(** What can be handed to [db.execute]. *)
Inductive executable :=
| Query (q : sd_query)
| CommandCursor (docs : list document).    (* result of pymongo's aggregate *)

(** Identity of a [Datalayer] object returned by [superduper(...)]. *)
Definition conn := nat.

(** ** Widgets drawn and calls leaving the script

    Only the calls that show something are recorded.  Input widgets
    return their value through [inputs]; they and the layout calls
    ([st.tabs], [st.columns], [st.button('Refresh')]) leave no event.
    The two input widgets that are given a key (lines 95 and 114) also
    store their value in [st.session_state] under that key. *)

Inductive widget :=
| SidebarSuccess (msg : pystr)
| SidebarError (msg : pystr)
| Title (s : pystr)
| TextJson (docs : list document)          (* st.text(json.dumps(docs, indent=2)) *)
| Text (v : value)
| Image (img : value) (caption : option value)
| Markdown (s : pystr).

Inductive event :=
| EvSha256 (msg : pybytes)
| EvSuperduper (db : conn) (uri : pystr)   (* a Datalayer was created *)
| EvMongoClient (uri : pystr)              (* a MongoClient was created *)
| EvExecute (db : conn) (q : executable)
| EvMongoFind (h : handle) (filter : jsonv) (excluded : list string) (limit : nat)
| EvMongoAggregate (h : handle) (pipeline : list stage)
| EvDraw (w : widget).

(** ** Everything outside the script

    The libraries and services the script calls are not part of the
    repository.  Their answers are taken from an [externals] record: a
    state of the outside world and, for every call, its outcome and
    the next outside state.  Nothing is assumed about the answers; what
    the client libraries do on the script's side of a call (pymongo's
    projection and limit, calling a missing method of a pymongo
    collection) is written out where it is used. *)
Record externals := Externals {
  env_state : Type;
  json_loads : pystr -> result jsonv;
  image_open : pybytes -> result value;
  superduper : pystr -> env_state -> result unit * env_state;
  mongo_client : pystr -> env_state -> result unit * env_state;
  db_execute : executable -> env_state -> result (list document) * env_state;
  (* documents of the collection that match a filter, in server order,
     before projection and limit *)
  mongo_matching : jsonv -> env_state -> result (list document) * env_state;
  mongo_aggregate : list stage -> env_state -> result (list document) * env_state;
  (* [st.image(img, caption=...)]: whether Streamlit takes the two
     arguments, or the exception it raises for them *)
  st_image : value -> option value -> result unit
}.

(** Widget values of one execution of the script. *)
Record inputs := Inputs {
  MONGODB_URI : option pystr;              (* os.getenv("MONGODB_URI") *)
  input_username : pystr;
  input_password : pystr;
  login_button : bool;                     (* st.sidebar.button('Login') *)
  raw_query : pystr;                       (* st.text_area('Enter a MongoDB query') *)
  query_button : bool;                     (* st.button("Query") *)
  search_text : pystr;                     (* st.text_input('---') *)
  search_button : bool;                    (* st.button("Search") *)
  uploaded_file : option pybytes           (* st.file_uploader(...) *)
}.

Section Frontend.

Variable X : externals.

(** Module globals of one execution; [None] is an unbound name. *)
Record globals := Globals {
  g_db : option conn;
  g_collection : option handle;
  g_r : option document
}.

Record world := World {
  session_state : gmap string value;       (* st.session_state *)
  cache_resource : option conn;            (* memo of @st.cache_resource _init *)
  module : globals;
  outside : env_state X;
  trace : list event
}.

Definition set_session_state (f : gmap string value -> gmap string value) (w : world) :=
  World (f (session_state w)) (cache_resource w) (module w) (outside w) (trace w).
Definition set_cache_resource (c : option conn) (w : world) :=
  World (session_state w) c (module w) (outside w) (trace w).
Definition set_module (f : globals -> globals) (w : world) :=
  World (session_state w) (cache_resource w) (f (module w)) (outside w) (trace w).
Definition set_outside (s : env_state X) (w : world) :=
  World (session_state w) (cache_resource w) (module w) s (trace w).
Definition add_event (e : event) (w : world) :=
  World (session_state w) (cache_resource w) (module w) (outside w) (trace w ++ [e]).

(** *** The monad: state and exceptions.  A raised exception keeps the
    world as it was when it was raised. *)
Definition M (A : Type) := world -> result A * world.

Definition ret {A} (a : A) : M A := fun w => (Ok a, w).
Definition raise {A} (e : exn) : M A := fun w => (Raise e, w).
Definition bind {A B} (m : M A) (k : A -> M B) : M B :=
  fun w => match m w with
           | (Ok a, w') => k a w'
           | (Raise e, w') => (Raise e, w')
           end.

Notation "x <- c1 ;;; c2" := (bind c1 (fun x => c2))
  (at level 100, c1 at next level, c2 at level 200, right associativity).
Notation "c1 ;;; c2" := (bind c1 (fun _ => c2))
  (at level 100, c2 at level 200, right associativity).

Definition lift {A} (r : result A) : M A := fun w => (r, w).
Definition modify (f : world -> world) : M unit := fun w => (Ok tt, f w).
Definition emit (e : event) : M unit := modify (add_event e).

(** A call that shows a widget.  [st.image] inspects its arguments and
    raises for those it cannot show, before anything is shown; the
    titles, texts and messages of the script are shown whatever their
    value is. *)
Definition draw (wd : widget) : M unit :=
  match wd with
  | Image img caption => lift (st_image X img caption) ;;; emit (EvDraw wd)
  | _ => emit (EvDraw wd)
  end.

(** An input widget created with [key=...]: its value of this execution
    becomes the entry of [st.session_state] under the key. *)
Definition keyed (key : string) (v : value) : M unit :=
  modify (set_session_state <[key := v]>).

(** A call answered by the outside world. *)
Definition call {A} (f : env_state X -> result A * env_state X) : M A :=
  fun w => let (r, s) := f (outside w) in (r, set_outside s w).

(** [for x in xs: body(x)] *)
Fixpoint for_each {A} (xs : list A) (body : A -> M unit) : M unit :=
  match xs with
  | [] => ret tt
  | x :: xs' => body x ;;; for_each xs' body
  end.

(** [d[k]] on a dict. *)
Definition getitem (d : document) (k : string) : M value :=
  match d !! k with
  | Some v => ret v
  | None => raise (KeyError k)
  end.

(** Reads and writes of the module globals. *)
Definition get_db : M conn :=
  fun w => match g_db (module w) with
           | Some c => (Ok c, w)
           | None => (Raise (NameError "db"), w)
           end.
Definition get_collection : M handle :=
  fun w => match g_collection (module w) with
           | Some h => (Ok h, w)
           | None => (Raise (NameError "collection"), w)
           end.
Definition get_r : M document :=
  fun w => match g_r (module w) with
           | Some d => (Ok d, w)
           | None => (Raise (NameError "r"), w)
           end.
Definition set_db (c : conn) : M unit :=
  modify (set_module (fun g => Globals (Some c) (g_collection g) (g_r g))).
Definition set_collection (h : handle) : M unit :=
  modify (set_module (fun g => Globals (g_db g) (Some h) (g_r g))).
Definition set_r (d : document) : M unit :=
  modify (set_module (fun g => Globals (g_db g) (g_collection g) (Some d))).

(** ** The credential gate (lines 5-30) *)

Definition USERNAME : pystr := py "admin".
Definition PASSWORD : pystr := py "password".
Definition AUTH : string := "authentication_status".

(** [hashlib.sha256(b).hexdigest()] *)
Definition sha256_hexdigest (b : pybytes) : M pystr :=
  emit (EvSha256 b) ;;; ret (SHA256.hexdigest b).

(** Lines 5-6. *)
Definition hash_password (password : pystr) : M pystr :=
  b <- lift (encode password) ;;; sha256_hexdigest b.

(** Lines 9-10. *)
Definition init_session_state : M unit :=
  fun w => match session_state w !! AUTH with
           | None => modify (set_session_state <[AUTH := VNone]>) w
           | Some _ => ret tt w
           end.

(** Line 25, the condition of the login handler.  Python's [and] does
    not evaluate its right operand when the left one is false. *)
Definition verify (u p hashed_password : pystr) : M bool :=
  if bool_decide (u = USERNAME) then
    b <- lift (encode p) ;;;
    h <- sha256_hexdigest b ;;;
    ret (bool_decide (h = hashed_password))
  else ret false.

(** Lines 24-30. *)
Definition login (i : inputs) (hashed_password : pystr) : M unit :=
  if login_button i then
    ok <- verify (input_username i) (input_password i) hashed_password ;;;
    if ok then
      modify (set_session_state <[AUTH := VBool true]>) ;;;
      draw (SidebarSuccess (py "Logged in as " ++ input_username i))
    else
      modify (set_session_state <[AUTH := VBool false]>) ;;;
      draw (SidebarError (py "Incorrect Username/Password"))
  else ret tt.

(** ** The main page (lines 33-146) *)

(** Lines 52-54: [_init] under [@st.cache_resource].  The first call
    that returns stores its result; later calls return the stored
    object without running the body. *)
Definition _init (mongodb_uri : pystr) : M conn :=
  fun w => match cache_resource w with
           | Some c => (Ok c, w)
           | None =>
               (call (superduper X mongodb_uri) ;;;
                let c := length (trace w) in
                emit (EvSuperduper c mongodb_uri) ;;;
                modify (set_cache_resource (Some c)) ;;;
                ret c) w
           end.

(** [db.execute(q)] *)
Definition execute (db : conn) (q : executable) : M (list document) :=
  emit (EvExecute db q) ;;; call (db_execute X q).

(** [collection.like(Document(r), vector_index=..., n=...)].  On a pymongo
    collection the attribute [like] is the sub-collection
    "multimodal.like", and calling it raises [TypeError]. *)
Definition collection_like (r : document) (vector_index : string) (n : N) : M sd_query :=
  h <- get_collection ;;;
  match h with
  | SdCollection c => ret (Like c r vector_index n)
  | PymongoCollection _ _ _ => raise TypeError
  end.

(** [collection.aggregate(pipeline)].  On a pymongo collection the
    pipeline is sent to the server at once and a cursor comes back. *)
Definition collection_aggregate (pipeline : list stage) : M executable :=
  h <- get_collection ;;;
  match h with
  | SdCollection c => ret (Query (Aggregate c pipeline))
  | PymongoCollection _ _ _ =>
      emit (EvMongoAggregate h pipeline) ;;;
      docs <- call (mongo_aggregate X pipeline) ;;;
      ret (CommandCursor docs)
  end.

(** Lines 65-68. *)
Definition _search (k : string) (v : value) (index : string) (n : N) : M (list document) :=
  db <- get_db ;;;
  q <- collection_like {[k := v]} index n ;;;
  execute db (Query (Find q)).

(** Lines 70-77; [n] defaults to 3. *)
Definition text_2_image_search (text : pystr) : M (list document) :=
  _search "search" (VStr text) "my-index" 3.

Definition text_2_text_search (text : value) : M (list document) :=
  _search "title" text "text-index" 10.

Definition pil_image (img : value) : value := VEncoded img.

Definition image_search (img : value) : M (list document) :=
  _search "img" (pil_image img) "my-index" 3.

(** [next(cursor)] *)
Definition next (cur : list document) : M document :=
  match cur with
  | d :: _ => ret d
  | [] => raise StopIteration
  end.

(** Lines 79-84. *)
Definition random_product : M document :=
  db <- get_db ;;;
  q <- collection_aggregate [Sample 1] ;;;
  cur <- execute db q ;;;
  next cur.

(** [Document.unpack()]: the answers of [db_execute] already hold the
    documents' contents. *)
Definition unpack (d : document) : document := d.

(** pymongo's [collection.find(filter, projection).limit(k)] read to the
    end, for a projection that only excludes fields: the matching
    documents without the excluded fields, the first [k] of them. *)
Definition exclude (excluded : list string) (d : document) : document :=
  fold_right (fun k acc => delete k acc) d excluded.

Definition pymongo_find (h : handle) (filter : jsonv) (excluded : list string)
    (limit : nat) : M (list document) :=
  emit (EvMongoFind h filter excluded limit) ;;;
  docs <- call (mongo_matching X filter) ;;;
  ret (firstn limit (List.map (exclude excluded) docs)).

(** Lines 89-102.  The cursor of line 99 is read by the list
    comprehension of line 101, whose result [json.dumps] turns into the
    text that is shown. *)
Definition tab0 (i : inputs) (mongodb_uri : pystr) : M unit :=
  keyed "query-button" (VBool (query_button i)) ;;;
  if query_button i then
    call (mongo_client X mongodb_uri) ;;;
    emit (EvMongoClient mongodb_uri) ;;;
    set_collection (PymongoCollection mongodb_uri "ecommerce" "multimodal") ;;;
    collection <- get_collection ;;;
    filter <- lift (json_loads X (raw_query i)) ;;;
    res <- pymongo_find collection filter ["_id"] 5 ;;;
    text <- lift (json_dumps res) ;;;
    draw (TextJson text)
  else ret tt.

(** Lines 109-111 and 118-120: the loop over the results. *)
Definition show_results (results : list document) : M unit :=
  for_each results (fun d =>
    set_r d ;;;
    r <- get_r ;;; set_r (unpack r) ;;;
    r <- get_r ;;; img <- getitem r "img" ;;;
    r <- get_r ;;; title <- getitem r "title" ;;;
    draw (Image img (Some title))).

(** Lines 104-111. *)
Definition tab1 (i : inputs) : M unit :=
  if search_button i then
    results <- text_2_image_search (search_text i) ;;;
    show_results results
  else ret tt.

(** The value of [st.file_uploader]: the uploaded file or [None]. *)
Definition file_value (f : option pybytes) : value :=
  match f with
  | Some b => VFile b
  | None => VNone
  end.

(** Lines 113-120. *)
Definition tab2 (i : inputs) : M unit :=
  keyed "image-search" (file_value (uploaded_file i)) ;;;
  match uploaded_file i with
  | Some f =>
      image <- lift (image_open X f) ;;;
      results <- image_search image ;;;
      show_results results
  | None => ret tt
  end.

(** Lines 122-146. *)
Definition tab3 : M unit :=
  d <- random_product ;;; set_r (unpack d) ;;;
  r <- get_r ;;; img <- getitem r "img" ;;;
  r <- get_r ;;; title <- getitem r "title" ;;;
  draw (Image img (Some title)) ;;;
  draw (Markdown (py "### Based on image")) ;;;
  r <- get_r ;;; img <- getitem r "img" ;;;
  image_results <- image_search img ;;;
  for_each image_results (fun d =>
    set_r d ;;;
    r <- get_r ;;; set_r (unpack r) ;;;
    r <- get_r ;;; img <- getitem r "img" ;;;
    draw (Image img None)) ;;;
  draw (Markdown (py "### Based on title")) ;;;
  r <- get_r ;;; title <- getitem r "title" ;;;
  text_results <- text_2_text_search title ;;;
  for_each text_results (fun d =>
    set_r d ;;;
    r <- get_r ;;; set_r (unpack r) ;;;
    r <- get_r ;;; title <- getitem r "title" ;;;
    draw (Text title)).

Definition default_uri : pystr := py "mongodb://localhost:27017/ecommerce".

(** Lines 34-146, the body of [if st.session_state['authentication_status']].
    The imports and the assignment to [CFG.cluster.backfill_batch_size]
    have no part in what follows and are left out. *)
Definition main_page (i : inputs) : M unit :=
  let mongodb_uri := default default_uri (MONGODB_URI i) in
  (db <- _init mongodb_uri ;;; set_db db) ;;;
  set_collection (SdCollection "multimodal") ;;;
  draw (Title (py "Retail with SuperDuperDB")) ;;;
  tab0 i mongodb_uri ;;;
  tab1 i ;;;
  tab2 i ;;;
  tab3.

(** [st.session_state[k]] *)
Definition session_get (k : string) : M value :=
  fun w => match session_state w !! k with
           | Some v => (Ok v, w)
           | None => (Raise (KeyError k), w)
           end.

(** The whole script. *)
Definition script (i : inputs) : M unit :=
  init_session_state ;;;
  hashed_password <- hash_password PASSWORD ;;;
  login i hashed_password ;;;
  auth <- session_get AUTH ;;;
  if truthy auth then main_page i else ret tt.

(** One execution starts with a fresh module namespace; the world it
    leaves is the one in which its last statement ended. *)
Definition run (i : inputs) (w : world) : result unit * world :=
  script i (set_module (fun _ => Globals None None None) w).

(** A session: the script is executed once per interaction; an
    exception ends the execution it occurs in, not the session.  What
    Streamlit itself does between two executions with the entries of
    keyed widgets that the last execution did not create is left out:
    the script reads no entry but "authentication_status". *)
Fixpoint runs (clicks : list inputs) (w : world) : world :=
  match clicks with
  | [] => w
  | i :: rest => runs rest (snd (run i w))
  end.

(** The world when the process starts. *)
Definition start (s : env_state X) : world :=
  World ∅ None (Globals None None None) s [].

End Frontend.

Arguments world X : clear implicits.
Arguments M X A : clear implicits.
Arguments session_state {X} w.
Arguments cache_resource {X} w.
Arguments module {X} w.
Arguments outside {X} w.
Arguments trace {X} w.
Arguments set_session_state {X} f w.
Arguments set_cache_resource {X} c w.
Arguments set_module {X} f w.
Arguments set_outside {X} s w.
Arguments add_event {X} e w.
Arguments ret {X A} a w.
Arguments raise {X A} e w.
Arguments bind {X A B} m k w.
Arguments lift {X A} r w.
Arguments modify {X} f w.
Arguments emit {X} e w.
Arguments draw {X} wd w.
Arguments keyed {X} key v w.
Arguments call {X A} f w.
Arguments for_each {X A} xs body w.
Arguments getitem {X} d k w.
Arguments get_db {X} w.
Arguments get_collection {X} w.
Arguments get_r {X} w.
Arguments set_db {X} c w.
Arguments set_collection {X} h w.
Arguments set_r {X} d w.
Arguments sha256_hexdigest {X} b w.
Arguments hash_password {X} password w.
Arguments init_session_state {X} w.
Arguments verify {X} u p hashed_password w.
Arguments login {X} i hashed_password w.
Arguments _init {X} mongodb_uri w.
Arguments execute {X} db q w.
Arguments collection_like {X} r vector_index n w.
Arguments collection_aggregate {X} pipeline w.
Arguments _search {X} k v index n w.
Arguments text_2_image_search {X} text w.
Arguments text_2_text_search {X} text w.
Arguments image_search {X} img w.
Arguments next {X} cur w.
Arguments random_product {X} w.
Arguments pymongo_find {X} h filter excluded limit w.
Arguments tab0 {X} i mongodb_uri w.
Arguments show_results {X} results w.
Arguments tab1 {X} i w.
Arguments tab2 {X} i w.
Arguments tab3 {X} w.
Arguments main_page {X} i w.
Arguments session_get {X} k w.
Arguments script {X} i w.
Arguments run {X} i w.
Arguments runs {X} clicks w.
Arguments start {X} s.

Notation "x <- c1 ;;; c2" := (bind c1 (fun x => c2))
  (at level 100, c1 at next level, c2 at level 200, right associativity).
Notation "c1 ;;; c2" := (bind c1 (fun _ => c2))
  (at level 100, c2 at level 200, right associativity).

(** ** Views used by the statements *)

(** [hash_password] without the trace: the digest as a function of the
    password alone. *)
Definition hash (p : pystr) : result pystr :=
  match encode p with
  | Ok b => Ok (SHA256.hexdigest b)
  | Raise e => Raise e
  end.

(** The value bound to [hashed_password] on line 17. *)
Definition reference_digest : pystr :=
  py "5e884898da28047151d0e56f8dc6292773603d0d6aabbdd62a11ef721d1542d8".

(** The three states of the authentication status. *)
Inductive AuthSession := unknown | authenticated | rejected.

Definition auth_session {X} (w : world X) : AuthSession :=
  match session_state w !! AUTH with
  | Some (VBool true) => authenticated
  | Some (VBool false) => rejected
  | _ => unknown
  end.

Definition of_bool (b : bool) : AuthSession :=
  if b then authenticated else rejected.

(** Events added to the trace by a computation started in [w]. *)
Definition emitted {X A} (m : M X A) (w : world X) : list event :=
  drop (length (trace w)) (trace (snd (m w))).

(** The result count that a request asks the backend for. *)
Definition requested (e : event) : option N :=
  match e with
  | EvExecute _ (Query (Find (Like _ _ _ n))) => Some n
  | EvExecute _ (Query (Like _ _ _ n)) => Some n
  | EvMongoFind _ _ _ limit => Some (N.of_nat limit)
  | _ => None
  end.

Definition is_digest (e : event) : bool :=
  match e with EvSha256 _ => true | _ => false end.

Definition is_datalayer (e : event) : bool :=
  match e with EvSuperduper _ _ => true | _ => false end.

Definition is_connection (e : event) : bool :=
  match e with EvSuperduper _ _ | EvMongoClient _ => true | _ => false end.

Definition has_field (k : string) (d : document) : bool :=
  match d !! k with Some _ => true | None => false end.


Definition digests {X} (w : world X) : list event := List.filter is_digest (trace w).

(** The entries of [st.session_state] that are not those of the two
    keyed widgets: what assignments of the script, or of anyone else,
    have put there. *)
Definition assigned {X} (w : world X) : gmap string value :=
  delete "query-button" (delete "image-search" (session_state w)).

Definition behind_gate {X} (w w' : world X) : Prop :=
  assigned w' = assigned w /\ digests w' = digests w.

(** The world in which the [if] of line 33 is evaluated. *)
Definition gate {X} (i : inputs) : M X unit :=
  init_session_state ;;;
  hashed_password <- hash_password PASSWORD ;;;
  login i hashed_password.

Definition fresh_module {X} (w : world X) : world X :=
  set_module (fun _ => Globals None None None) w.

(** Digest computations of lines 9-30. *)
Definition candidate_digests (i : inputs) : list event :=
  if login_button i && bool_decide (input_username i = USERNAME) then
    match encode (input_password i) with
    | Ok b => [EvSha256 b]
    | Raise _ => []
    end
  else [].

(** The one request that [_search] sends, if it gets to send one. *)
Definition search_request {X} (w : world X) (k : string) (v : value)
    (index : string) (n : N) : list event :=
  match g_db (module w), g_collection (module w) with
  | Some db, Some (SdCollection c) =>
      [EvExecute db (Query (Find (Like c {[k := v]} index n)))]
  | _, _ => []
  end.

Definition raw_events {X} (i : inputs) (uri : pystr) (w : world X) : list event :=
  if query_button i then
    match mongo_client X uri (outside w) with
    | (Raise _, _) => []
    | (Ok _, s) =>
        EvMongoClient uri ::
        match json_loads X (raw_query i) with
        | Raise _ => []
        | Ok filter =>
            EvMongoFind (PymongoCollection uri "ecommerce" "multimodal") filter ["_id"] 5 ::
            match mongo_matching X filter s with
            | (Raise _, _) => []
            | (Ok docs, _) =>
                match json_dumps (firstn 5 (List.map (exclude ["_id"]) docs)) with
                | Ok text => [EvDraw (TextJson text)]
                | Raise _ => []
                end
            end
        end
    end
  else [].

(** What the loop of lines 109-111 draws for a document. *)
Definition drawn (d : document) : event :=
  EvDraw (Image (default VNone (d !! "img")) (Some (default VNone (d !! "title")))).

(** How the body of that loop ends for a document: with the [KeyError]
    of the first of the two subscripts that fails, else as [st.image]
    does for the two values. *)
Definition shown (X : externals) (d : document) : result unit :=
  match d !! "img", d !! "title" with
  | Some img, Some title => st_image X img (Some title)
  | None, _ => Raise (KeyError "img")
  | Some _, None => Raise (KeyError "title")
  end.

Definition datalayers_created {X} (w : world X) : nat :=
  length (List.filter is_datalayer (trace w)).

Definition connections_opened {X} (w : world X) : nat :=
  length (List.filter is_connection (trace w)).

(** What holds between the memo of [_init], the global [db] and the
    trace at every point of every execution. *)
Definition connected {X} (w : world X) : Prop :=
  (forall d, g_db (module w) = Some d -> cache_resource w = Some d) /\
  (forall db q, In (EvExecute db q) (trace w) -> cache_resource w = Some db) /\
  (forall c, cache_resource w = Some c -> exists uri, In (EvSuperduper c uri) (trace w)) /\
  datalayers_created w = match cache_resource w with Some _ => 1 | None => 0 end%nat.

Definition stays_connected {X} (w w' : world X) : Prop := connected w -> connected w'.

Definition no_datalayer_event (e : event) : Prop :=
  match e with
  | EvSuperduper _ _ | EvExecute _ _ => False
  | _ => True
  end.

Definition same_collection {X} (w w' : world X) : Prop :=
  g_collection (module w') = g_collection (module w).

(** What the sample-one helper sends when [collection] is a pymongo
    collection. *)
Definition pymongo_sample_events {X} (w : world X) (db : conn) (h : handle) : list event :=
  EvMongoAggregate h [Sample 1] ::
  match mongo_aggregate X [Sample 1] (outside w) with
  | (Ok docs, _) => [EvExecute db (CommandCursor docs)]
  | (Raise _, _) => []
  end.

(** [keeps R m]: whatever the outcome of [m], the world it leaves is
    related by [R] to the world it started in. *)
Definition keeps {X} (R : world X -> world X -> Prop) {A} (m : M X A) : Prop :=
  forall w, R w (snd (m w)).

(** *** Views for the properties beyond the claims *)

(** The condition of line 33. *)
Definition access {X} (w : world X) : bool :=
  match session_state w !! AUTH with
  | Some v => truthy v
  | None => false
  end.

(** The world after lines 9-10. *)
Definition init_world {X} (w : world X) : world X :=
  match session_state w !! AUTH with
  | None => set_session_state <[AUTH := VNone]> w
  | Some _ => w
  end.

(** The message of lines 27 and 30. *)
Definition login_message (i : inputs) (b : bool) : widget :=
  if b then SidebarSuccess (py "Logged in as " ++ input_username i)
  else SidebarError (py "Incorrect Username/Password").

Definition is_backend_event (e : event) : bool :=
  match e with
  | EvSuperduper _ _ | EvMongoClient _ | EvExecute _ _
  | EvMongoFind _ _ _ _ | EvMongoAggregate _ _ => true
  | EvSha256 _ | EvDraw _ => false
  end.

Definition is_request (e : event) : bool :=
  match e with
  | EvExecute _ _ | EvMongoFind _ _ _ _ | EvMongoAggregate _ _ => true
  | _ => false
  end.

Definition is_draw (e : event) : bool :=
  match e with EvDraw _ => true | _ => false end.

(** Lines 137-139 and 144-146: the two loops of the browse tab. *)
Definition image_results_loop {X} (image_results : list document) : M X unit :=
  for_each image_results (fun d =>
    set_r d ;;;
    r <- get_r ;;; set_r (unpack r) ;;;
    r <- get_r ;;; img <- getitem r "img" ;;;
    draw (Image img None)).

Definition text_results_loop {X} (text_results : list document) : M X unit :=
  for_each text_results (fun d =>
    set_r d ;;;
    r <- get_r ;;; set_r (unpack r) ;;;
    r <- get_r ;;; title <- getitem r "title" ;;;
    draw (Text title)).

(** How a call that shows a widget ends. *)
Definition drawing (X : externals) (wd : widget) : result unit :=
  match wd with
  | Image img caption => st_image X img caption
  | _ => Ok tt
  end.

(** How the body of a loop that reads the field [k] and shows the
    widget [mk] of its value ends for a document. *)
Definition field_shown (X : externals) (k : string) (mk : value -> widget)
    (d : document) : result unit :=
  match d !! k with
  | Some v => drawing X (mk v)
  | None => Raise (KeyError k)
  end.

(** The body of the loop of lines 137-139. *)
Definition image_shown (X : externals) (d : document) : result unit :=
  match d !! "img" with
  | Some img => st_image X img None
  | None => Raise (KeyError "img")
  end.

(** What the two loops draw for a document. *)
Definition drawn_image (d : document) : event :=
  EvDraw (Image (default VNone (d !! "img")) None).

Definition drawn_title (d : document) : event :=
  EvDraw (Text (default VNone (d !! "title"))).

(** The loop of lines 137-139 and of lines 144-146, for the field it
    reads and the widget it draws. *)
Definition field_loop {X} (k : string) (mk : value -> widget)
    (results : list document) : M X unit :=
  for_each results (fun d =>
    set_r d ;;;
    r <- get_r ;;; set_r (unpack r) ;;;
    r <- get_r ;;; v <- getitem r k ;;;
    draw (mk v)).

(** Nothing was written to [st.session_state]. *)
Definition same_session {X} (w w' : world X) : Prop :=
  session_state w' = session_state w.

(** The world after the loop variable was bound to [d]. *)
Definition bound {X} (d : document) (w : world X) : world X := snd (set_r d w).

(** What a loop over results leaves alone. *)
Definition loop_frame {X} (w w' : world X) : Prop :=
  session_state w' = session_state w /\
  cache_resource w' = cache_resource w /\
  outside w' = outside w /\
  g_db (module w') = g_db (module w) /\
  g_collection (module w') = g_collection (module w).

(** The calls that the script is written to make, for the connection
    string [uri] of the execution: the two connections go to [uri];
    vector searches go to the collection "multimodal", with n = 3 on
    "my-index" for a document with the one key "search" or "img", and
    with n = 10 on "text-index" for a document with the one key
    "title"; the only pipeline is one [$sample] of size 1; a raw find
    is on "ecommerce"/"multimodal" of [uri], without "_id", limit 5. *)
Definition sanctioned (uri : pystr) (e : event) : Prop :=
  match e with
  | EvSha256 _ | EvDraw _ => True
  | EvSuperduper _ u | EvMongoClient u => u = uri
  | EvExecute _ (Query (Find (Like c r index n))) =>
      c = "multimodal" /\
      ((index = "my-index" /\ n = 3 /\
        exists v, r = {["search" := v]} \/ r = {["img" := v]}) \/
       (index = "text-index" /\ n = 10 /\ exists v, r = {["title" := v]}))
  | EvExecute _ (Query (Aggregate c p)) => c = "multimodal" /\ p = [Sample 1]
  | EvExecute _ (Query _) => False
  | EvExecute _ (CommandCursor _) => True
  | EvMongoFind h _ excluded limit =>
      h = PymongoCollection uri "ecommerce" "multimodal" /\
      excluded = ["_id"] /\ limit = 5%nat
  | EvMongoAggregate h p =>
      h = PymongoCollection uri "ecommerce" "multimodal" /\ p = [Sample 1]
  end.

(** The bindings that [collection] can have in such an execution. *)
Definition collection_ok {X} (uri : pystr) (w : world X) : Prop :=
  match g_collection (module w) with
  | None => True
  | Some (SdCollection c) => c = "multimodal"
  | Some (PymongoCollection u d c) => u = uri /\ d = "ecommerce" /\ c = "multimodal"
  end.

Definition sanctioned_step {X} (uri : pystr) (w w' : world X) : Prop :=
  collection_ok uri w ->
  collection_ok uri w' /\
  exists evs, trace w' = trace w ++ evs /\ Forall (sanctioned uri) evs.

(** The arguments with which the script calls [_search]. *)
Definition search_call (k index : string) (n : N) : Prop :=
  (index = "my-index" /\ n = 3 /\ (k = "search" \/ k = "img")) \/
  (index = "text-index" /\ n = 10 /\ k = "title").

(** Whether the two fields of a login attempt are the reference
    credentials: the value of the condition of line 25 when it has
    one. *)
Definition accepted (i : inputs) : bool :=
  bool_decide (input_username i = USERNAME) &&
  match hash (input_password i) with
  | Ok d => bool_decide (d = reference_digest)
  | Raise _ => false
  end.

(** The events of lines 9-30, in order. *)
Definition gate_events (i : inputs) : list event :=
  EvSha256 (py "password") ::
  candidate_digests i ++
  (if login_button i then
     match (if bool_decide (input_username i = USERNAME)
            then match hash (input_password i) with
                 | Ok d => Ok (bool_decide (d = reference_digest))
                 | Raise e => Raise e
                 end
            else Ok false) with
     | Ok b => [EvDraw (login_message i b)]
     | Raise _ => []
     end
   else []).

(** A lower-case hexadecimal digit, as a code point. *)
Definition is_lower_hex (c : N) : bool :=
  (48 <=? c) && (c <=? 57) || (97 <=? c) && (c <=? 102).

(** The connection string of line 50. *)
Definition mongodb_uri (i : inputs) : pystr := default default_uri (MONGODB_URI i).

(** ** A concrete outside world for the examples

    Three stored products.  The sample is always the first one; a
    similarity search on the image index answers the first two, a
    search on the title index the third; a raw find answers seven
    records without their images. *)
Module Demo.

Definition shirt : document :=
  {[ "_id" := VInt 1; "img" := VImage 1; "title" := VStr (py "shirt") ]}.
Definition shoe : document :=
  {[ "_id" := VInt 2; "img" := VImage 2; "title" := VStr (py "shoe") ]}.
Definition hat : document :=
  {[ "_id" := VInt 3; "img" := VImage 3; "title" := VStr (py "hat") ]}.
Definition untitled : document :=
  {[ "img" := VImage 5 ]}.

Definition parse (s : pystr) : result jsonv :=
  if bool_decide (s = py "{}") then Ok (JObj []) else Raise JSONDecodeError.

(** What the raw collection answers for a product: the record without
    its image. *)
Definition record (d : document) : document := delete "img" d.

(** A Streamlit that shows images and nothing else as an image. *)
Definition viewer (img : value) (caption : option value) : result unit :=
  match img with
  | VImage _ => Ok tt
  | _ => Raise TypeError
  end.

Definition answer (image_hits title_hits : list document) (q : executable)
    (s : nat) : result (list document) * nat :=
  match q with
  | Query (Aggregate _ _) => (Ok [shirt], S s)
  | Query (Find (Like _ _ idx _)) =>
      if bool_decide (idx = "my-index") then (Ok image_hits, S s)
      else (Ok title_hits, S s)
  | _ => (Raise TypeError, S s)
  end.

(** The outside state counts the calls answered. *)
Definition shop (image_hits title_hits : list document) : externals :=
  Externals nat parse
    (fun _ => Ok (VImage 9))
    (fun _ s => (Ok tt, S s))
    (fun _ s => (Ok tt, S s))
    (answer image_hits title_hits)
    (fun _ s => (Ok (List.map record [shirt; shoe; hat; shirt; shoe; hat; shirt]), S s))
    (fun _ s => (Ok [shirt], S s))
    viewer.

(** A backend that is down: every query fails. *)
Definition down : externals :=
  Externals nat parse
    (fun _ => Ok (VImage 9))
    (fun _ s => (Ok tt, S s))
    (fun _ s => (Ok tt, S s))
    (fun _ s => (Raise (BackendError 503), S s))
    (fun _ s => (Raise (BackendError 503), S s))
    (fun _ s => (Raise (BackendError 503), S s))
    viewer.

Definition idle : inputs :=
  Inputs None [] [] false (py "{}") false [] false None.
Definition sign_in (u p : pystr) : inputs :=
  Inputs None u p true (py "{}") false [] false None.
Definition raw (q : pystr) : inputs :=
  Inputs None [] [] false q true [] false None.
Definition search (text : pystr) : inputs :=
  Inputs None [] [] false (py "{}") false text true None.

(** A world in the middle of the main page: connected, [collection]
    bound by line 59. *)
Definition ready (X : externals) (s : env_state X) : world X :=
  World X (<[AUTH := VBool true]> ∅) (Some 0%nat)
    (Globals (Some 0%nat) (Some (SdCollection "multimodal")) None) s
    [EvSuperduper 0%nat default_uri].

End Demo.

(** ** Strings and digests *)

Lemma utf8_char_scalar c : is_scalar c = true -> exists b, utf8_char c = Ok b.
Proof.
  unfold is_scalar, utf8_char. intros H.
  apply andb_true_iff in H as [Hlt Hs]. apply negb_true_iff in Hs.
  rewrite Hs, Hlt.
  repeat match goal with |- context [if ?b then _ else _] => destruct b end; eauto.
Qed.

Lemma encode_well_formed p : well_formed p -> exists b, encode p = Ok b.
Proof.
  induction 1 as [|c s Hc _ [bs IH]]; simpl; [eauto|].
  destruct (utf8_char_scalar c Hc) as [b ->]. rewrite IH. eauto.
Qed.

Lemma hash_well_formed p : well_formed p -> exists h, hash p = Ok h.
Proof.
  intros [b Hb]%encode_well_formed. unfold hash. rewrite Hb. eauto.
Qed.

(** The derived constants and the digest agree with FIPS 180-4: first
    and last round constant, first initial word, and the test vectors
    for the empty message and for "abc". *)
Lemma sha256_test_vectors :
  length SHA256.round_constants = 64%nat /\
  nth 0 SHA256.round_constants 0 = 0x428a2f98 /\
  nth 63 SHA256.round_constants 0 = 0xc67178f2 /\
  SHA256.ra SHA256.initial_hash = 0x6a09e667 /\
  SHA256.hexdigest [] =
    py "e3b0c44298fc1c149afbf4c8996fb92427ae41e4649b934ca495991b7852b855" /\
  SHA256.hexdigest (py "abc") =
    py "ba7816bf8f01cfea414140de5dae2223b00361a396177a9cb410ff61f20015ad".
Proof. repeat split; vm_compute; reflexivity. Qed.

Lemma hash_PASSWORD : hash PASSWORD = Ok reference_digest.
Proof. vm_compute. reflexivity. Qed.

Lemma hash_password_hash {X} p (w : world X) : fst (hash_password p w) = hash p.
Proof.
  unfold hash_password, hash, bind, lift. destruct (encode p); reflexivity.
Qed.

Lemma verify_value {X} u p h (w : world X) :
  fst (verify u p h w) =
  if bool_decide (u = USERNAME) then
    match hash p with
    | Ok d => Ok (bool_decide (d = h))
    | Raise e => Raise e
    end
  else Ok false.
Proof.
  unfold verify, hash, bind, lift. case_bool_decide; [|reflexivity].
  destruct (encode p); reflexivity.
Qed.

Lemma well_formed_ascii s :
  forallb is_scalar (py s) = true -> well_formed (py s).
Proof.
  intros H. apply Forall_forall. intros c Hc.
  rewrite forallb_forall in H. apply H. apply list_elem_of_In, Hc.
Qed.

(** ** The credential gate *)

(** C1.  [verify(u, p)] is true exactly when [u] is the reference
    username "admin" (compared code point by code point) and the SHA-256
    hex digest of [p] is the digest of "password" that line 17 stored;
    for every other pair of texts it is false, among them other
    capitalisations of the username and passwords one edit away. *)
Theorem verify_iff {X} (u p : pystr) (w : world X) (Hp : well_formed p) :
  fst (hash_password PASSWORD w) = Ok reference_digest /\
  (exists b : bool,
     fst (verify u p reference_digest w) = Ok b /\
     (b = true <-> u = py "admin" /\ hash p = hash (py "password"))) /\
  fst (verify (py "admin") (py "password") reference_digest w) = Ok true /\
  fst (verify (py "admin") (py "wrong") reference_digest w) = Ok false /\
  fst (verify (py "Admin") (py "password") reference_digest w) = Ok false /\
  fst (verify (py "ADMIN") (py "password") reference_digest w) = Ok false /\
  fst (verify (py "admin ") (py "password") reference_digest w) = Ok false /\
  fst (verify (py "admin") (py "Password") reference_digest w) = Ok false /\
  fst (verify (py "admin") (py "passwor") reference_digest w) = Ok false /\
  fst (verify (py "admin") (py "password ") reference_digest w) = Ok false.
Proof.
  split; [rewrite hash_password_hash; apply hash_PASSWORD|].
  split.
  - rewrite verify_value. change (py "admin") with USERNAME.
    change (py "password") with PASSWORD. rewrite hash_PASSWORD.
    destruct (hash_well_formed p Hp) as [d Hd]. rewrite Hd.
    case_bool_decide as Hu.
    + exists (bool_decide (d = reference_digest)). split; [reflexivity|].
      rewrite bool_decide_eq_true. split.
      * intros ->. auto.
      * intros [_ Heq]. congruence.
    + exists false. split; [reflexivity|]. split; [discriminate|].
      intros [Heq _]. contradiction.
  - rewrite !verify_value. repeat split; vm_compute; reflexivity.
Qed.

Lemma verify_iff_witness :
  well_formed (py "hunter2") /\
  exists b : bool,
    fst (verify (py "admin") (py "hunter2") reference_digest
           (start (X := Demo.shop [] []) 0%nat)) = Ok b /\
    (b = true <-> py "admin" = py "admin" /\ hash (py "hunter2") = hash (py "password")).
Proof.
  assert (H : well_formed (py "hunter2")) by (apply well_formed_ascii; reflexivity).
  split; [exact H|].
  exact (proj1 (proj2 (verify_iff (X := Demo.shop [] []) (py "admin") (py "hunter2")
                         (start (X := Demo.shop [] []) 0%nat) H))).
Defined.

(** ** Relations kept by every step of the script

    For a reflexive and transitive [R], [keeps R] follows statement by
    statement. *)
Section Keeps.

Context {X : externals}.
Variable R : world X -> world X -> Prop.
Hypothesis R_refl : forall w, R w w.
Hypothesis R_trans : forall a b c, R a b -> R b c -> R a c.

Lemma keeps_ret {A} (a : A) : keeps R (ret a).
Proof. intros w. apply R_refl. Qed.

Lemma keeps_raise {A} e : keeps R (raise (A := A) e).
Proof. intros w. apply R_refl. Qed.

Lemma keeps_lift {A} (r : result A) : keeps R (lift r).
Proof. intros w. apply R_refl. Qed.

Lemma keeps_bind {A B} (m : M X A) (k : A -> M X B) :
  keeps R m -> (forall a, keeps R (k a)) -> keeps R (bind m k).
Proof.
  intros Hm Hk w. unfold bind. specialize (Hm w).
  destruct (m w) as [[a|e] w']; simpl in *; [|exact Hm].
  eapply R_trans; [exact Hm|apply Hk].
Qed.

Lemma keeps_for_each {A} (xs : list A) (body : A -> M X unit) :
  (forall x, keeps R (body x)) -> keeps R (for_each xs body).
Proof.
  intros Hb. induction xs as [|x xs IH]; simpl.
  - apply keeps_ret.
  - apply keeps_bind; [apply Hb|intros _; exact IH].
Qed.

Lemma keeps_getitem d k : keeps R (getitem d k).
Proof. unfold getitem. destruct (d !! k); [apply keeps_ret|apply keeps_raise]. Qed.

Lemma keeps_get_db : keeps R get_db.
Proof. intros w. unfold get_db. destruct (g_db _); apply R_refl. Qed.

Lemma keeps_get_collection : keeps R get_collection.
Proof. intros w. unfold get_collection. destruct (g_collection _); apply R_refl. Qed.

Lemma keeps_get_r : keeps R get_r.
Proof. intros w. unfold get_r. destruct (g_r _); apply R_refl. Qed.

Lemma keeps_session_get k : keeps R (session_get k).
Proof. intros w. unfold session_get. destruct (_ !! _); apply R_refl. Qed.

Lemma keeps_next cur : keeps R (next cur).
Proof. destruct cur; [apply keeps_raise|apply keeps_ret]. Qed.

(** What the steps of the script may do to the world. *)
Variable allowed : event -> Prop.
Hypothesis R_event : forall e w, allowed e -> R w (add_event e w).
Hypothesis R_outside : forall s w, R w (set_outside s w).
Hypothesis R_r : forall d, keeps R (set_r d).
Hypothesis R_collection : forall h, keeps R (set_collection h).
Hypothesis R_keyed : forall k v,
  k = "query-button" \/ k = "image-search" -> keeps R (keyed k v).

Lemma keeps_emit e : allowed e -> keeps R (emit e).
Proof. intros He w. apply R_event, He. Qed.

Lemma keeps_call {A} (f : env_state X -> result A * env_state X) : keeps R (call f).
Proof. intros w. unfold call. destruct (f (outside w)). apply R_outside. Qed.

Hypothesis allowed_draw : forall wd, allowed (EvDraw wd).
Hypothesis allowed_client : forall uri, allowed (EvMongoClient uri).
Hypothesis allowed_find : forall h f ex l, allowed (EvMongoFind h f ex l).

(** The statements that pass a [Datalayer] around are taken whole. *)
Hypothesis K_connect : forall uri, keeps R (db <- _init uri ;;; set_db db).
Hypothesis K_search : forall k v index n, keeps R (_search k v index n).
Hypothesis K_random : keeps R random_product.

Ltac keeps_step :=
  first
    [ apply keeps_ret | apply keeps_raise | apply keeps_lift
    | apply keeps_getitem | apply keeps_get_db | apply keeps_get_collection
    | apply keeps_get_r | apply keeps_next | apply keeps_session_get
    | apply keeps_call | apply R_r | apply R_collection
    | apply keeps_emit; solve [auto]
    | apply K_connect | apply K_search | apply K_random
    | apply keeps_bind; [|intros ?]
    | apply keeps_for_each; intros ? ].

Lemma keeps_draw wd : keeps R (draw wd).
Proof.
  destruct wd; try (apply keeps_emit, allowed_draw).
  apply keeps_bind; [apply keeps_lift|intros _; apply keeps_emit, allowed_draw].
Qed.

Lemma keeps_pymongo_find h f ex l : keeps R (pymongo_find h f ex l).
Proof. unfold pymongo_find. repeat keeps_step. Qed.

Lemma keeps_tab0 i uri : keeps R (tab0 i uri).
Proof.
  unfold tab0. apply keeps_bind; [apply R_keyed; auto|intros _].
  destruct (query_button i); [|apply keeps_ret].
  repeat first [apply keeps_pymongo_find | apply keeps_draw | keeps_step].
Qed.

Lemma keeps_show_results rs : keeps R (show_results rs).
Proof. unfold show_results. repeat first [apply keeps_draw | keeps_step]. Qed.

Lemma keeps_tab1 i : keeps R (tab1 i).
Proof.
  unfold tab1, text_2_image_search. destruct (search_button i); [|apply keeps_ret].
  repeat first [apply keeps_show_results | keeps_step].
Qed.

Lemma keeps_tab2 i : keeps R (tab2 i).
Proof.
  unfold tab2, image_search. apply keeps_bind; [apply R_keyed; auto|intros _].
  destruct (uploaded_file i); [|apply keeps_ret].
  repeat first [apply keeps_show_results | keeps_step].
Qed.

Lemma keeps_tab3 : keeps R tab3.
Proof.
  unfold tab3, image_search, text_2_text_search.
  repeat first [apply keeps_draw | keeps_step].
Qed.

Lemma keeps_main_page i : keeps R (main_page i).
Proof.
  unfold main_page.
  repeat first [apply keeps_draw | apply keeps_tab0 | apply keeps_tab1
               | apply keeps_tab2 | apply keeps_tab3 | keeps_step].
Qed.

(** The gate and the whole script. *)
Hypothesis R_session : forall f w, R w (set_session_state f w).
Hypothesis allowed_digest : forall b, allowed (EvSha256 b).
Hypothesis R_reset : forall w, R w (set_module (fun _ => Globals None None None) w).

Lemma keeps_script i : keeps R (script i).
Proof.
  unfold script. apply keeps_bind.
  { intros w. unfold init_session_state. destruct (_ !! _); [apply R_refl|].
    apply R_session. }
  intros _. apply keeps_bind.
  { unfold hash_password, sha256_hexdigest. repeat keeps_step. }
  intros h. apply keeps_bind.
  { unfold login, verify, sha256_hexdigest. destruct (login_button i); [|apply keeps_ret].
    apply keeps_bind.
    - case_bool_decide; repeat keeps_step.
    - intros [|]; (apply keeps_bind; [intros w; apply R_session|intros _; apply keeps_draw]). }
  intros _. apply keeps_bind; [apply keeps_session_get|].
  intros auth. destruct (truthy auth); [apply keeps_main_page|apply keeps_ret].
Qed.

Lemma keeps_run i w : R w (snd (run i w)).
Proof.
  unfold run. eapply R_trans; [apply R_reset|apply keeps_script].
Qed.

Lemma keeps_runs clicks w : R w (runs clicks w).
Proof.
  revert w. induction clicks as [|i clicks IH]; intros w; simpl.
  - apply R_refl.
  - eapply R_trans; [apply keeps_run|apply IH].
Qed.

End Keeps.

(** For a relation that does not look at which [Datalayer] is used, the
    three statements taken whole above follow from their steps too. *)
Section Plain.

Context {X : externals}.
Variable R : world X -> world X -> Prop.
Hypothesis R_refl : forall w, R w w.
Hypothesis R_trans : forall a b c, R a b -> R b c -> R a c.
Variable allowed : event -> Prop.
Hypothesis R_event : forall e w, allowed e -> R w (add_event e w).
Hypothesis R_outside : forall s w, R w (set_outside s w).
Hypothesis allowed_execute : forall db q, allowed (EvExecute db q).
Hypothesis allowed_aggregate : forall h p, allowed (EvMongoAggregate h p).

Lemma plain_execute db q : keeps R (execute db q).
Proof.
  unfold execute. apply (keeps_bind R R_trans).
  - apply (keeps_emit R allowed R_event), allowed_execute.
  - intros _. apply (keeps_call R R_outside).
Qed.

Lemma plain_search k v index n : keeps R (_search k v index n).
Proof.
  unfold _search, collection_like.
  apply (keeps_bind R R_trans); [apply (keeps_get_db R R_refl)|intros db].
  apply (keeps_bind R R_trans); [|intros q; apply plain_execute].
  apply (keeps_bind R R_trans); [apply (keeps_get_collection R R_refl)|].
  intros [c|uri d c]; [apply (keeps_ret R R_refl)|apply (keeps_raise R R_refl)].
Qed.

Lemma plain_random : keeps R random_product.
Proof.
  unfold random_product, collection_aggregate.
  apply (keeps_bind R R_trans); [apply (keeps_get_db R R_refl)|intros db].
  apply (keeps_bind R R_trans).
  - apply (keeps_bind R R_trans); [apply (keeps_get_collection R R_refl)|].
    intros [c|uri d c]; [apply (keeps_ret R R_refl)|].
    apply (keeps_bind R R_trans);
      [apply (keeps_emit R allowed R_event), allowed_aggregate|intros _].
    apply (keeps_bind R R_trans); [apply (keeps_call R R_outside)|intros docs].
    apply (keeps_ret R R_refl).
  - intros q. apply (keeps_bind R R_trans); [apply plain_execute|].
    intros cur. apply (keeps_next R R_refl).
Qed.

Hypothesis allowed_datalayer : forall c uri, allowed (EvSuperduper c uri).
Hypothesis R_cache : forall c w, R w (set_cache_resource c w).
Hypothesis R_db : forall c, keeps R (set_db c).

Lemma plain_connect uri : keeps R (db <- _init uri ;;; set_db db).
Proof.
  apply (keeps_bind R R_trans); [|exact R_db]. intros w. unfold _init.
  destruct (cache_resource w); [apply R_refl|].
  apply (keeps_bind R R_trans); [apply (keeps_call R R_outside)|intros _].
  apply (keeps_bind R R_trans);
    [apply (keeps_emit R allowed R_event), allowed_datalayer|intros _].
  apply (keeps_bind R R_trans); [intros w'; apply R_cache|intros _].
  apply (keeps_ret R R_refl).
Qed.

End Plain.

(** *** The main page writes no entry of the session state but those of
    its two keyed widgets, and computes no digest *)

Lemma digests_add_event {X} e (w : world X) :
  digests (add_event e w) = digests w ++ (if is_digest e then [e] else []).
Proof.
  unfold digests. simpl. rewrite List.filter_app. simpl.
  destruct (is_digest e); reflexivity.
Qed.

Lemma assigned_keyed {X} k v (w : world X) :
  k = "query-button" \/ k = "image-search" ->
  assigned (snd (keyed k v w)) = assigned w.
Proof.
  intros [-> | ->]; unfold assigned; simpl.
  - rewrite (delete_insert_ne _ "image-search" "query-button") by discriminate.
    apply delete_insert_eq.
  - rewrite delete_insert_eq. reflexivity.
Qed.

Lemma assigned_lookup {X} k (w : world X) :
  k <> "query-button" -> k <> "image-search" ->
  assigned w !! k = session_state w !! k.
Proof.
  intros H1 H2. unfold assigned. rewrite !lookup_delete_ne by congruence. reflexivity.
Qed.

Lemma assigned_AUTH {X} (w : world X) : assigned w !! AUTH = session_state w !! AUTH.
Proof. apply assigned_lookup; discriminate. Qed.

Lemma assigned_as {X} (w w' : world X) v :
  session_state w' = <[AUTH := v]> (session_state w) ->
  assigned w' = <[AUTH := v]> (assigned w).
Proof.
  intros H. unfold assigned. rewrite H.
  rewrite !delete_insert_ne by discriminate. reflexivity.
Qed.

Lemma main_page_behind_gate {X} i (w : world X) :
  behind_gate w (snd (main_page i w)).
Proof.
  assert (Hrefl : forall w : world X, behind_gate w w) by (split; reflexivity).
  assert (Htrans : forall a b c : world X,
             behind_gate a b -> behind_gate b c -> behind_gate a c).
  { intros a b c [H1 H2] [H3 H4]. split; congruence. }
  assert (Hev : forall e (w : world X),
             is_digest e = false -> behind_gate w (add_event e w)).
  { intros e w0 He. split; [reflexivity|].
    rewrite digests_add_event, He. apply app_nil_r. }
  assert (Hout : forall s (w : world X), behind_gate w (set_outside s w))
    by (split; reflexivity).
  apply (keeps_main_page behind_gate Hrefl Htrans (fun e => is_digest e = false)
           Hev Hout); try (intros; reflexivity); try (intros; split; reflexivity).
  - intros k v Hk w0. split; [apply assigned_keyed, Hk|reflexivity].
  - apply (plain_connect behind_gate Hrefl Htrans _ Hev Hout);
      try (intros; reflexivity); intros; split; reflexivity.
  - apply (plain_search behind_gate Hrefl Htrans _ Hev Hout); intros; reflexivity.
  - apply (plain_random behind_gate Hrefl Htrans _ Hev Hout); intros; reflexivity.
Qed.

(** *** Lines 9-30 *)

Lemma hash_password_PASSWORD {X} (w : world X) :
  hash_password PASSWORD w =
  (Ok reference_digest, add_event (EvSha256 (py "password")) w).
Proof.
  unfold hash_password, sha256_hexdigest, bind, lift, emit, modify, ret.
  assert (E : encode PASSWORD = Ok (py "password")) by (vm_compute; reflexivity).
  assert (D : SHA256.hexdigest (py "password") = reference_digest)
    by (vm_compute; reflexivity).
  rewrite E. simpl. rewrite D. reflexivity.
Qed.

Lemma script_gate {X} i (w : world X) :
  script i w =
  match gate i w with
  | (Ok _, w') =>
      match session_state w' !! AUTH with
      | Some auth => if truthy auth then main_page i w' else (Ok tt, w')
      | None => (Raise (KeyError AUTH), w')
      end
  | (Raise e, w') => (Raise e, w')
  end.
Proof.
  unfold script, gate, bind.
  destruct (init_session_state w) as [[[]|e] w1]; [|reflexivity].
  destruct (hash_password PASSWORD w1) as [[h|e] w2]; [|reflexivity].
  destruct (login i h w2) as [[[]|e] w3]; [|reflexivity].
  unfold session_get. destruct (session_state w3 !! AUTH) as [v|]; [|reflexivity].
  destruct (truthy v); reflexivity.
Qed.

Lemma run_behind_gate {X} i (w : world X) :
  behind_gate (snd (gate i (fresh_module w))) (snd (run i w)).
Proof.
  unfold run. fold (fresh_module w). rewrite script_gate.
  destruct (gate i (fresh_module w)) as [[[]|e] w']; simpl; [|split; reflexivity].
  destruct (session_state w' !! AUTH) as [auth|]; [|split; reflexivity].
  destruct (truthy auth); [apply main_page_behind_gate|split; reflexivity].
Qed.

Lemma verify_world {X} u p h (w : world X) :
  snd (verify u p h w) =
  if bool_decide (u = USERNAME) then
    match encode p with
    | Ok b => add_event (EvSha256 b) w
    | Raise _ => w
    end
  else w.
Proof.
  unfold verify, bind, lift. case_bool_decide; [|reflexivity].
  destruct (encode p); reflexivity.
Qed.

Lemma login_click {X} i h (w : world X) b :
  login_button i = true ->
  fst (verify (input_username i) (input_password i) h w) = Ok b ->
  login i h w =
  (Ok tt,
   add_event
     (EvDraw (if b then SidebarSuccess (py "Logged in as " ++ input_username i)
              else SidebarError (py "Incorrect Username/Password")))
     (set_session_state <[AUTH := VBool b]>
        (snd (verify (input_username i) (input_password i) h w)))).
Proof.
  intros Hc Hv. unfold login, bind. rewrite Hc.
  destruct (verify _ _ h w) as [[b'|e] w']; simpl in *; [|discriminate].
  injection Hv as ->. destruct b; reflexivity.
Qed.

Lemma login_raises {X} i h (w : world X) e :
  fst (verify (input_username i) (input_password i) h w) = Raise e ->
  login i h w =
  if login_button i
  then (Raise e, snd (verify (input_username i) (input_password i) h w))
  else (Ok tt, w).
Proof.
  intros Hv. unfold login, bind. destruct (login_button i); [|reflexivity].
  destruct (verify _ _ h w) as [[b'|e'] w']; simpl in *; [discriminate|].
  injection Hv as ->. reflexivity.
Qed.

Lemma verify_total {X} u p h (w : world X) :
  well_formed p -> exists b : bool, fst (verify u p h w) = Ok b.
Proof.
  intros [d Hd]%hash_well_formed. rewrite verify_value, Hd.
  case_bool_decide; eauto.
Qed.

Lemma session_state_verify {X} u p h (w : world X) :
  session_state (snd (verify u p h w)) = session_state w.
Proof.
  rewrite verify_world. case_bool_decide; [|reflexivity].
  destruct (encode p); reflexivity.
Qed.

(** The session state on line 33, in each of the cases of the gate. *)
Lemma gate_session_state {X} i (w : world X) :
  let s0 := session_state w in
  let s1 := match s0 !! AUTH with None => <[AUTH := VNone]> s0 | Some _ => s0 end in
  session_state (snd (gate i w)) =
  if login_button i then
    match fst (verify (input_username i) (input_password i) reference_digest w) with
    | Ok b => <[AUTH := VBool b]> s0
    | Raise _ => s1
    end
  else s1.
Proof.
  intros s0 s1. unfold gate, bind.
  assert (Hinit : exists w1, init_session_state w = (Ok tt, w1) /\
                             session_state w1 = s1).
  { unfold init_session_state. subst s0 s1. destruct (session_state w !! AUTH);
      eexists; split; reflexivity. }
  destruct Hinit as (w1 & -> & H1). rewrite hash_password_PASSWORD.
  set (w2 := add_event _ w1).
  assert (Hv : fst (verify (input_username i) (input_password i) reference_digest w2)
               = fst (verify (input_username i) (input_password i) reference_digest w))
    by (rewrite !verify_value; reflexivity).
  rewrite <- Hv.
  destruct (fst (verify _ _ reference_digest w2)) as [b|e] eqn:E.
  - destruct (login_button i) eqn:Hc.
    + rewrite (login_click i _ w2 b Hc E). simpl.
      rewrite session_state_verify. subst w2. simpl. rewrite H1. subst s1 s0.
      destruct (session_state w !! AUTH); [reflexivity|].
      apply insert_insert_eq.
    + unfold login. rewrite Hc. simpl. exact H1.
  - rewrite (login_raises i _ w2 e E).
    destruct (login_button i); simpl; [rewrite session_state_verify|]; exact H1.
Qed.

Lemma gate_result {X} i (w : world X) :
  fst (gate i w) =
  if login_button i then
    match fst (verify (input_username i) (input_password i) reference_digest w) with
    | Ok _ => Ok tt
    | Raise e => Raise e
    end
  else Ok tt.
Proof.
  unfold gate, bind.
  assert (Hinit : exists w1, init_session_state w = (Ok tt, w1)).
  { unfold init_session_state. destruct (session_state w !! AUTH); eexists; reflexivity. }
  destruct Hinit as (w1 & ->). rewrite hash_password_PASSWORD.
  set (w2 := add_event _ w1).
  assert (Hv : fst (verify (input_username i) (input_password i) reference_digest w2)
               = fst (verify (input_username i) (input_password i) reference_digest w))
    by (rewrite !verify_value; reflexivity).
  rewrite <- Hv.
  destruct (fst (verify _ _ reference_digest w2)) as [b|e] eqn:E.
  - destruct (login_button i) eqn:Hc.
    + rewrite (login_click i _ w2 b Hc E). reflexivity.
    + unfold login. rewrite Hc. reflexivity.
  - rewrite (login_raises i _ w2 e E). destruct (login_button i); reflexivity.
Qed.

Lemma auth_session_insert {X} (w w' : world X) b :
  session_state w' = <[AUTH := VBool b]> (session_state w) ->
  auth_session w' = of_bool b.
Proof.
  intros H. unfold auth_session. rewrite H, lookup_insert_eq. destruct b; reflexivity.
Qed.

Lemma auth_session_assigned {X} (w w' : world X) :
  assigned w' = assigned w -> auth_session w' = auth_session w.
Proof.
  intros H. unfold auth_session. rewrite <- !assigned_AUTH, H. reflexivity.
Qed.

(** C2.  A click on Login with any texts in the two fields: the handler
    returns normally, and the authentication status it leaves is the
    Boolean that [verify] computed, whatever the status was before; the
    same holds for the whole execution of the script the click
    triggers, which also ends normally when the verification fails.
    (Of the session state that the execution leaves, the entries of the
    two keyed widgets are set aside: the main page writes them.) *)
Theorem login_outcome {X} (i : inputs) (w : world X)
    (Hclick : login_button i = true) (Hp : well_formed (input_password i)) :
  exists b : bool,
    fst (verify (input_username i) (input_password i) reference_digest w) = Ok b /\
    fst (login i reference_digest w) = Ok tt /\
    session_state (snd (login i reference_digest w))
      = <[AUTH := VBool b]> (session_state w) /\
    auth_session (snd (login i reference_digest w)) = of_bool b /\
    assigned (snd (run i w)) = <[AUTH := VBool b]> (assigned w) /\
    auth_session (snd (run i w)) = of_bool b /\
    (b = false ->
       fst (run i w) = Ok tt /\
       session_state (snd (run i w)) = <[AUTH := VBool false]> (session_state w)).
Proof.
  destruct (verify_total (input_username i) (input_password i) reference_digest w Hp)
    as [b Hb].
  exists b. split; [exact Hb|].
  assert (Hl : session_state (snd (login i reference_digest w))
               = <[AUTH := VBool b]> (session_state w)).
  { rewrite (login_click i _ w b Hclick Hb). simpl.
    rewrite session_state_verify. reflexivity. }
  assert (Hvf : fst (verify (input_username i) (input_password i) reference_digest
                       (fresh_module w)) = Ok b)
    by (rewrite verify_value in *; exact Hb).
  assert (Hg : session_state (snd (gate i (fresh_module w)))
               = <[AUTH := VBool b]> (session_state w)).
  { pose proof (gate_session_state i (fresh_module w)) as G. simpl in G.
    rewrite Hclick, Hvf in G. exact G. }
  assert (Hr : assigned (snd (run i w)) = <[AUTH := VBool b]> (assigned w)).
  { destruct (run_behind_gate i w) as [Hs _]. rewrite Hs.
    apply (assigned_as w). exact Hg. }
  assert (Hrej : b = false -> run i w = gate i (fresh_module w)).
  { intros ->. unfold run. fold (fresh_module w). rewrite script_gate.
    pose proof (gate_result i (fresh_module w)) as G. rewrite Hclick, Hvf in G.
    destruct (gate i (fresh_module w)) as [[[]|e] w']; simpl in *; [|discriminate].
    rewrite Hg, lookup_insert_eq. reflexivity. }
  split; [rewrite (login_click i _ w b Hclick Hb); reflexivity|].
  split; [exact Hl|]. split; [eapply auth_session_insert, Hl|].
  split; [exact Hr|]. split.
  - unfold auth_session. rewrite <- assigned_AUTH, Hr, lookup_insert_eq.
    destruct b; reflexivity.
  - intros Hf. rewrite (Hrej Hf). subst b. split; [|exact Hg].
    pose proof (gate_result i (fresh_module w)) as G. rewrite Hclick, Hvf in G.
    exact G.
Qed.

Lemma login_outcome_witness :
  login_button (Demo.sign_in (py "admin") (py "letmein")) = true /\
  well_formed (input_password (Demo.sign_in (py "admin") (py "letmein"))) /\
  exists b : bool,
    fst (verify (py "admin") (py "letmein") reference_digest
           (start (X := Demo.shop [] []) 0%nat)) = Ok b /\
    auth_session (snd (run (Demo.sign_in (py "admin") (py "letmein"))
                         (start (X := Demo.shop [] []) 0%nat))) = of_bool b.
Proof.
  assert (H : well_formed (py "letmein")) by (apply well_formed_ascii; reflexivity).
  split; [reflexivity|]. split; [exact H|].
  destruct (login_outcome (X := Demo.shop [] [])
              (Demo.sign_in (py "admin") (py "letmein"))
              (start (X := Demo.shop [] []) 0%nat) eq_refl H)
    as (b & Hb & _ & _ & _ & _ & Ha & _).
  exists b. split; [exact Hb|exact Ha].
Defined.

Lemma auth_session_init {X} (w w1 : world X) :
  session_state w1 =
    match session_state w !! AUTH with
    | None => <[AUTH := VNone]> (session_state w)
    | Some _ => session_state w
    end ->
  auth_session w1 = auth_session w.
Proof.
  intros H. unfold auth_session. rewrite H.
  destruct (session_state w !! AUTH) eqn:E; [rewrite E; reflexivity|].
  rewrite lookup_insert_eq. reflexivity.
Qed.

(** What one execution can do to the authentication status. *)
Lemma run_auth_session {X} i (w : world X) :
  auth_session (snd (run i w)) = auth_session w \/
  (login_button i = true /\ exists b, auth_session (snd (run i w)) = of_bool b).
Proof.
  destruct (run_behind_gate i w) as [Hs _].
  apply auth_session_assigned in Hs. rewrite Hs.
  pose proof (gate_session_state i (fresh_module w)) as G. simpl in G.
  destruct (login_button i); [|left; eapply auth_session_init, G].
  destruct (fst (verify _ _ _ _)) as [b|e].
  - right. split; [reflexivity|]. exists b. eapply auth_session_insert, G.
  - left. eapply auth_session_init, G.
Qed.

(** C7.  The authentication status has three states.  It is unknown
    when the process starts and stays so through the first execution
    unless Login is clicked; an execution without a click on Login
    leaves it as it was; and once it is not unknown, no sequence of
    executions brings it back to unknown. *)
Theorem auth_session_lifecycle {X} (s : env_state X) (i : inputs)
    (clicks : list inputs) (w : world X) :
  auth_session (start s) = unknown /\
  (login_button i = false ->
     session_state (snd (run i (start s))) !! AUTH = Some VNone /\
     auth_session (snd (run i w)) = auth_session w) /\
  (auth_session w <> unknown -> auth_session (runs clicks w) <> unknown).
Proof.
  split; [reflexivity|]. split.
  - intros Hc. split.
    + destruct (run_behind_gate i (start s)) as [Hs _].
      rewrite <- assigned_AUTH, Hs, assigned_AUTH.
      pose proof (gate_session_state i (fresh_module (start s))) as G. simpl in G.
      rewrite Hc in G. rewrite G. apply lookup_insert_eq.
    + destruct (run_auth_session i w) as [H|[H _]]; [exact H|congruence].
  - revert w. induction clicks as [|j clicks IH]; intros w Hw; simpl; [exact Hw|].
    apply IH. destruct (run_auth_session j w) as [H|[_ [b H]]]; rewrite H.
    + exact Hw.
    + destruct b; discriminate.
Qed.

Lemma auth_session_lifecycle_witness :
  login_button Demo.idle = false /\
  auth_session (snd (run (Demo.sign_in (py "admin") (py "nope"))
                       (start (X := Demo.shop [] []) 0%nat))) <> unknown /\
  auth_session (runs [Demo.idle; Demo.raw (py "{}"); Demo.idle]
                  (snd (run (Demo.sign_in (py "admin") (py "nope"))
                          (start (X := Demo.shop [] []) 0%nat)))) <> unknown /\
  auth_session (snd (run Demo.idle (start (X := Demo.shop [] []) 0%nat))) = unknown.
Proof.
  set (w := snd (run (Demo.sign_in (py "admin") (py "nope"))
                   (start (X := Demo.shop [] []) 0%nat))).
  assert (Hw : auth_session w <> unknown) by (vm_compute; discriminate).
  pose proof (auth_session_lifecycle (X := Demo.shop [] []) 0%nat Demo.idle
                [Demo.idle; Demo.raw (py "{}"); Demo.idle] w) as (H0 & H1 & H2).
  split; [reflexivity|]. split; [exact Hw|]. split; [exact (H2 Hw)|].
  destruct (auth_session_lifecycle (X := Demo.shop [] []) 0%nat Demo.idle []
              (start (X := Demo.shop [] []) 0%nat)) as (_ & H3 & _).
  destruct (H3 eq_refl) as [_ H4]. rewrite H4. reflexivity.
Defined.

Lemma gate_digests {X} i (w : world X) :
  digests (snd (gate i w)) =
  digests w ++ EvSha256 (py "password") :: candidate_digests i.
Proof.
  unfold gate, bind, candidate_digests.
  assert (Hinit : exists w1, init_session_state w = (Ok tt, w1) /\
                             digests w1 = digests w).
  { unfold init_session_state. destruct (session_state w !! AUTH);
      eexists; split; reflexivity. }
  destruct Hinit as (w1 & -> & H1). rewrite hash_password_PASSWORD.
  set (w2 := add_event _ w1).
  assert (H2 : digests w2 = digests w ++ [EvSha256 (py "password")]).
  { subst w2. rewrite digests_add_event, H1. reflexivity. }
  assert (Hw : digests (snd (verify (input_username i) (input_password i)
                                reference_digest w2))
               = digests w ++ EvSha256 (py "password") ::
                   (if bool_decide (input_username i = USERNAME) then
                      match encode (input_password i) with
                      | Ok b => [EvSha256 b]
                      | Raise _ => []
                      end
                    else [])).
  { rewrite verify_world. case_bool_decide.
    - destruct (encode (input_password i)).
      + rewrite digests_add_event, H2. simpl. rewrite <- app_assoc. reflexivity.
      + exact H2.
    - exact H2. }
  destruct (fst (verify (input_username i) (input_password i) reference_digest w2))
    as [b|e] eqn:E.
  - destruct (login_button i) eqn:Hc.
    + rewrite (login_click i _ w2 b Hc E). simpl.
      rewrite digests_add_event. simpl. rewrite app_nil_r. exact Hw.
    + unfold login. rewrite Hc. simpl. exact H2.
  - rewrite (login_raises i _ w2 e E).
    destruct (login_button i); simpl; [exact Hw|exact H2].
Qed.

(** C9.  The digest of a password does not depend on when or where it
    is computed: two calls of [hash_password] on the same text return
    the same value in any two worlds.  In one execution of the script
    the digest of the reference password is computed once, on line 17;
    the only other digest computed is that of the candidate password of
    a login attempt, which line 25 compares with the stored value. *)
Theorem hash_deterministic_and_reused {X Y} (p : pystr) (w1 : world X)
    (w2 : world Y) (i : inputs) :
  fst (hash_password p w1) = fst (hash_password p w2) /\
  fst (hash_password p w1) = hash p /\
  fst (hash_password PASSWORD w1) = Ok reference_digest /\
  emitted (hash_password PASSWORD) w1 = [EvSha256 (py "password")] /\
  digests (snd (run i w1)) =
    digests w1 ++ EvSha256 (py "password") :: candidate_digests i /\
  (login_button i = true ->
   forall b : bool,
     fst (verify (input_username i) (input_password i) reference_digest w1) = Ok b ->
     assigned (snd (run i w1)) = <[AUTH := VBool b]> (assigned w1)).
Proof.
  split; [rewrite !hash_password_hash; reflexivity|].
  split; [apply hash_password_hash|].
  split; [rewrite hash_password_PASSWORD; reflexivity|].
  split.
  { unfold emitted. rewrite hash_password_PASSWORD. simpl.
    rewrite drop_app_length. reflexivity. }
  destruct (run_behind_gate i w1) as [Hs Hd].
  split; [rewrite Hd, gate_digests; reflexivity|].
  intros Hc b Hb. rewrite Hs. apply (assigned_as w1).
  pose proof (gate_session_state i (fresh_module w1)) as G. simpl in G.
  rewrite Hc in G. rewrite verify_value in G. rewrite verify_value in Hb.
  rewrite Hb in G. exact G.
Qed.

Lemma hash_deterministic_and_reused_witness :
  login_button (Demo.sign_in (py "admin") (py "password")) = true /\
  digests (snd (run (Demo.sign_in (py "admin") (py "password"))
                  (start (X := Demo.shop [] []) 0%nat)))
    = [EvSha256 (py "password"); EvSha256 (py "password")] /\
  assigned (snd (run (Demo.sign_in (py "admin") (py "password"))
                   (start (X := Demo.shop [] []) 0%nat)))
    = {[AUTH := VBool true]}.
Proof.
  destruct (hash_deterministic_and_reused (X := Demo.shop [] []) (Y := Demo.down)
              (py "password") (start (X := Demo.shop [] []) 0%nat)
              (start (X := Demo.down) 0%nat)
              (Demo.sign_in (py "admin") (py "password")))
    as (_ & _ & _ & _ & Hd & Hs).
  split; [reflexivity|]. split; [exact Hd|].
  rewrite (Hs eq_refl true); [reflexivity|].
  rewrite verify_value. vm_compute. reflexivity.
Defined.

(** ** The query helpers *)

Lemma emitted_intro {X A} (m : M X A) (w : world X) evs :
  trace (snd (m w)) = trace w ++ evs -> emitted m w = evs.
Proof. intros H. unfold emitted. rewrite H. apply drop_app_length. Qed.

(** Steps through a computation: unfolds the monad and splits on every
    value that a [match] inspects. *)
Ltac step_world :=
  unfold execute, collection_like, collection_aggregate, pymongo_find, next,
    getitem, get_db, get_collection, get_r, set_db, set_collection, set_r,
    keyed, draw, emit, modify, call, lift, bind, ret, raise in *;
  simpl in *.

Ltac split_match :=
  match goal with
  | |- context [match ?x with _ => _ end] =>
      lazymatch x with
      | context [match _ with _ => _ end] => fail
      | _ => destruct x eqn:?
      end
  end.

Ltac close_trace :=
  simpl; rewrite <- ?app_assoc; simpl;
  first [reflexivity | symmetry; apply app_nil_r].

Lemma search_emitted {X} k v index n (w : world X) :
  emitted (_search k v index n) w = search_request w k v index n.
Proof.
  apply emitted_intro. unfold _search, search_request. step_world.
  repeat (split_match; simpl); close_trace.
Qed.

Lemma search_result {X} k v index n (w : world X) db c :
  g_db (module w) = Some db ->
  g_collection (module w) = Some (SdCollection c) ->
  _search k v index n w =
  (let q := Query (Find (Like c {[k := v]} index n)) in
   (fst (db_execute X q (outside w)),
    set_outside (snd (db_execute X q (outside w))) (add_event (EvExecute db q) w))).
Proof.
  intros Hdb Hc. unfold _search. step_world. rewrite Hdb, Hc. simpl.
  destruct (db_execute X _ (outside w)); reflexivity.
Qed.

Lemma exclude_id_lookup (d : document) : exclude ["_id"] d !! "_id" = None.
Proof. simpl. apply lookup_delete_eq. Qed.

Lemma exclude_id_other (d : document) k :
  k <> "_id" -> exclude ["_id"] d !! k = d !! k.
Proof. intros H. simpl. apply lookup_delete_ne. congruence. Qed.

Lemma find_length (docs : list document) :
  (length (firstn 5 (List.map (exclude ["_id"]) docs)) <= 5)%nat.
Proof. apply firstn_le_length. Qed.

Lemma find_no_id (docs : list document) d :
  In d (firstn 5 (List.map (exclude ["_id"]) docs)) -> d !! "_id" = None.
Proof.
  intros Hin%list_elem_of_In. apply elem_of_take in Hin as (j & Hj & _).
  apply list_elem_of_lookup_2, list_elem_of_In, in_map_iff in Hj as (d0 & <- & _).
  apply exclude_id_lookup.
Qed.

(** The raw query tab after a click on Query, case by case. *)
Lemma tab0_click {X} i uri (w : world X) :
  query_button i = true ->
  tab0 i uri w =
  let w0 := set_session_state <["query-button" := VBool true]> w in
  match mongo_client X uri (outside w) with
  | (Raise e, s) => (Raise e, set_outside s w0)
  | (Ok _, s) =>
      let h := PymongoCollection uri "ecommerce" "multimodal" in
      let w1 := snd (set_collection h
                       (add_event (EvMongoClient uri) (set_outside s w0))) in
      match json_loads X (raw_query i) with
      | Raise e => (Raise e, w1)
      | Ok filter =>
          let w2 := add_event (EvMongoFind h filter ["_id"] 5) w1 in
          match mongo_matching X filter s with
          | (Raise e, s') => (Raise e, set_outside s' w2)
          | (Ok docs, s') =>
              match json_dumps (firstn 5 (List.map (exclude ["_id"]) docs)) with
              | Raise e => (Raise e, set_outside s' w2)
              | Ok text =>
                  (Ok tt, add_event (EvDraw (TextJson text)) (set_outside s' w2))
              end
          end
      end
  end.
Proof.
  intros Hq. unfold tab0. rewrite Hq. step_world.
  destruct (mongo_client X uri (outside w)) as [[[]|e] s]; simpl; [|reflexivity].
  destruct (json_loads X (raw_query i)) as [f|e]; simpl; [|reflexivity].
  destruct (mongo_matching X f s) as [[docs|e] s']; simpl; [|reflexivity].
  destruct (json_dumps _); reflexivity.
Qed.

Lemma tab0_idle {X} i uri (w : world X) :
  query_button i = false ->
  tab0 i uri w = (Ok tt, set_session_state <["query-button" := VBool false]> w).
Proof. intros Hq. unfold tab0. rewrite Hq. reflexivity. Qed.

Lemma json_dumps_ok docs text : json_dumps docs = Ok text -> text = docs.
Proof. unfold json_dumps. destruct (forallb _ docs); congruence. Qed.

Lemma tab0_emitted {X} i uri (w : world X) :
  emitted (tab0 i uri) w = raw_events i uri w.
Proof.
  apply emitted_intro. unfold raw_events.
  destruct (query_button i) eqn:Hq.
  - rewrite (tab0_click i uri w Hq).
    destruct (mongo_client X uri (outside w)) as [[[]|e] s]; simpl; [|close_trace].
    destruct (json_loads X (raw_query i)) as [f|e]; simpl; [|close_trace].
    destruct (mongo_matching X f s) as [[docs|e] s']; simpl; [|close_trace].
    destruct (json_dumps _); close_trace.
  - unfold tab0. rewrite Hq. close_trace.
Qed.

(** C3.  Whatever the world and the payload: a text-to-image search
    asks the backend for exactly 3 results, a text-to-text search for
    exactly 10, and the raw query for exactly 5 (so at most 3, 10 and
    5); the documents the raw query returns and the
    tab prints are at most 5 and none of them has the field "_id",
    however many documents the collection holds. *)
Theorem dispatch_result_bounds {X} (w : world X) (text : pystr) (title : value)
    (i : inputs) (uri : pystr) (h : handle) (filter : jsonv) :
  (forall e n, In e (emitted (text_2_image_search text) w) ->
               requested e = Some n -> n = 3) /\
  (forall e n, In e (emitted (text_2_text_search title) w) ->
               requested e = Some n -> n = 10) /\
  (forall e n, In e (emitted (tab0 i uri) w) ->
               requested e = Some n -> n = 5) /\
  (forall docs, fst (pymongo_find h filter ["_id"] 5 w) = Ok docs ->
                (length docs <= 5)%nat /\ forall d, In d docs -> d !! "_id" = None) /\
  (forall docs, In (EvDraw (TextJson docs)) (emitted (tab0 i uri) w) ->
                (length docs <= 5)%nat /\ forall d, In d docs -> d !! "_id" = None).
Proof.
  assert (Hs : forall k v index m e n,
             In e (emitted (_search k v index m) w) -> requested e = Some n -> n = m).
  { intros k v index m e n. rewrite search_emitted. unfold search_request.
    destruct (g_db (module w)); [|intros []].
    destruct (g_collection (module w)) as [[?|? ? ?]|];
      [|intros []|intros []].
    intros [<-|[]]. simpl. congruence. }
  split; [intros e n; apply Hs|]. split; [intros e n; apply Hs|].
  split; [|split].
  - intros e n. rewrite tab0_emitted. unfold raw_events.
    destruct (query_button i); [|intros []].
    destruct (mongo_client X uri (outside w)) as [[[]|?] s]; [|intros []].
    intros [<-|Hin]; [discriminate|].
    destruct (json_loads X (raw_query i)) as [f|?]; [|destruct Hin].
    destruct Hin as [<-|Hin]; [intros [= <-]; reflexivity|].
    destruct (mongo_matching X f s) as [[docs|?] ?]; [|destruct Hin].
    destruct (json_dumps _); [|destruct Hin].
    destruct Hin as [<-|[]]. discriminate.
  - intros docs. unfold pymongo_find. step_world.
    destruct (mongo_matching X filter (outside w)) as [[ds|?] ?]; simpl; [|discriminate].
    intros [= <-]. split; [apply find_length|apply find_no_id].
  - intros docs. rewrite tab0_emitted. unfold raw_events.
    destruct (query_button i); [|intros []].
    destruct (mongo_client X uri (outside w)) as [[[]|?] s]; [|intros []].
    intros [|Hin]; [discriminate|].
    destruct (json_loads X (raw_query i)) as [f|?]; [|destruct Hin].
    destruct Hin as [|Hin]; [discriminate|].
    destruct (mongo_matching X f s) as [[ds|?] ?]; [|destruct Hin].
    destruct (json_dumps _) as [shown_text|?] eqn:J; [|destruct Hin].
    apply json_dumps_ok in J. subst shown_text.
    destruct Hin as [[= <-]|[]]. split; [apply find_length|apply find_no_id].
Qed.

Lemma dispatch_result_bounds_witness :
  let w := Demo.ready (Demo.shop [] []) 0%nat in
  (exists e n, In e (emitted (text_2_image_search (py "red shoe")) w) /\
               requested e = Some n /\ n = 3) /\
  (exists e n, In e (emitted (text_2_text_search (VStr (py "shoe"))) w) /\
               requested e = Some n /\ n = 10) /\
  (exists docs, In (EvDraw (TextJson docs))
                  (emitted (tab0 (Demo.raw (py "{}")) default_uri) w) /\
                length docs = 5%nat /\
                forall d, In d docs -> d !! "_id" = None).
Proof.
  intros w.
  pose proof (dispatch_result_bounds w (py "red shoe") (VStr (py "shoe"))
                (Demo.raw (py "{}")) default_uri (SdCollection "multimodal") JNull)
    as (H3 & H10 & _ & _ & Hraw).
  split; [|split].
  - eexists (EvExecute 0%nat (Query (Find (Like "multimodal" _ "my-index" 3)))), 3.
    assert (Hin : In (EvExecute 0%nat
                        (Query (Find (Like "multimodal"
                                        {["search" := VStr (py "red shoe")]}
                                        "my-index" 3))))
                     (emitted (text_2_image_search (py "red shoe")) w))
      by (left; reflexivity).
    split; [exact Hin|]. split; [reflexivity|]. exact (H3 _ 3 Hin eq_refl).
  - eexists (EvExecute 0%nat (Query (Find (Like "multimodal" _ "text-index" 10)))), 10.
    assert (Hin : In (EvExecute 0%nat
                        (Query (Find (Like "multimodal"
                                        {["title" := VStr (py "shoe")]}
                                        "text-index" 10))))
                     (emitted (text_2_text_search (VStr (py "shoe"))) w))
      by (left; reflexivity).
    split; [exact Hin|]. split; [reflexivity|]. exact (H10 _ 10 Hin eq_refl).
  - exists (firstn 5 (List.map (exclude ["_id"])
                        (List.map Demo.record
                           [Demo.shirt; Demo.shoe; Demo.hat; Demo.shirt; Demo.shoe;
                            Demo.hat; Demo.shirt]))).
    assert (Hin : In (EvDraw (TextJson
                        (firstn 5 (List.map (exclude ["_id"])
                           (List.map Demo.record
                              [Demo.shirt; Demo.shoe; Demo.hat; Demo.shirt; Demo.shoe;
                               Demo.hat; Demo.shirt])))))
                     (emitted (tab0 (Demo.raw (py "{}")) default_uri) w))
      by (vm_compute; right; right; left; reflexivity).
    split; [exact Hin|]. split; [reflexivity|]. exact (proj2 (Hraw _ Hin)).
Defined.

(** ** The browse tab *)

(** C4.  The browse tab at a backend whose sample is the shirt and
    whose image index answers the shirt and the shoe.  The sample is
    drawn and its image seeds the image search, but the loop over the
    image results rebinds [r]: the title search of line 143 is sent
    with the title of the last image result ("shoe"), not with the
    title of the sampled document ("shirt").  It does go to the title
    index with n = 10.  When the image search answers nothing, [r] is
    still the sampled document and the title search is sent with
    "shirt". *)
Theorem browse_title_search_seed :
  let w := Demo.ready (Demo.shop [Demo.shirt; Demo.shoe] [Demo.hat]) 0%nat in
  let w0 := Demo.ready (Demo.shop [] [Demo.hat]) 0%nat in
  In (EvExecute 0%nat
        (Query (Find (Like "multimodal" {["title" := VStr (py "shirt")]} "text-index" 10))))
     (emitted tab3 w0) /\
  fst (random_product w) = Ok Demo.shirt /\
  Demo.shirt !! "title" = Some (VStr (py "shirt")) /\
  fst (tab3 w) = Ok tt /\
  emitted tab3 w =
    [EvExecute 0%nat (Query (Aggregate "multimodal" [Sample 1]));
     EvDraw (Image (VImage 1) (Some (VStr (py "shirt"))));
     EvDraw (Markdown (py "### Based on image"));
     EvExecute 0%nat
       (Query (Find (Like "multimodal" {["img" := VEncoded (VImage 1)]} "my-index" 3)));
     EvDraw (Image (VImage 1) None);
     EvDraw (Image (VImage 2) None);
     EvDraw (Markdown (py "### Based on title"));
     EvExecute 0%nat
       (Query (Find (Like "multimodal" {["title" := VStr (py "shoe")]} "text-index" 10)));
     EvDraw (Text (VStr (py "hat")))].
Proof.
  split; [do 5 right; left; vm_compute; reflexivity|].
  repeat split; vm_compute; reflexivity.
Qed.

(** ** Connections *)

Lemma connected_frame {X} (w w' : world X) :
  cache_resource w' = cache_resource w ->
  trace w' = trace w ->
  (g_db (module w') = g_db (module w) \/ g_db (module w') = None) ->
  stays_connected w w'.
Proof.
  intros Hc Ht Hg (H1 & H2 & H3 & H4). unfold connected, datalayers_created in *.
  rewrite Hc, Ht. repeat split; auto.
  destruct Hg as [-> | ->]; [exact H1|discriminate].
Qed.

Lemma connected_event {X} e (w : world X) :
  no_datalayer_event e -> stays_connected w (add_event e w).
Proof.
  intros He (H1 & H2 & H3 & H4). unfold connected, datalayers_created in *. simpl.
  repeat split.
  - exact H1.
  - intros db q [Hin|[->|[]]]%in_app_or; [eauto|destruct He].
  - intros c Hc. destruct (H3 c Hc) as [uri Hu]. exists uri. apply in_or_app. auto.
  - rewrite List.filter_app, length_app, H4. simpl.
    destruct e; simpl; try lia; destruct He.
Qed.

Lemma connected_execute {X} db q (w : world X) :
  g_db (module w) = Some db -> stays_connected w (add_event (EvExecute db q) w).
Proof.
  intros Hdb (H1 & H2 & H3 & H4). unfold connected, datalayers_created in *. simpl.
  repeat split.
  - exact H1.
  - intros db' q' [Hin|[[= <- <-]|[]]]%in_app_or; eauto.
  - intros c Hc. destruct (H3 c Hc) as [uri Hu]. exists uri. apply in_or_app. auto.
  - rewrite List.filter_app, length_app, H4. simpl. lia.
Qed.

Lemma stays_connected_trans {X} (a b c : world X) :
  stays_connected a b -> stays_connected b c -> stays_connected a c.
Proof. unfold stays_connected. auto. Qed.

Lemma connected_execute_call {X} db q :
  forall w : world X, g_db (module w) = Some db ->
                      stays_connected w (snd (execute db q w)).
Proof.
  intros w Hdb. unfold execute. step_world.
  destruct (db_execute X q (outside w)) as [r s]. simpl.
  eapply stays_connected_trans; [apply (connected_execute db q w Hdb)|].
  apply connected_frame; auto.
Qed.

Lemma connected_search {X} k v index n :
  keeps (X := X) stays_connected (_search k v index n).
Proof.
  intros w. unfold _search, bind, get_db.
  destruct (g_db (module w)) as [db|] eqn:Hdb; [|intros H; exact H].
  unfold collection_like, bind, get_collection.
  destruct (g_collection (module w)) as [[c|? ? ?]|]; simpl; try (intros H; exact H).
  apply connected_execute_call, Hdb.
Qed.

Lemma connected_random {X} : keeps (X := X) stays_connected random_product.
Proof.
  intros w. unfold random_product, bind, get_db.
  destruct (g_db (module w)) as [db|] eqn:Hdb; [|intros H; exact H].
  unfold collection_aggregate, bind, get_collection.
  destruct (g_collection (module w)) as [[c|uri dbn c]|]; simpl; try (intros H; exact H).
  - pose proof (connected_execute_call db (Query (Aggregate c [Sample 1])) w Hdb) as H.
    destruct (execute db _ w) as [[cur|e] w']; simpl in *; [|exact H].
    destruct cur; exact H.
  - step_world.
    destruct (mongo_aggregate X [Sample 1] (outside w)) as [[docs|e] s]; simpl.
    + set (w1 := set_outside s (add_event _ w)).
      assert (H01 : stays_connected w w1).
      { eapply stays_connected_trans;
        [apply (connected_event
                  (EvMongoAggregate (PymongoCollection uri dbn c) [Sample 1]) w I)|].
        apply connected_frame; auto. }
      assert (H12 : stays_connected w1 (snd (execute db (CommandCursor docs) w1)))
        by (apply connected_execute_call; exact Hdb).
      unfold execute in H12. step_world.
      destruct (db_execute X (CommandCursor docs) s) as [[cur|e] s']; simpl in *.
      * destruct cur; simpl; eapply stays_connected_trans; eauto.
      * eapply stays_connected_trans; eauto.
    + eapply stays_connected_trans;
        [apply (connected_event
                  (EvMongoAggregate (PymongoCollection uri dbn c) [Sample 1]) w I)|].
      apply connected_frame; auto.
Qed.

Lemma connected_connect {X} uri :
  keeps (X := X) stays_connected (db <- _init uri ;;; set_db db).
Proof.
  intros w Hw. unfold bind, _init.
  destruct (cache_resource w) as [c|] eqn:Hc.
  - simpl. destruct Hw as (H1 & H2 & H3 & H4).
    unfold connected, datalayers_created in *. simpl. rewrite Hc in *.
    repeat split; auto.
  - step_world. destruct (superduper X uri (outside w)) as [[[]|e] s]; simpl.
    + destruct Hw as (H1 & H2 & H3 & H4).
      unfold connected, datalayers_created in *. simpl. rewrite Hc in *.
      repeat split.
      * intros d [= <-]. reflexivity.
      * intros db q [Hin|[|[]]]%in_app_or; [|discriminate].
        specialize (H2 _ _ Hin). discriminate.
      * intros c [= <-]. exists uri. apply in_or_app. right. left. reflexivity.
      * rewrite List.filter_app, length_app, H4. reflexivity.
    + revert Hw. apply connected_frame; auto.
Qed.

Lemma runs_connected {X} (clicks : list inputs) (w : world X) :
  connected w -> connected (runs clicks w).
Proof.
  apply (keeps_runs stays_connected (fun w H => H) stays_connected_trans
           no_datalayer_event (fun e w => connected_event e w)).
  - intros s w0. apply connected_frame; auto.
  - intros d w0. apply connected_frame; auto.
  - intros h w0. apply connected_frame; auto.
  - intros k v Hk w0. apply connected_frame; auto.
  - intros; exact I.
  - intros; exact I.
  - intros; exact I.
  - apply connected_connect.
  - apply connected_search.
  - apply connected_random.
  - intros f w0. apply connected_frame; auto.
  - intros; exact I.
  - intros w0. apply connected_frame; auto.
Qed.

Lemma start_connected {X} (s : env_state X) : connected (start s).
Proof.
  unfold connected, datalayers_created. simpl. repeat split; try discriminate.
  intros db q [].
Qed.

(** C5, as stated, fails: after a login and two raw queries the
    process has opened three connections, the [Datalayer] of [_init]
    and one [MongoClient] per raw query. *)
Lemma raw_query_opens_connections :
  let w := runs [Demo.sign_in (py "admin") (py "password");
                 Demo.raw (py "{}"); Demo.raw (py "{}")]
             (start (X := Demo.shop [Demo.shirt] [Demo.hat]) 0%nat) in
  connections_opened w = 3%nat /\
  List.filter is_connection (trace w) =
    [EvSuperduper 3%nat default_uri; EvMongoClient default_uri;
     EvMongoClient default_uri].
Proof. split; vm_compute; reflexivity. Qed.

(** C5, amended.  In any session the [Datalayer] behind [db] is created
    at most once, by the first call of [_init] that gets through, and
    every [db.execute] goes to it; a raw query whose [MongoClient]
    constructor returns opens a client of its own. *)
Theorem datalayer_created_once {X} (s : env_state X) (clicks : list inputs)
    (i : inputs) (uri : pystr) (w0 : world X) :
  let w := runs clicks (start s) in
  (datalayers_created w <= 1)%nat /\
  (forall db q, In (EvExecute db q) (trace w) ->
     cache_resource w = Some db /\ exists u, In (EvSuperduper db u) (trace w)) /\
  (query_button i = true -> fst (mongo_client X uri (outside w0)) = Ok tt ->
     In (EvMongoClient uri) (emitted (tab0 i uri) w0)).
Proof.
  intros w.
  destruct (runs_connected clicks (start s) (start_connected s)) as (H1 & H2 & H3 & H4).
  fold w in H1, H2, H3, H4. split; [|split].
  - rewrite H4. destruct (cache_resource w); lia.
  - intros db q Hin. split; [eauto|]. apply H3. eauto.
  - intros Hq Hc. rewrite tab0_emitted. unfold raw_events. rewrite Hq.
    destruct (mongo_client X uri (outside w0)) as [[[]|e] s']; [|discriminate].
    left. reflexivity.
Qed.

Lemma datalayer_created_once_witness :
  let X := Demo.shop [Demo.shirt] [Demo.hat] in
  let w := runs [Demo.sign_in (py "admin") (py "password"); Demo.idle]
             (start (X := X) 0%nat) in
  In (EvExecute 3%nat (Query (Aggregate "multimodal" [Sample 1]))) (trace w) /\
  cache_resource w = Some 3%nat /\
  datalayers_created w = 1%nat /\
  query_button (Demo.raw (py "{}")) = true /\
  In (EvMongoClient default_uri)
     (emitted (tab0 (Demo.raw (py "{}")) default_uri) (Demo.ready X 0%nat)).
Proof.
  intros X w.
  destruct (datalayer_created_once (X := X) 0%nat
              [Demo.sign_in (py "admin") (py "password"); Demo.idle]
              (Demo.raw (py "{}")) default_uri (Demo.ready X 0%nat))
    as (_ & H2 & H3).
  assert (Hin : In (EvExecute 3%nat (Query (Aggregate "multimodal" [Sample 1])))
                  (trace w))
    by (vm_compute; do 5 right; left; reflexivity).
  split; [exact Hin|]. split; [exact (proj1 (H2 _ _ Hin))|].
  split; [vm_compute; reflexivity|]. split; [reflexivity|].
  exact (H3 eq_refl eq_refl).
Defined.

(** ** Documents handed to the rendering calls *)

Lemma show_results_cons {X} d rs (w : world X) :
  show_results (d :: rs) w =
  match shown X d with
  | Ok _ => show_results rs (add_event (drawn d) (bound d w))
  | Raise e => (Raise e, bound d w)
  end.
Proof.
  unfold show_results, shown, drawn, bound. simpl for_each. unfold unpack. step_world.
  destruct (d !! "img") as [img|]; simpl; [|reflexivity].
  destruct (d !! "title") as [title|]; simpl; [|reflexivity].
  destruct (st_image X img (Some title)) as [[]|e]; reflexivity.
Qed.







(** ** Failures *)

Lemma bind_raise {X A B} (m : M X A) (k : A -> M X B) (w : world X) e :
  fst (m w) = Raise e -> bind m k w = (Raise e, snd (m w)).
Proof.
  intros H. unfold bind. destruct (m w) as [[a|e'] w']; simpl in *; [discriminate|].
  congruence.
Qed.

(** C8.  A raw query that [json.loads] rejects ends the raw query tab
    with that very exception, before any request is sent and with
    nothing printed.  A backend failure of the raw query or of a
    vector search ends the helper with that very exception after
    exactly one request, with nothing drawn.  The script has no
    handler: an exception raised by a statement is the outcome of
    every sequence the statement is part of, up to the whole execution
    (shown on the two example backends). *)
Theorem failures_propagate {X} (w : world X) (i : inputs) (uri : pystr) (e : exn)
    (s1 : env_state X) (filter : jsonv)
    (k : string) (v : value) (index : string) (n : N) (db : conn) (c : string) :
  (query_button i = true ->
   fst (mongo_client X uri (outside w)) = Ok tt ->
   json_loads X (raw_query i) = Raise e ->
     fst (tab0 i uri w) = Raise e /\
     emitted (tab0 i uri) w = [EvMongoClient uri]) /\
  (query_button i = true ->
   mongo_client X uri (outside w) = (Ok tt, s1) ->
   json_loads X (raw_query i) = Ok filter ->
   fst (mongo_matching X filter s1) = Raise e ->
     fst (tab0 i uri w) = Raise e /\
     emitted (tab0 i uri) w =
       [EvMongoClient uri;
        EvMongoFind (PymongoCollection uri "ecommerce" "multimodal") filter ["_id"] 5] /\
     outside (snd (tab0 i uri w)) = snd (mongo_matching X filter s1)) /\
  (g_db (module w) = Some db ->
   g_collection (module w) = Some (SdCollection c) ->
   fst (db_execute X (Query (Find (Like c {[k := v]} index n))) (outside w)) = Raise e ->
     fst (_search k v index n w) = Raise e /\
     emitted (_search k v index n) w =
       [EvExecute db (Query (Find (Like c {[k := v]} index n)))] /\
     outside (snd (_search k v index n w)) =
       snd (db_execute X (Query (Find (Like c {[k := v]} index n))) (outside w))) /\
  (forall A B (m : M X A) (f : A -> M X B) w0,
     fst (m w0) = Raise e -> bind m f w0 = (Raise e, snd (m w0))) /\
  fst (run (Demo.raw (py "{'title': "))
         (snd (run (Demo.sign_in (py "admin") (py "password"))
                 (start (X := Demo.shop [Demo.shirt] [Demo.hat]) 0%nat))))
    = Raise JSONDecodeError /\
  fst (run (Demo.search (py "shirt"))
         (snd (run (Demo.sign_in (py "admin") (py "password"))
                 (start (X := Demo.down) 0%nat))))
    = Raise (BackendError 503).
Proof.
  split; [|split; [|split; [|split; [|split]]]].
  - intros Hq Hc Hj. rewrite tab0_emitted. unfold raw_events.
    rewrite (tab0_click i uri w Hq), Hq.
    destruct (mongo_client X uri (outside w)) as [[[]|e'] s]; [|discriminate].
    rewrite Hj. split; reflexivity.
  - intros Hq Hc Hj Hm. rewrite tab0_emitted. unfold raw_events.
    rewrite (tab0_click i uri w Hq), Hq, Hc, Hj.
    destruct (mongo_matching X filter s1) as [[docs|e'] s']; simpl in *; [discriminate|].
    injection Hm as ->. repeat split.
  - intros Hdb Hc He. rewrite search_emitted. unfold search_request.
    rewrite (search_result k v index n w db c Hdb Hc), Hdb, Hc. simpl.
    repeat split. exact He.
  - intros A B m f w0. apply bind_raise.
  - vm_compute. reflexivity.
  - vm_compute. reflexivity.
Qed.

Lemma failures_propagate_witness :
  let w := Demo.ready Demo.down 0%nat in
  query_button (Demo.raw (py "{}")) = true /\
  json_loads Demo.down (py "{") = Raise JSONDecodeError /\
  fst (tab0 (Demo.raw (py "{")) default_uri w) = Raise JSONDecodeError /\
  emitted (tab0 (Demo.raw (py "{")) default_uri) w = [EvMongoClient default_uri] /\
  fst (tab0 (Demo.raw (py "{}")) default_uri w) = Raise (BackendError 503) /\
  fst (_search "search" (VStr (py "shirt")) "my-index" 3 w) = Raise (BackendError 503) /\
  emitted (_search "search" (VStr (py "shirt")) "my-index" 3) w =
    [EvExecute 0%nat (Query (Find (Like "multimodal" {["search" := VStr (py "shirt")]}
                                     "my-index" 3)))].
Proof.
  intros w.
  destruct (failures_propagate w (Demo.raw (py "{")) default_uri JSONDecodeError
              1%nat JNull "search" (VStr (py "shirt")) "my-index" 3 0%nat "multimodal")
    as (H1 & _).
  destruct (failures_propagate w (Demo.raw (py "{}")) default_uri (BackendError 503)
              1%nat (JObj []) "search" (VStr (py "shirt")) "my-index" 3 0%nat
              "multimodal")
    as (_ & H2 & H3 & _).
  destruct (H1 eq_refl eq_refl eq_refl) as [H1a H1b].
  destruct (H2 eq_refl eq_refl eq_refl eq_refl) as (H2a & _).
  destruct (H3 eq_refl eq_refl eq_refl) as (H3a & H3b & _).
  repeat split; assumption.
Defined.

(** ** The global [collection] *)

Lemma search_tabs_same_collection {X} i (w : world X) :
  same_collection w (snd (tab1 i w)) /\ same_collection w (snd (tab2 i w)).
Proof.
  assert (Hrefl : forall w : world X, same_collection w w) by reflexivity.
  assert (Htrans : forall a b c : world X,
             same_collection a b -> same_collection b c -> same_collection a c).
  { unfold same_collection. intros a b c H1 H2. congruence. }
  assert (Hev : forall e (w : world X), True -> same_collection w (add_event e w))
    by reflexivity.
  assert (Hout : forall s (w : world X), same_collection w (set_outside s w))
    by reflexivity.
  assert (Hr : forall d, keeps (X := X) same_collection (set_r d))
    by (intros d w0; reflexivity).
  assert (Hs : forall k v index n, keeps (X := X) same_collection (_search k v index n)).
  { intros. apply (plain_search same_collection Hrefl Htrans (fun _ => True) Hev Hout).
    intros; exact I. }
  split.
  - apply (keeps_tab1 same_collection Hrefl Htrans (fun _ => True) Hev Hr); auto.
  - apply (keeps_tab2 same_collection Hrefl Htrans (fun _ => True) Hev Hr); auto.
Qed.

(** C10.  A click on Query rebinds the global [collection] to the
    pymongo collection as soon as the client exists, whatever happens
    to the query afterwards; the two search tabs do not rebind it, so
    it is still the pymongo collection when the browse tab runs in the
    same execution.  With that binding the sample-one helper calls
    [aggregate] on the pymongo collection and hands the cursor to
    [db.execute] instead of sending the superduperdb aggregate query,
    and the vector-search helper calls [like] on the pymongo
    collection, which raises before any request is sent.  Without the
    click the binding of line 59 stays. *)
Theorem raw_query_rebinds_collection {X} (w : world X) (i : inputs) (uri : pystr)
    (db : conn) (u : pystr) (d c : string) :
  (query_button i = true -> fst (mongo_client X uri (outside w)) = Ok tt ->
     let h := PymongoCollection uri "ecommerce" "multimodal" in
     g_collection (module (snd (tab0 i uri w))) = Some h /\
     g_collection (module (snd ((tab0 i uri ;;; tab1 i ;;; tab2 i) w))) = Some h) /\
  (query_button i = false ->
     g_collection (module (snd ((tab0 i uri ;;; tab1 i ;;; tab2 i) w)))
       = g_collection (module w)) /\
  (g_db (module w) = Some db ->
   g_collection (module w) = Some (PymongoCollection u d c) ->
     emitted random_product w = pymongo_sample_events w db (PymongoCollection u d c) /\
     forall k v index n, _search k v index n w = (Raise TypeError, w)) /\
  (g_db (module w) = Some db ->
   g_collection (module w) = Some (SdCollection c) ->
     emitted random_product w = [EvExecute db (Query (Aggregate c [Sample 1]))]).
Proof.
  assert (Hrest : forall w0 : world X,
             g_collection (module (snd ((tab1 i ;;; tab2 i) w0)))
             = g_collection (module w0)).
  { intros w0. unfold bind.
    destruct (search_tabs_same_collection i w0) as [H1 _].
    destruct (tab1 i w0) as [[[]|e] w1]; simpl in *; [|exact H1].
    destruct (search_tabs_same_collection i w1) as [_ H2].
    unfold same_collection in *. congruence. }
  split; [|split; [|split]].
  - intros Hq Hc h.
    assert (H0 : g_collection (module (snd (tab0 i uri w))) = Some h).
    { rewrite (tab0_click i uri w Hq).
      destruct (mongo_client X uri (outside w)) as [[[]|e] s]; [|discriminate].
      destruct (json_loads X (raw_query i)) as [f|e]; [|reflexivity].
      simpl. destruct (mongo_matching X f s) as [[docs|e] s']; [|reflexivity].
      destruct (json_dumps _); reflexivity. }
    split; [exact H0|]. unfold bind at 1.
    destruct (tab0 i uri w) as [[[]|e] w0]; simpl in *; [|exact H0].
    rewrite Hrest. exact H0.
  - intros Hq. unfold bind at 1. rewrite (tab0_idle i uri w Hq). rewrite Hrest.
    reflexivity.
  - intros Hdb Hc. split.
    + apply emitted_intro. unfold random_product, pymongo_sample_events. step_world.
      rewrite Hdb, Hc. simpl.
      destruct (mongo_aggregate X [Sample 1] (outside w)) as [[docs|e] s]; simpl;
        [|reflexivity].
      destruct (db_execute X (CommandCursor docs) s) as [[[|d0 cur]|e] s'];
        close_trace.
    + intros k v index n. unfold _search. step_world. rewrite Hdb, Hc. reflexivity.
  - intros Hdb Hc. apply emitted_intro. unfold random_product. step_world.
    rewrite Hdb, Hc. simpl.
    destruct (db_execute X _ (outside w)) as [[[|d0 cur]|e] s']; close_trace.
Qed.

Lemma raw_query_rebinds_collection_witness :
  let X := Demo.shop [Demo.shirt] [Demo.hat] in
  let w := Demo.ready X 0%nat in
  let h := PymongoCollection default_uri "ecommerce" "multimodal" in
  query_button (Demo.raw (py "{}")) = true /\
  g_collection (module (snd (tab0 (Demo.raw (py "{}")) default_uri w))) = Some h /\
  emitted random_product (snd (tab0 (Demo.raw (py "{}")) default_uri w)) =
    [EvMongoAggregate h [Sample 1]; EvExecute 0%nat (CommandCursor [Demo.shirt])] /\
  fst (main_page (Demo.raw (py "{}")) w) = Raise TypeError /\
  fst (main_page Demo.idle w) = Ok tt.
Proof.
  intros X w h.
  destruct (raw_query_rebinds_collection w (Demo.raw (py "{}")) default_uri 0%nat
              default_uri "ecommerce" "multimodal") as (H1 & _).
  destruct (H1 eq_refl eq_refl) as [H1a _].
  destruct (raw_query_rebinds_collection
              (snd (tab0 (Demo.raw (py "{}")) default_uri w))
              (Demo.raw (py "{}")) default_uri 0%nat
              default_uri "ecommerce" "multimodal") as (_ & _ & H3 & _).
  destruct (H3 eq_refl H1a) as [H3a _].
  split; [reflexivity|]. split; [exact H1a|]. split; [exact H3a|].
  split; vm_compute; reflexivity.
Defined.

(** * Further properties of the script *)

Arguments SHA256.hexdigest : simpl never.

(** ** The gate, step by step *)

Lemma init_session_state_world {X} (w : world X) :
  init_session_state w = (Ok tt, init_world w).
Proof.
  unfold init_session_state, init_world. destruct (session_state w !! AUTH); reflexivity.
Qed.

Lemma gate_explicit {X} i (w : world X) :
  let w2 := add_event (EvSha256 (py "password")) (init_world w) in
  let v := verify (input_username i) (input_password i) reference_digest w2 in
  gate i w =
  if login_button i then
    match fst v with
    | Ok b =>
        (Ok tt,
         add_event (EvDraw (login_message i b))
           (set_session_state <[AUTH := VBool b]> (snd v)))
    | Raise e => (Raise e, snd v)
    end
  else (Ok tt, w2).
Proof.
  intros w2 v. unfold gate, bind.
  rewrite init_session_state_world, hash_password_PASSWORD. fold w2.
  destruct (login_button i) eqn:Hc.
  - destruct (fst v) as [b|e] eqn:E; subst v.
    + rewrite (login_click i _ w2 b Hc E). destruct b; reflexivity.
    + rewrite (login_raises i _ w2 e E), Hc. reflexivity.
  - unfold login. rewrite Hc. reflexivity.
Qed.

Lemma init_world_frame {X} (w : world X) :
  cache_resource (init_world w) = cache_resource w /\
  outside (init_world w) = outside w /\
  module (init_world w) = module w /\
  trace (init_world w) = trace w.
Proof. unfold init_world. destruct (session_state w !! AUTH); repeat split. Qed.

Lemma init_world_lookup {X} (w : world X) :
  exists v, session_state (init_world w) !! AUTH = Some v /\
            (session_state w !! AUTH = Some v \/
             (session_state w !! AUTH = None /\ v = VNone)).
Proof.
  unfold init_world. destruct (session_state w !! AUTH) as [v|] eqn:E.
  - exists v. rewrite E. auto.
  - exists VNone. simpl. rewrite lookup_insert_eq. auto.
Qed.

Lemma gate_frame {X} i (w : world X) :
  cache_resource (snd (gate i w)) = cache_resource w /\
  outside (snd (gate i w)) = outside w /\
  module (snd (gate i w)) = module w /\
  trace (snd (gate i w)) = trace w ++ gate_events i.
Proof.
  destruct (init_world_frame w) as (Hc & Ho & Hm & Ht).
  rewrite gate_explicit. cbv zeta. rewrite verify_value, verify_world.
  unfold gate_events, candidate_digests, hash.
  destruct (login_button i);
    [case_bool_decide;
     [destruct (encode (input_password i)) as [b|e];
      [generalize (bool_decide (SHA256.hexdigest b = reference_digest)); intros d|]|]|];
    cbn [fst snd cache_resource outside module trace add_event set_session_state
         andb app];
    rewrite ?Hc, ?Ho, ?Hm, ?Ht, <- ?app_assoc; auto.
Qed.

Lemma gate_auth_present {X} i (w : world X) :
  exists v, session_state (snd (gate i w)) !! AUTH = Some v.
Proof.
  rewrite gate_session_state. simpl.
  assert (H : exists v,
             match session_state w !! AUTH with
             | Some _ => session_state w
             | None => <[AUTH := VNone]> (session_state w)
             end !! AUTH = Some v).
  { destruct (session_state w !! AUTH) as [v|] eqn:E; [eauto|].
    rewrite lookup_insert_eq. eauto. }
  destruct (login_button i); [|exact H].
  destruct (fst (verify _ _ _ _)); [|exact H].
  rewrite lookup_insert_eq. eauto.
Qed.

Lemma run_by_access {X} i (w : world X) :
  run i w =
  match gate i (fresh_module w) with
  | (Ok _, w') => if access w' then main_page i w' else (Ok tt, w')
  | (Raise e, w') => (Raise e, w')
  end.
Proof.
  unfold run. fold (fresh_module w). rewrite script_gate.
  destruct (gate_auth_present i (fresh_module w)) as [v Hv].
  destruct (gate i (fresh_module w)) as [[[]|e] w']; [|reflexivity].
  unfold access. simpl in Hv. rewrite Hv. reflexivity.
Qed.

Lemma gate_events_not_backend i :
  List.filter is_backend_event (gate_events i) = [].
Proof.
  unfold gate_events, candidate_digests, hash.
  destruct (login_button i); [|reflexivity].
  case_bool_decide; [|reflexivity].
  destruct (encode (input_password i)); reflexivity.
Qed.

Lemma run_emitted_gate {X} i (w : world X) :
  emitted (gate i) (fresh_module w) = gate_events i.
Proof. apply emitted_intro. apply gate_frame. Qed.

Lemma encode_raise p e :
  encode p = Raise e -> e = UnicodeEncodeError /\ ~ well_formed p.
Proof.
  induction p as [|c p IH]; simpl; [discriminate|].
  destruct (utf8_char c) as [b|e0] eqn:Ec.
  - destruct (encode p) as [bs|e1]; [discriminate|].
    intros [= <-]. destruct (IH eq_refl) as [-> Hn]. split; [reflexivity|].
    intros Hw. apply Hn. inversion Hw; assumption.
  - intros [= <-]. split.
    + unfold utf8_char in Ec.
      repeat match type of Ec with
             | (if ?b then _ else _) = _ => destruct b
             end; congruence.
    + intros Hw. inversion Hw as [|? ? Hc _]; subst.
      destruct (utf8_char_scalar c Hc). congruence.
Qed.

(** ** Who gets to the main page *)

(** X1.  Line 33 alone decides whether the main page runs.  When the
    gate returned and the status it leaves is truthy, the execution
    continues with the main page.  In every other case, that is when
    the gate raised (whatever the status) or when the status is not
    truthy, the execution ends there: it has opened no connection, sent
    no request, and left the memo of [_init] and the outside world as
    they were. *)
Theorem access_decides_main_page {X} (i : inputs) (w : world X) :
  let g := gate i (fresh_module w) in
  (auth_session (snd g) = authenticated -> access (snd g) = true) /\
  (auth_session (snd g) = rejected -> access (snd g) = false) /\
  (fst g = Ok tt -> access (snd g) = true -> run i w = main_page i (snd g)) /\
  (fst g <> Ok tt \/ access (snd g) = false ->
     run i w = g /\
     List.filter is_backend_event (emitted (run i) w) = [] /\
     cache_resource (snd (run i w)) = cache_resource w /\
     outside (snd (run i w)) = outside w).
Proof.
  intros g. subst g. split; [|split; [|split]].
  - unfold auth_session, access.
    destruct (session_state _ !! AUTH) as [[|[|]| | | | |]|]; try discriminate.
    reflexivity.
  - unfold auth_session, access.
    destruct (session_state _ !! AUTH) as [[|[|]| | | | |]|]; try discriminate.
    reflexivity.
  - intros Hg Ha. rewrite run_by_access.
    destruct (gate i (fresh_module w)) as [[[]|e] w']; simpl in *; [|discriminate].
    rewrite Ha. reflexivity.
  - intros Ha.
    assert (Hr : run i w = gate i (fresh_module w)).
    { rewrite run_by_access.
      destruct (gate i (fresh_module w)) as [[[]|e] w']; simpl in *; [|reflexivity].
      destruct Ha as [Ha|Ha]; [contradiction Ha; reflexivity|].
      rewrite Ha. reflexivity. }
    destruct (gate_frame i (fresh_module w)) as (Hc & Ho & _ & Ht).
    split; [exact Hr|]. split; [|split].
    + unfold emitted. rewrite Hr, Ht. simpl trace at 1 2.
      rewrite drop_app_length. apply gate_events_not_backend.
    + rewrite Hr. exact Hc.
    + rewrite Hr. exact Ho.
Qed.

Lemma access_decides_main_page_witness :
  let X := Demo.shop [Demo.shirt] [Demo.hat] in
  let w := Demo.ready X 0%nat in
  let bad := Demo.sign_in (py "admin") (py "guess") in
  let odd := Demo.sign_in (py "admin") [112; 0xDC00] in
  access (snd (gate bad (fresh_module w))) = false /\
  List.filter is_backend_event (emitted (run bad) w) = [] /\
  fst (gate odd (fresh_module w)) = Raise UnicodeEncodeError /\
  access (snd (gate odd (fresh_module w))) = true /\
  run odd w = gate odd (fresh_module w) /\
  List.filter is_backend_event (emitted (run odd) w) = [] /\
  access (snd (gate Demo.idle (fresh_module w))) = true /\
  run Demo.idle w = main_page Demo.idle (snd (gate Demo.idle (fresh_module w))).
Proof.
  intros X w bad odd.
  assert (Hb : access (snd (gate bad (fresh_module w))) = false)
    by (vm_compute; reflexivity).
  assert (Ho : fst (gate odd (fresh_module w)) = Raise UnicodeEncodeError)
    by (vm_compute; reflexivity).
  assert (Hi : access (snd (gate Demo.idle (fresh_module w))) = true)
    by (vm_compute; reflexivity).
  destruct (access_decides_main_page bad w) as (_ & _ & _ & H4).
  destruct (access_decides_main_page odd w) as (_ & _ & _ & H5).
  destruct (access_decides_main_page Demo.idle w) as (_ & _ & H3 & _).
  assert (Hodd : fst (gate odd (fresh_module w)) <> Ok tt \/
                 access (snd (gate odd (fresh_module w))) = false)
    by (left; rewrite Ho; discriminate).
  split; [exact Hb|]. split; [exact (proj1 (proj2 (H4 (or_intror Hb))))|].
  split; [exact Ho|]. split; [vm_compute; reflexivity|].
  split; [exact (proj1 (H5 Hodd))|]. split; [exact (proj1 (proj2 (H5 Hodd)))|].
  split; [exact Hi|]. apply H3; [vm_compute; reflexivity|exact Hi].
Defined.

Lemma emitted_run_gate {X} i (w : world X) :
  run i w = gate i (fresh_module w) -> emitted (run i) w = gate_events i.
Proof.
  intros Hr. apply emitted_intro. rewrite Hr.
  destruct (gate_frame i (fresh_module w)) as (_ & _ & _ & Ht). exact Ht.
Qed.

(** X2.  With a username other than the reference one, line 25 stops
    at the comparison of the names: whatever the password field holds,
    text or not, no digest of it is computed and nothing can raise.
    The execution ends normally with the status False and the error
    message as its only widget. *)
Theorem wrong_username_short_circuits {X} (i : inputs) (h : pystr) (w : world X)
    (Hclick : login_button i = true) (Hu : input_username i <> USERNAME) :
  verify (input_username i) (input_password i) h w = (Ok false, w) /\
  fst (run i w) = Ok tt /\
  session_state (snd (run i w)) = <[AUTH := VBool false]> (session_state w) /\
  auth_session (snd (run i w)) = rejected /\
  emitted (run i) w =
    [EvSha256 (py "password");
     EvDraw (SidebarError (py "Incorrect Username/Password"))].
Proof.
  assert (Hv : forall (w0 : world X) h0,
             verify (input_username i) (input_password i) h0 w0 = (Ok false, w0)).
  { intros w0 h0. unfold verify. rewrite bool_decide_eq_false_2 by exact Hu.
    reflexivity. }
  split; [apply Hv|].
  pose proof (gate_explicit i (fresh_module w)) as G. cbv zeta in G.
  rewrite Hclick, Hv in G. cbn [fst snd] in G.
  assert (Hs : session_state (snd (gate i (fresh_module w)))
               = <[AUTH := VBool false]> (session_state w)).
  { rewrite gate_session_state, Hclick, Hv. reflexivity. }
  assert (Ha : access (snd (gate i (fresh_module w))) = false).
  { unfold access. rewrite Hs, lookup_insert_eq. reflexivity. }
  assert (Hr : run i w = gate i (fresh_module w)).
  { rewrite run_by_access. rewrite G in *. cbn [fst snd] in *. rewrite Ha. reflexivity. }
  split; [rewrite Hr, G; reflexivity|].
  split; [rewrite Hr; exact Hs|].
  split; [apply (auth_session_insert w _ false); rewrite Hr; exact Hs|].
  rewrite (emitted_run_gate i w Hr). unfold gate_events, candidate_digests.
  rewrite Hclick, bool_decide_eq_false_2 by exact Hu. reflexivity.
Qed.

Lemma wrong_username_short_circuits_witness :
  let i := Demo.sign_in (py "Admin") [0xD800] in
  let w := Demo.ready (Demo.shop [Demo.shirt] [Demo.hat]) 0%nat in
  login_button i = true /\ input_username i <> USERNAME /\
  encode (input_password i) = Raise UnicodeEncodeError /\
  fst (run i w) = Ok tt /\ auth_session (snd (run i w)) = rejected.
Proof.
  intros i w.
  assert (Hu : input_username i <> USERNAME) by (vm_compute; discriminate).
  destruct (wrong_username_short_circuits i reference_digest w eq_refl Hu)
    as (_ & H1 & _ & H2 & _).
  split; [reflexivity|]. split; [exact Hu|]. split; [reflexivity|].
  split; [exact H1|exact H2].
Defined.

(** X3.  With the reference username and a password field that
    [str.encode()] rejects (a lone surrogate), line 25 raises
    [UnicodeEncodeError] before the status is written: the execution
    ends with that exception, the status is what it was, the candidate
    digest is not computed, and the main page is not run even for a
    user who was logged in. *)
Theorem undecodable_password_aborts {X} (i : inputs) (w : world X) (e : exn)
    (Hclick : login_button i = true) (Hu : input_username i = USERNAME)
    (He : encode (input_password i) = Raise e) :
  e = UnicodeEncodeError /\
  ~ well_formed (input_password i) /\
  fst (run i w) = Raise e /\
  auth_session (snd (run i w)) = auth_session w /\
  (forall v, session_state w !! AUTH = Some v ->
             session_state (snd (run i w)) = session_state w) /\
  emitted (run i) w = [EvSha256 (py "password")].
Proof.
  destruct (encode_raise _ _ He) as [-> Hn].
  split; [reflexivity|]. split; [exact Hn|].
  assert (Hv : forall w0 : world X,
             fst (verify (input_username i) (input_password i) reference_digest w0)
             = Raise UnicodeEncodeError).
  { intros w0. rewrite verify_value, bool_decide_eq_true_2 by exact Hu.
    unfold hash. rewrite He. reflexivity. }
  pose proof (gate_explicit i (fresh_module w)) as G. cbv zeta in G.
  rewrite Hclick, Hv in G.
  assert (Hr : run i w = gate i (fresh_module w)).
  { rewrite run_by_access, G. reflexivity. }
  pose proof (gate_session_state i (fresh_module w)) as S. cbv zeta in S.
  rewrite Hclick, Hv in S. simpl session_state at 2 3 4 in S.
  split; [rewrite Hr, G; reflexivity|].
  split; [rewrite Hr; eapply auth_session_init, S|].
  split.
  - intros v Hl. rewrite Hr, S, Hl. reflexivity.
  - rewrite (emitted_run_gate i w Hr). unfold gate_events, candidate_digests, hash.
    rewrite Hclick, bool_decide_eq_true_2 by exact Hu. rewrite He. reflexivity.
Qed.

Lemma undecodable_password_aborts_witness :
  let i := Demo.sign_in (py "admin") [112; 0xDC00] in
  let w := Demo.ready (Demo.shop [Demo.shirt] [Demo.hat]) 0%nat in
  login_button i = true /\ input_username i = USERNAME /\
  encode (input_password i) = Raise UnicodeEncodeError /\
  fst (run i w) = Raise UnicodeEncodeError /\
  auth_session (snd (run i w)) = authenticated /\
  emitted (run i) w = [EvSha256 (py "password")].
Proof.
  intros i w.
  destruct (undecodable_password_aborts i w UnicodeEncodeError eq_refl eq_refl eq_refl)
    as (_ & _ & H1 & H2 & _ & H3).
  split; [reflexivity|]. split; [reflexivity|]. split; [reflexivity|].
  split; [exact H1|]. split; [rewrite H2; reflexivity|exact H3].
Defined.

Lemma same_session_trans {X} (a b c : world X) :
  same_session a b -> same_session b c -> same_session a c.
Proof. unfold same_session. congruence. Qed.

Ltac same_session_frame :=
  intros; try exact I; unfold keeps, same_session; intros; reflexivity.

Lemma same_session_search {X} k v index n :
  keeps (X := X) same_session (_search k v index n).
Proof.
  apply (plain_search same_session (fun w => eq_refl) same_session_trans (fun _ => True));
    same_session_frame.
Qed.

Lemma same_session_random {X} : keeps (X := X) same_session random_product.
Proof.
  apply (plain_random same_session (fun w => eq_refl) same_session_trans (fun _ => True));
    same_session_frame.
Qed.

Lemma same_session_show_results {X} rs : keeps (X := X) same_session (show_results rs).
Proof.
  apply (keeps_show_results same_session (fun w => eq_refl) same_session_trans
           (fun _ => True)); same_session_frame.
Qed.

Lemma same_session_tab1 {X} i : keeps (X := X) same_session (tab1 i).
Proof.
  apply (keeps_tab1 same_session (fun w => eq_refl) same_session_trans (fun _ => True));
    try apply same_session_search; same_session_frame.
Qed.

Lemma same_session_tab3 {X} : keeps (X := X) same_session tab3.
Proof.
  apply (keeps_tab3 same_session (fun w => eq_refl) same_session_trans (fun _ => True));
    try apply same_session_search; try apply same_session_random; same_session_frame.
Qed.

Lemma tab0_session_state {X} i uri (w : world X) :
  session_state (snd (tab0 i uri w))
  = <["query-button" := VBool (query_button i)]> (session_state w).
Proof.
  destruct (query_button i) eqn:Hq; [|rewrite (tab0_idle i uri w Hq); reflexivity].
  rewrite (tab0_click i uri w Hq). cbv zeta.
  destruct (mongo_client X uri (outside w)) as [[[]|e] s]; [|reflexivity].
  destruct (json_loads X (raw_query i)) as [f|e]; [|reflexivity].
  destruct (mongo_matching X f s) as [[docs|e] s']; [|reflexivity].
  destruct (json_dumps _); reflexivity.
Qed.

Lemma tab2_session_state {X} i (w : world X) :
  session_state (snd (tab2 i w))
  = <["image-search" := file_value (uploaded_file i)]> (session_state w).
Proof.
  assert (K : forall (m : M X unit) w0,
             keeps same_session m -> session_state (snd (m w0)) = session_state w0)
    by (intros m w0 Hm; apply Hm).
  unfold tab2. unfold bind at 1. cbn [keyed modify].
  set (w0 := set_session_state _ w).
  change (<["image-search" := file_value (uploaded_file i)]> (session_state w))
    with (session_state w0).
  apply K.
  destruct (uploaded_file i) as [f|]; [|intros w1; reflexivity].
  apply (keeps_bind same_session same_session_trans); [intros w1; reflexivity|].
  intros image. apply (keeps_bind same_session same_session_trans).
  - apply same_session_search.
  - apply same_session_show_results.
Qed.

(** X4.  Writes to the session state.  The script assigns one key,
    "authentication_status", and the main page holds the two widgets
    that are given a key.  An execution, whatever its inputs and
    outcome, leaves every key other than these three as it found it,
    and the two widget keys as well when it does not reach the main
    page.  In the main page the raw query tab leaves the value of the
    Query button under "query-button", the image search tab leaves the
    uploaded file (or [None]) under "image-search", and the other two
    tabs write nothing. *)
Theorem other_session_keys_untouched {X} (i : inputs) (w : world X) (k : string)
    (uri : pystr) (Hk : k <> AUTH) :
  (k <> "query-button" -> k <> "image-search" ->
     session_state (snd (run i w)) !! k = session_state w !! k) /\
  (fst (gate i (fresh_module w)) <> Ok tt \/
   access (snd (gate i (fresh_module w))) = false ->
     session_state (snd (run i w)) !! k = session_state w !! k) /\
  session_state (snd (tab0 i uri w))
    = <["query-button" := VBool (query_button i)]> (session_state w) /\
  session_state (snd (tab1 i w)) = session_state w /\
  session_state (snd (tab2 i w))
    = <["image-search" := file_value (uploaded_file i)]> (session_state w) /\
  session_state (snd (tab3 w)) = session_state w.
Proof.
  assert (Hg : session_state (snd (gate i (fresh_module w))) !! k = session_state w !! k).
  { rewrite gate_session_state. simpl session_state.
    assert (H1 : match session_state w !! AUTH with
                 | Some _ => session_state w
                 | None => <[AUTH := VNone]> (session_state w)
                 end !! k = session_state w !! k).
    { destruct (session_state w !! AUTH); [reflexivity|].
      apply lookup_insert_ne. congruence. }
    destruct (login_button i); [|exact H1].
    destruct (fst (verify _ _ _ _)); [|exact H1].
    apply lookup_insert_ne. congruence. }
  split; [|split; [|split; [|split; [|split]]]].
  - intros H1 H2. destruct (run_behind_gate i w) as [Hs _].
    rewrite <- (assigned_lookup k (snd (run i w)) H1 H2), Hs,
      (assigned_lookup k _ H1 H2).
    exact Hg.
  - intros Ha.
    assert (Hr : run i w = gate i (fresh_module w)).
    { rewrite run_by_access.
      destruct (gate i (fresh_module w)) as [[[]|e] w']; simpl in *; [|reflexivity].
      destruct Ha as [Ha|Ha]; [contradiction Ha; reflexivity|].
      rewrite Ha. reflexivity. }
    rewrite Hr. exact Hg.
  - apply tab0_session_state.
  - apply same_session_tab1.
  - apply tab2_session_state.
  - apply same_session_tab3.
Qed.

Lemma other_session_keys_untouched_witness :
  let w := set_session_state <["cart" := VInt 3]>
             (Demo.ready (Demo.shop [Demo.shirt] [Demo.hat]) 0%nat) in
  let upload := Inputs None [] [] false (py "{}") false [] false (Some [137; 80]) in
  "cart" <> AUTH /\
  session_state (snd (run upload w)) !! "cart" = Some (VInt 3) /\
  session_state (snd (run upload w)) !! "query-button" = Some (VBool false) /\
  session_state (snd (run upload w)) !! "image-search" = Some (VFile [137; 80]) /\
  session_state (snd (run (Demo.sign_in (py "admin") (py "guess")) w)) !! "query-button"
    = None.
Proof.
  intros w upload. assert (H : "cart" <> AUTH) by discriminate.
  split; [exact H|].
  destruct (other_session_keys_untouched upload w "cart" default_uri H) as (H1 & _).
  destruct (other_session_keys_untouched (Demo.sign_in (py "admin") (py "guess")) w
              "query-button" default_uri ltac:(discriminate)) as (_ & H2 & _).
  split; [rewrite H1 by discriminate; reflexivity|].
  split; [vm_compute; reflexivity|]. split; [vm_compute; reflexivity|].
  rewrite H2; [reflexivity|]. right. vm_compute. reflexivity.
Defined.

(** ** The helpers of the main page, case by case *)

Lemma bind_ok {X A B} (m : M X A) (k : A -> M X B) (w w' : world X) a :
  m w = (Ok a, w') -> bind m k w = k a w'.
Proof. intros H. unfold bind. rewrite H. reflexivity. Qed.

Lemma get_r_ok {X} (w : world X) d : g_r (module w) = Some d -> get_r w = (Ok d, w).
Proof. intros H. unfold get_r. rewrite H. reflexivity. Qed.

Lemma getitem_ok {X} (w : world X) (d : document) k v :
  d !! k = Some v -> getitem d k w = (Ok v, w).
Proof. intros H. unfold getitem. rewrite H. reflexivity. Qed.

Lemma getitem_missing {X} (w : world X) (d : document) k :
  d !! k = None -> getitem d k w = (Raise (KeyError k), w).
Proof. intros H. unfold getitem. rewrite H. reflexivity. Qed.

Lemma random_product_sd {X} (w : world X) db c :
  g_db (module w) = Some db ->
  g_collection (module w) = Some (SdCollection c) ->
  random_product w =
  (let q := Query (Aggregate c [Sample 1]) in
   let w' := set_outside (snd (db_execute X q (outside w)))
               (add_event (EvExecute db q) w) in
   match fst (db_execute X q (outside w)) with
   | Ok (d :: _) => (Ok d, w')
   | Ok [] => (Raise StopIteration, w')
   | Raise e => (Raise e, w')
   end).
Proof.
  intros Hdb Hc. unfold random_product. step_world. rewrite Hdb, Hc. simpl.
  destruct (db_execute X _ (outside w)) as [[[|d cur]|e] s]; reflexivity.
Qed.

Lemma search_on_pymongo {X} (w : world X) db u d c k v index n :
  g_db (module w) = Some db ->
  g_collection (module w) = Some (PymongoCollection u d c) ->
  _search k v index n w = (Raise TypeError, w).
Proof. intros Hdb Hc. unfold _search. step_world. rewrite Hdb, Hc. reflexivity. Qed.

Lemma show_results_draws {X} rs (w : world X) :
  exists evs, trace (snd (show_results rs w)) = trace w ++ evs /\
              Forall (fun e => is_draw e = true) evs /\
              outside (snd (show_results rs w)) = outside w.
Proof.
  revert w. induction rs as [|d rs IH]; intros w.
  - exists []. simpl. rewrite app_nil_r. auto.
  - rewrite show_results_cons.
    destruct (shown X d) as [[]|e]; [|exists []; simpl; rewrite app_nil_r; auto].
    destruct (IH (add_event (drawn d) (bound d w))) as (evs & Ht & Hf & Ho).
    exists (drawn d :: evs). rewrite Ht, Ho. simpl. rewrite <- app_assoc.
    split; [reflexivity|]. split; [|reflexivity].
    constructor; [reflexivity|exact Hf].
Qed.

(** X5.  The sample-one helper takes the first document of the answer
    and ignores the rest; on an empty answer [next] raises
    [StopIteration], and the browse tab ends with it after its one
    request, with nothing drawn. *)
Theorem sample_of_empty_collection {X} (w : world X) (db : conn) (c : string)
    (docs : list document) (s : env_state X)
    (Hdb : g_db (module w) = Some db)
    (Hc : g_collection (module w) = Some (SdCollection c))
    (Hq : db_execute X (Query (Aggregate c [Sample 1])) (outside w) = (Ok docs, s)) :
  fst (random_product w) =
    match docs with d :: _ => Ok d | [] => Raise StopIteration end /\
  emitted random_product w = [EvExecute db (Query (Aggregate c [Sample 1]))] /\
  (docs = [] ->
     fst (tab3 w) = Raise StopIteration /\
     emitted tab3 w = [EvExecute db (Query (Aggregate c [Sample 1]))]).
Proof.
  pose proof (random_product_sd w db c Hdb Hc) as R. cbv zeta in R.
  rewrite Hq in R. cbn [fst snd] in R.
  split; [rewrite R; destruct docs; reflexivity|].
  split.
  - apply emitted_intro. rewrite R. destruct docs; reflexivity.
  - intros ->.
    assert (T : tab3 w = (Raise StopIteration, snd (random_product w))).
    { unfold tab3. apply bind_raise. rewrite R. reflexivity. }
    split; [rewrite T; reflexivity|]. apply emitted_intro. rewrite T, R. reflexivity.
Qed.

Lemma sample_of_empty_collection_witness :
  let X := Externals nat Demo.parse (fun _ => Ok (VImage 9))
             (fun _ s => (Ok tt, s)) (fun _ s => (Ok tt, s))
             (fun _ s => (Ok [], s)) (fun _ s => (Ok [], s)) (fun _ s => (Ok [], s))
             Demo.viewer in
  let w := Demo.ready X 0%nat in
  fst (tab3 w) = Raise StopIteration /\
  emitted tab3 w = [EvExecute 0%nat (Query (Aggregate "multimodal" [Sample 1]))] /\
  fst (main_page Demo.idle w) = Raise StopIteration.
Proof.
  intros X w.
  destruct (sample_of_empty_collection w 0%nat "multimodal" [] 0%nat
              eq_refl eq_refl eq_refl) as (_ & _ & H).
  destruct (H eq_refl) as [H1 H2].
  split; [exact H1|]. split; [exact H2|]. vm_compute. reflexivity.
Defined.

(** X6.  When [superduper(...)] raises on the first call of [_init],
    the main page ends with that exception before anything is drawn or
    bound; nothing is memoised, so the next execution calls it again. *)
Theorem failed_connection_is_not_memoised {X} (i : inputs) (w : world X) (e : exn)
    (s : env_state X)
    (Hcache : cache_resource w = None)
    (Hfail : superduper X (mongodb_uri i) (outside w) = (Raise e, s)) :
  main_page i w = (Raise e, set_outside s w) /\
  cache_resource (snd (main_page i w)) = None /\
  emitted (main_page i) w = [].
Proof.
  assert (H : main_page i w = (Raise e, set_outside s w)).
  { unfold main_page. fold (mongodb_uri i). unfold bind at 1 2. unfold _init.
    rewrite Hcache. unfold bind at 1. unfold call. rewrite Hfail. reflexivity. }
  split; [exact H|]. split; [rewrite H; exact Hcache|].
  apply emitted_intro. rewrite H. simpl. symmetry. apply app_nil_r.
Qed.

Lemma failed_connection_is_not_memoised_witness :
  let X := Externals nat Demo.parse (fun _ => Ok (VImage 9))
             (fun _ s => (if Nat.eqb s 0 then Raise OSError else Ok tt, S s))
             (fun _ s => (Ok tt, S s))
             (Demo.answer [Demo.shirt] [Demo.hat])
             (fun _ s => (Ok [], S s)) (fun _ s => (Ok [], S s)) Demo.viewer in
  let w := set_session_state <[AUTH := VBool true]> (start (X := X) 0%nat) in
  fst (run Demo.idle w) = Raise OSError /\
  cache_resource (snd (run Demo.idle w)) = None /\
  fst (run Demo.idle (snd (run Demo.idle w))) = Ok tt /\
  cache_resource (snd (run Demo.idle (snd (run Demo.idle w)))) = Some 2%nat.
Proof.
  intros X w.
  set (w1 := snd (gate Demo.idle (fresh_module w))).
  destruct (failed_connection_is_not_memoised (X := X) Demo.idle w1 OSError 1%nat
              eq_refl eq_refl) as (H1 & H2 & _).
  assert (Hr : run Demo.idle w = main_page Demo.idle w1) by reflexivity.
  split; [rewrite Hr, H1; reflexivity|]. split; [rewrite Hr; exact H2|].
  split; vm_compute; reflexivity.
Defined.

Lemma draws_are_not_requests evs :
  Forall (fun e => is_draw e = true) evs -> List.filter is_request evs = [].
Proof.
  induction 1 as [|e evs He _ IH]; [reflexivity|].
  simpl. destruct e; try discriminate. exact IH.
Qed.

Lemma search_then_show_requests {X} k v index n (w : world X) db c :
  g_db (module w) = Some db ->
  g_collection (module w) = Some (SdCollection c) ->
  List.filter is_request
    (emitted (results <- _search k v index n ;;; show_results results) w)
  = [EvExecute db (Query (Find (Like c {[k := v]} index n)))].
Proof.
  intros Hdb Hc. unfold emitted, bind.
  rewrite (search_result k v index n w db c Hdb Hc). cbv zeta.
  destruct (db_execute X _ (outside w)) as [[rs|e] s]; cbn [fst snd].
  - set (w' := set_outside s _).
    destruct (show_results_draws rs w') as (evs & Ht & Hf & _).
    rewrite Ht. subst w'. simpl trace. rewrite <- app_assoc, drop_app_length.
    simpl. rewrite (draws_are_not_requests evs Hf). reflexivity.
  - simpl trace. rewrite drop_app_length. reflexivity.
Qed.

Lemma tab1_idle {X} i (w : world X) :
  search_button i = false -> tab1 i w = (Ok tt, w).
Proof. intros H. unfold tab1. rewrite H. reflexivity. Qed.

Lemma tab1_on_pymongo {X} i (w : world X) db u d c :
  g_db (module w) = Some db ->
  g_collection (module w) = Some (PymongoCollection u d c) ->
  search_button i = true ->
  tab1 i w = (Raise TypeError, w).
Proof.
  intros Hdb Hc Hs. unfold tab1, text_2_image_search. rewrite Hs. unfold bind.
  rewrite (search_on_pymongo w db u d c _ _ _ _ Hdb Hc). reflexivity.
Qed.

Lemma tab2_on_pymongo {X} i (w : world X) db u d c f image :
  g_db (module w) = Some db ->
  g_collection (module w) = Some (PymongoCollection u d c) ->
  uploaded_file i = Some f -> image_open X f = Ok image ->
  tab2 i w = (Raise TypeError, snd (keyed "image-search" (VFile f) w)).
Proof.
  intros Hdb Hc Hf Ho.
  unfold tab2, image_search. rewrite Hf. unfold bind, lift, keyed, modify.
  rewrite Ho. cbn [file_value]. set (w0 := set_session_state _ w).
  rewrite (search_on_pymongo w0 db u d c _ _ _ _ Hdb Hc). reflexivity.
Qed.

(** X7.  The two search tabs.  Without a click on Search the text tab
    does nothing at all; without an uploaded file the image tab only
    records [None] under the key of its uploader.  A file that
    [PIL.Image.open] rejects ends the image tab with that exception
    before any request.  Otherwise what a tab sends depends on the
    global [collection] ([db] being bound, as it is after line 56):
    while it is the [Collection] of line 59, the
    tab sends exactly one request, the text under the key "search" or
    the opened image wrapped by [pil_image] under the key "img", both
    to the index "my-index" with n = 3; when a raw query of the same
    execution has rebound it to the pymongo collection, the tab ends
    with [TypeError] and sends nothing. *)
Theorem search_tabs_requests {X} (i : inputs) (w : world X) :
  (search_button i = false -> tab1 i w = (Ok tt, w)) /\
  (uploaded_file i = None ->
     tab2 i w = (Ok tt, snd (keyed "image-search" VNone w))) /\
  (forall f e, uploaded_file i = Some f -> image_open X f = Raise e ->
     tab2 i w = (Raise e, snd (keyed "image-search" (VFile f) w))) /\
  (forall db c, g_db (module w) = Some db ->
     g_collection (module w) = Some (SdCollection c) ->
     (search_button i = true ->
        List.filter is_request (emitted (tab1 i) w) =
          [EvExecute db (Query (Find (Like c {["search" := VStr (search_text i)]}
                                       "my-index" 3)))]) /\
     (forall f image, uploaded_file i = Some f -> image_open X f = Ok image ->
        List.filter is_request (emitted (tab2 i) w) =
          [EvExecute db (Query (Find (Like c {["img" := VEncoded image]}
                                       "my-index" 3)))])) /\
  (forall db u d c, g_db (module w) = Some db ->
     g_collection (module w) = Some (PymongoCollection u d c) ->
     (search_button i = true ->
        fst (tab1 i w) = Raise TypeError /\ emitted (tab1 i) w = []) /\
     (forall f image, uploaded_file i = Some f -> image_open X f = Ok image ->
        fst (tab2 i w) = Raise TypeError /\ emitted (tab2 i) w = [])).
Proof.
  split; [|split; [|split; [|split]]].
  - intros H. unfold tab1. rewrite H. reflexivity.
  - intros H. unfold tab2. rewrite H. reflexivity.
  - intros f e Hf He. unfold tab2, bind, lift. rewrite Hf, He. reflexivity.
  - intros db c Hdb Hc. split.
    + intros Hs.
      rewrite <- (search_then_show_requests "search" (VStr (search_text i))
                    "my-index" 3 w db c Hdb Hc).
      unfold emitted, tab1, text_2_image_search. rewrite Hs. reflexivity.
    + intros f image Hf Ho.
      rewrite <- (search_then_show_requests "img" (VEncoded image)
                    "my-index" 3 (snd (keyed "image-search" (VFile f) w)) db c Hdb Hc).
      unfold emitted, tab2, image_search, pil_image, bind, lift.
      rewrite Hf, Ho. reflexivity.
  - intros db u d c Hdb Hc. split.
    + intros Hs. pose proof (tab1_on_pymongo i w db u d c Hdb Hc Hs) as T.
      rewrite T. split; [reflexivity|]. apply emitted_intro. rewrite T.
      symmetry. apply app_nil_r.
    + intros f image Hf Ho.
      pose proof (tab2_on_pymongo i w db u d c f image Hdb Hc Hf Ho) as T.
      rewrite T. split; [reflexivity|]. apply emitted_intro. rewrite T.
      symmetry. apply app_nil_r.
Qed.

Lemma search_tabs_requests_witness :
  let X := Demo.shop [Demo.shirt; Demo.shoe] [Demo.hat] in
  let w := Demo.ready X 0%nat in
  let upload := Inputs None [] [] false (py "{}") false [] false (Some [137; 80]) in
  let both := Inputs None [] [] false (py "{}") true [] false (Some [137; 80]) in
  search_button (Demo.search (py "red")) = true /\
  uploaded_file upload = Some [137; 80] /\
  List.filter is_request (emitted (tab1 (Demo.search (py "red"))) w) =
    [EvExecute 0%nat (Query (Find (Like "multimodal" {["search" := VStr (py "red")]}
                                     "my-index" 3)))] /\
  List.filter is_request (emitted (tab2 upload) w) =
    [EvExecute 0%nat (Query (Find (Like "multimodal" {["img" := VEncoded (VImage 9)]}
                                     "my-index" 3)))] /\
  fst (tab0 both default_uri w) = Ok tt /\
  emitted (tab2 both) (snd (tab0 both default_uri w)) = [].
Proof.
  intros X w upload both.
  destruct (search_tabs_requests (Demo.search (py "red")) w) as (_ & _ & _ & H1 & _).
  destruct (search_tabs_requests upload w) as (_ & _ & _ & H2 & _).
  destruct (search_tabs_requests both (snd (tab0 both default_uri w)))
    as (_ & _ & _ & _ & H3).
  destruct (H1 0%nat "multimodal" eq_refl eq_refl) as [H1a _].
  destruct (H2 0%nat "multimodal" eq_refl eq_refl) as [_ H2b].
  destruct (H3 0%nat default_uri "ecommerce" "multimodal" eq_refl eq_refl) as [_ H3b].
  split; [reflexivity|]. split; [reflexivity|].
  split; [exact (H1a eq_refl)|].
  split; [exact (H2b [137; 80] (VImage 9) eq_refl eq_refl)|].
  split; [reflexivity|].
  exact (proj2 (H3b [137; 80] (VImage 9) eq_refl eq_refl)).
Defined.

(** X8.  After a raw query that went through, every vector search of
    the same execution fails: the text search tab if Search is set,
    else the image search tab (after its uploader recorded the file) if
    a readable file is uploaded, raises [TypeError]; nothing is sent or
    drawn after the raw query, and the browse tab that follows is not
    run. *)
Theorem vector_search_after_raw_query {X} (i : inputs) (uri : pystr) (w : world X)
    (db : conn)
    (Hdb : g_db (module w) = Some db)
    (Hq : query_button i = true)
    (Hraw : fst (tab0 i uri w) = Ok tt)
    (Hsearch : search_button i = true \/
               exists f image, uploaded_file i = Some f /\ image_open X f = Ok image) :
  fst ((tab0 i uri ;;; tab1 i ;;; tab2 i) w) = Raise TypeError /\
  (tab0 i uri ;;; tab1 i ;;; tab2 i ;;; tab3) w
    = (Raise TypeError,
       if search_button i then snd (tab0 i uri w)
       else snd (keyed "image-search" (file_value (uploaded_file i))
                   (snd (tab0 i uri w)))) /\
  emitted (tab0 i uri ;;; tab1 i ;;; tab2 i ;;; tab3) w = emitted (tab0 i uri) w.
Proof.
  set (h := PymongoCollection uri "ecommerce" "multimodal").
  assert (Hw : g_db (module (snd (tab0 i uri w))) = Some db /\
               g_collection (module (snd (tab0 i uri w))) = Some h).
  { rewrite (tab0_click i uri w Hq) in *. cbv zeta in *.
    destruct (mongo_client X uri (outside w)) as [[[]|e] s]; [|discriminate].
    destruct (json_loads X (raw_query i)) as [f|e]; [|discriminate].
    destruct (mongo_matching X f s) as [[docs|e] s']; [|discriminate].
    destruct (json_dumps _); [|discriminate].
    split; [exact Hdb|reflexivity]. }
  destruct Hw as [Hdb' Hc'].
  destruct (tab0 i uri w) as [[[]|e0] w0] eqn:T0; [|discriminate]. cbn [snd] in *.
  set (w1 := if search_button i then w0
             else snd (keyed "image-search" (file_value (uploaded_file i)) w0)).
  assert (H12 : (tab1 i ;;; tab2 i) w0 = (Raise TypeError, w1) /\
                (tab1 i ;;; tab2 i ;;; tab3) w0 = (Raise TypeError, w1)).
  { subst w1. destruct (search_button i) eqn:Hs.
    - pose proof (tab1_on_pymongo i w0 db _ _ _ Hdb' Hc' Hs) as T1.
      rewrite !(bind_raise (tab1 i) _ w0 TypeError) by (rewrite T1; reflexivity).
      rewrite T1. auto.
    - destruct Hsearch as [|(f & image & Hf & Ho)]; [discriminate|].
      pose proof (tab2_on_pymongo i w0 db _ _ _ f image Hdb' Hc' Hf Ho) as T2.
      rewrite !(bind_ok (tab1 i) _ w0 w0 tt (tab1_idle i w0 Hs)).
      rewrite (bind_raise (tab2 i) _ w0 TypeError) by (rewrite T2; reflexivity).
      rewrite T2, Hf. auto. }
  destruct H12 as [H2 H3].
  assert (H : (tab0 i uri ;;; tab1 i ;;; tab2 i ;;; tab3) w = (Raise TypeError, w1)).
  { rewrite (bind_ok (tab0 i uri) _ w w0 tt T0). exact H3. }
  split; [rewrite (bind_ok (tab0 i uri) _ w w0 tt T0), H2; reflexivity|].
  split; [exact H|].
  unfold emitted. rewrite H, T0. cbn [snd]. subst w1.
  destruct (search_button i); reflexivity.
Qed.

Lemma vector_search_after_raw_query_witness :
  let X := Demo.shop [Demo.shirt; Demo.shoe] [Demo.hat] in
  let w := Demo.ready X 0%nat in
  let i := Inputs None [] [] false (py "{}") true [] false (Some [137; 80]) in
  query_button i = true /\
  fst (tab0 i default_uri w) = Ok tt /\
  fst ((tab0 i default_uri ;;; tab1 i ;;; tab2 i) w) = Raise TypeError /\
  fst (main_page i w) = Raise TypeError.
Proof.
  intros X w i.
  destruct (vector_search_after_raw_query i default_uri w 0%nat eq_refl eq_refl eq_refl)
    as (H1 & _).
  { right. exists [137; 80], (VImage 9). split; reflexivity. }
  split; [reflexivity|]. split; [reflexivity|]. split; [exact H1|].
  vm_compute. reflexivity.
Defined.

(** ** What the raw query tab can print *)

Lemma json_dumps_raise docs d k v :
  In d docs -> d !! k = Some v -> serialisable v = false ->
  json_dumps docs = Raise TypeError.
Proof.
  intros Hd Hk Hv. unfold json_dumps.
  destruct (forallb _ docs) eqn:F; [|reflexivity].
  rewrite forallb_forall in F. specialize (F d Hd). rewrite forallb_forall in F.
  assert (Hin : In (k, v) (map_to_list d))
    by (apply list_elem_of_In, elem_of_map_to_list, Hk).
  specialize (F _ Hin). simpl in F. congruence.
Qed.

Lemma json_dumps_all docs :
  (forall d k v, In d docs -> d !! k = Some v -> serialisable v = true) ->
  json_dumps docs = Ok docs.
Proof.
  intros H. unfold json_dumps.
  rewrite (proj2 (forallb_forall _ docs)); [reflexivity|].
  intros d Hd. apply forallb_forall. intros [k v] Hkv. simpl.
  apply (H d k v Hd). apply elem_of_map_to_list, list_elem_of_In, Hkv.
Qed.

Lemma found_of_stored (docs : list document) d' :
  In d' (firstn 5 (List.map (exclude ["_id"]) docs)) ->
  exists d, In d (firstn 5 docs) /\ d' = exclude ["_id"] d.
Proof.
  rewrite firstn_map. intros (d & <- & Hd)%in_map_iff. eauto.
Qed.

(** X16.  What the raw query tab prints, after a click on Query for
    which the client was created, the query text was parsed and the
    find was answered.  The documents that the find returned (at most
    five, without "_id") are printed only if [json.dumps] can write all
    of them.  When one of them holds a value
    that it cannot write (an image, encoded bytes, a file object), line
    101 raises [TypeError] after the find was sent and nothing is
    printed; when every value can be written, the tab prints the
    documents and returns.  Either way the global [collection] is
    rebound. *)
Theorem unprintable_documents_end_raw_query {X} (i : inputs) (uri : pystr)
    (w : world X) (s s' : env_state X) (f : jsonv) (docs : list document)
    (Hq : query_button i = true)
    (Hc : mongo_client X uri (outside w) = (Ok tt, s))
    (Hj : json_loads X (raw_query i) = Ok f)
    (Hm : mongo_matching X f s = (Ok docs, s')) :
  let h := PymongoCollection uri "ecommerce" "multimodal" in
  (forall d k v, In d (firstn 5 docs) -> k <> "_id" -> d !! k = Some v ->
     serialisable v = false ->
     fst (tab0 i uri w) = Raise TypeError /\
     emitted (tab0 i uri) w = [EvMongoClient uri; EvMongoFind h f ["_id"] 5]) /\
  ((forall d k v, In d (firstn 5 docs) -> k <> "_id" -> d !! k = Some v ->
      serialisable v = true) ->
     fst (tab0 i uri w) = Ok tt /\
     emitted (tab0 i uri) w =
       [EvMongoClient uri; EvMongoFind h f ["_id"] 5;
        EvDraw (TextJson (firstn 5 (List.map (exclude ["_id"]) docs)))]) /\
  g_collection (module (snd (tab0 i uri w))) = Some h.
Proof.
  intros h.
  pose proof (tab0_click i uri w Hq) as T. cbv zeta in T. rewrite Hc, Hj, Hm in T.
  pose proof (tab0_emitted i uri w) as E. unfold raw_events in E.
  rewrite Hq, Hc, Hj, Hm in E.
  split; [|split].
  - intros d k v Hd Hk Hv Hs.
    assert (J : json_dumps (firstn 5 (List.map (exclude ["_id"]) docs)) = Raise TypeError).
    { apply (json_dumps_raise _ (exclude ["_id"] d) k v); [| |exact Hs].
      - rewrite firstn_map. apply in_map, Hd.
      - rewrite exclude_id_other by exact Hk. exact Hv. }
    rewrite J in T, E. rewrite T. split; [reflexivity|exact E].
  - intros H.
    assert (J : json_dumps (firstn 5 (List.map (exclude ["_id"]) docs))
                = Ok (firstn 5 (List.map (exclude ["_id"]) docs))).
    { apply json_dumps_all. intros d' k v (d & Hd & ->)%found_of_stored Hv.
      assert (Hk : k <> "_id").
      { intros ->. rewrite exclude_id_lookup in Hv. discriminate. }
      rewrite exclude_id_other in Hv by exact Hk. exact (H d k v Hd Hk Hv). }
    rewrite J in T, E. rewrite T. split; [reflexivity|exact E].
  - rewrite T. destruct (json_dumps _); reflexivity.
Qed.

Lemma unprintable_documents_end_raw_query_witness :
  let X := Externals nat Demo.parse (fun _ => Ok (VImage 9))
             (fun _ s => (Ok tt, S s)) (fun _ s => (Ok tt, S s))
             (Demo.answer [] [])
             (fun _ s => (Ok [Demo.record Demo.hat; Demo.shirt], S s))
             (fun _ s => (Ok [], S s)) Demo.viewer in
  let w := Demo.ready X 0%nat in
  let i := Demo.raw (py "{}") in
  query_button i = true /\
  Demo.shirt !! "img" = Some (VImage 1) /\ serialisable (VImage 1) = false /\
  fst (tab0 i default_uri w) = Raise TypeError /\
  emitted (tab0 i default_uri) w =
    [EvMongoClient default_uri;
     EvMongoFind (PymongoCollection default_uri "ecommerce" "multimodal")
       (JObj []) ["_id"] 5].
Proof.
  intros X w i.
  destruct (unprintable_documents_end_raw_query i default_uri w 1%nat 2%nat (JObj [])
              [Demo.record Demo.hat; Demo.shirt] eq_refl eq_refl eq_refl eq_refl)
    as (H & _).
  destruct (H Demo.shirt "img" (VImage 1)) as [H1 H2];
    [right; left; reflexivity|discriminate|reflexivity|reflexivity|].
  split; [reflexivity|]. split; [reflexivity|]. split; [reflexivity|].
  split; [exact H1|exact H2].
Defined.

(** ** The browse tab in general *)

Lemma tab3_loops {X} :
  @tab3 X =
  (d <- random_product ;;; set_r (unpack d) ;;;
   r <- get_r ;;; img <- getitem r "img" ;;;
   r <- get_r ;;; title <- getitem r "title" ;;;
   draw (Image img (Some title)) ;;;
   draw (Markdown (py "### Based on image")) ;;;
   r <- get_r ;;; img <- getitem r "img" ;;;
   image_results <- image_search img ;;;
   image_results_loop image_results ;;;
   draw (Markdown (py "### Based on title")) ;;;
   r <- get_r ;;; title <- getitem r "title" ;;;
   text_results <- text_2_text_search title ;;;
   text_results_loop text_results).
Proof. reflexivity. Qed.

Lemma draw_outcome {X} wd (w : world X) :
  draw wd w =
  match drawing X wd with
  | Ok _ => (Ok tt, add_event (EvDraw wd) w)
  | Raise e => (Raise e, w)
  end.
Proof.
  destruct wd; reflexivity.
Qed.

Lemma draw_ok {X} wd (w : world X) :
  drawing X wd = Ok tt -> draw wd w = (Ok tt, add_event (EvDraw wd) w).
Proof. intros H. rewrite draw_outcome, H. reflexivity. Qed.

Lemma draw_raise {X} wd (w : world X) e :
  drawing X wd = Raise e -> draw wd w = (Raise e, w).
Proof. intros H. rewrite draw_outcome, H. reflexivity. Qed.

(** Both loops are the same loop over one field. *)
Lemma image_results_loop_field {X} (rs : list document) :
  @image_results_loop X rs = field_loop "img" (fun v => Image v None) rs.
Proof. reflexivity. Qed.

Lemma text_results_loop_field {X} (rs : list document) :
  @text_results_loop X rs = field_loop "title" Text rs.
Proof. reflexivity. Qed.

Lemma field_loop_cons {X} k mk d rs (w : world X) :
  field_loop k mk (d :: rs) w =
  match field_shown X k mk d with
  | Ok _ => field_loop k mk rs (add_event (EvDraw (mk (default VNone (d !! k)))) (bound d w))
  | Raise e => (Raise e, bound d w)
  end.
Proof.
  unfold field_loop, field_shown, bound. simpl for_each. unfold unpack.
  unfold bind at 1. unfold bind at 1 2 3 4. unfold set_r at 1 2, get_r at 1 2, modify.
  cbn [fst snd g_r module set_module].
  destruct (d !! k) as [v|] eqn:E.
  - unfold bind at 1. rewrite (getitem_ok _ d k v E), draw_outcome.
    destruct (drawing X (mk v)) as [[]|e]; reflexivity.
  - unfold bind at 1. rewrite (getitem_missing _ d k E). reflexivity.
Qed.

Lemma loop_frame_step {X} (w w' : world X) d e :
  loop_frame (add_event e (bound d w)) w' -> loop_frame w w'.
Proof. intros (H1 & H2 & H3 & H4 & H5). repeat split; assumption. Qed.

Lemma field_loop_all {X} k mk rs (w : world X) d0 :
  Forall (fun d => field_shown X k mk d = Ok tt) rs ->
  g_r (module w) = Some d0 ->
  exists w', field_loop k mk rs w = (Ok tt, w') /\
    trace w' = trace w ++ List.map (fun d => EvDraw (mk (default VNone (d !! k)))) rs /\
    g_r (module w') = Some (default d0 (last rs)) /\
    loop_frame w w'.
Proof.
  intros H. revert w d0. induction H as [|d rs Hd _ IH]; intros w d0 Hr.
  - exists w. simpl. rewrite app_nil_r. repeat split. exact Hr.
  - rewrite field_loop_cons, Hd.
    destruct (IH (add_event (EvDraw (mk (default VNone (d !! k)))) (bound d w)) d eq_refl)
      as (w' & Hl & Ht & Hg & Hf).
    exists w'. split; [exact Hl|]. split; [|split].
    + rewrite Ht. simpl. rewrite <- app_assoc. reflexivity.
    + rewrite Hg, last_cons. destruct (last rs); reflexivity.
    + eapply loop_frame_step, Hf.
Qed.

Lemma field_loop_stops {X} k mk pre d post (w : world X) e :
  Forall (fun d => field_shown X k mk d = Ok tt) pre ->
  field_shown X k mk d = Raise e ->
  exists w', field_loop k mk (pre ++ d :: post) w = (Raise e, w') /\
    trace w' = trace w ++ List.map (fun d => EvDraw (mk (default VNone (d !! k)))) pre /\
    loop_frame w w'.
Proof.
  intros H Hd. revert w. induction H as [|d1 pre Hd1 _ IH]; intros w.
  - simpl app. rewrite field_loop_cons, Hd. exists (bound d w).
    simpl. rewrite app_nil_r. repeat split.
  - simpl app. rewrite field_loop_cons, Hd1.
    destruct (IH (add_event (EvDraw (mk (default VNone (d1 !! k)))) (bound d1 w)))
      as (w' & Hl & Ht & Hf).
    exists w'. split; [exact Hl|]. split.
    + rewrite Ht. simpl. rewrite <- app_assoc. reflexivity.
    + eapply loop_frame_step, Hf.
Qed.

Lemma field_loop_draws {X} k mk rs (w : world X) :
  exists evs, trace (snd (field_loop k mk rs w)) = trace w ++ evs /\
              Forall (fun e => is_draw e = true) evs.
Proof.
  revert w. induction rs as [|d rs IH]; intros w.
  - exists []. simpl. rewrite app_nil_r. auto.
  - rewrite field_loop_cons.
    destruct (field_shown X k mk d) as [[]|e];
      [|exists []; simpl; rewrite app_nil_r; auto].
    destruct (IH (add_event (EvDraw (mk (default VNone (d !! k)))) (bound d w)))
      as (evs & Ht & Hf).
    exists (EvDraw (mk (default VNone (d !! k))) :: evs). rewrite Ht. simpl.
    rewrite <- app_assoc. auto.
Qed.

Lemma map_draws {A} (f : A -> widget) (l : list A) :
  Forall (fun e => is_draw e = true) (List.map (fun a => EvDraw (f a)) l).
Proof. induction l; simpl; constructor; auto. Qed.

Lemma title_shown {X} (rs : list document) :
  Forall (fun d => has_field "title" d = true) rs ->
  Forall (fun d => field_shown X "title" Text d = Ok tt) rs.
Proof.
  intros H. eapply Forall_impl; [exact H|]. intros d. unfold has_field, field_shown.
  destruct (d !! "title"); [reflexivity|discriminate].
Qed.

(** X9.  The two loops of the browse tab each read one field.  The
    similar-by-image loop hands the image of each result to [st.image],
    without caption, in the order of the answer, and never reads
    "title"; the similar-by-title loop prints every title in order and
    never reads "img".  A loop ends at the first result that lacks the
    field it reads, with [KeyError] for that field, and the image loop
    also at the first image that [st.image] rejects, with the exception
    of [st.image]; the results before that one were drawn and none
    after it is.  A loop that ends normally leaves the global [r] bound
    to the last result (and as it was, on an empty answer). *)
Theorem browse_lists_read_one_field {X} (w : world X) (pre post rs : list document)
    (d d0 : document) (e : exn) :
  (d !! "img" = None -> image_shown X d = Raise (KeyError "img")) /\
  (forall img, d !! "img" = Some img -> image_shown X d = st_image X img None) /\
  (Forall (fun d => image_shown X d = Ok tt) rs ->
     fst (image_results_loop rs w) = Ok tt /\
     emitted (image_results_loop rs) w = List.map drawn_image rs /\
     (g_r (module w) = Some d0 ->
      g_r (module (snd (image_results_loop rs w))) = Some (default d0 (last rs)))) /\
  (Forall (fun d => image_shown X d = Ok tt) pre -> image_shown X d = Raise e ->
     fst (image_results_loop (pre ++ d :: post) w) = Raise e /\
     emitted (image_results_loop (pre ++ d :: post)) w = List.map drawn_image pre) /\
  (Forall (fun d => has_field "title" d = true) rs ->
     fst (text_results_loop rs w) = Ok tt /\
     emitted (text_results_loop rs) w = List.map drawn_title rs) /\
  (Forall (fun d => has_field "title" d = true) pre -> d !! "title" = None ->
     fst (text_results_loop (pre ++ d :: post) w) = Raise (KeyError "title") /\
     emitted (text_results_loop (pre ++ d :: post)) w = List.map drawn_title pre).
Proof.
  split; [intros H; unfold image_shown; rewrite H; reflexivity|].
  split; [intros img H; unfold image_shown; rewrite H; reflexivity|].
  split; [|split; [|split]].
  - intros H. rewrite image_results_loop_field.
    assert (Hgen : forall (w0 : world X),
               fst (field_loop "img" (fun v => Image v None) rs w0) = Ok tt /\
               trace (snd (field_loop "img" (fun v => Image v None) rs w0))
               = trace w0 ++ List.map drawn_image rs).
    { intros w0. destruct rs as [|d1 rs'].
      - simpl. rewrite app_nil_r. auto.
      - inversion H as [|? ? Hd1 Hrs']; subst. rewrite field_loop_cons.
        change (field_shown X "img" (fun v => Image v None) d1) with (image_shown X d1).
        rewrite Hd1.
        destruct (field_loop_all "img" (fun v => Image v None) rs'
                    (add_event (drawn_image d1) (bound d1 w0)) d1 Hrs' eq_refl)
          as (w2 & Hl & Ht & _).
        unfold drawn_image at 1 in Hl. rewrite Hl. split; [reflexivity|].
        simpl snd. rewrite Ht. simpl. rewrite <- app_assoc. reflexivity. }
    destruct (Hgen w) as [Hf Ht].
    split; [exact Hf|]. split; [apply emitted_intro, Ht|].
    intros Hr. destruct (field_loop_all "img" (fun v => Image v None) rs w d0 H Hr)
      as (w2 & Hl & _ & Hg & _).
    rewrite Hl. exact Hg.
  - intros H Hd. rewrite image_results_loop_field.
    destruct (field_loop_stops "img" (fun v => Image v None) pre d post w e H Hd)
      as (w' & Hl & Ht & _).
    rewrite Hl. split; [reflexivity|]. apply emitted_intro. rewrite Hl. exact Ht.
  - intros H%(title_shown (X := X)). rewrite text_results_loop_field.
    assert (Hgen : forall (w0 : world X),
               fst (field_loop "title" Text rs w0) = Ok tt /\
               trace (snd (field_loop "title" Text rs w0))
               = trace w0 ++ List.map drawn_title rs).
    { intros w0. destruct rs as [|d1 rs'].
      - simpl. rewrite app_nil_r. auto.
      - inversion H as [|? ? Hd1 Hrs']; subst. rewrite field_loop_cons, Hd1.
        destruct (field_loop_all "title" Text rs'
                    (add_event (drawn_title d1) (bound d1 w0)) d1 Hrs' eq_refl)
          as (w2 & Hl & Ht & _).
        unfold drawn_title at 1 in Hl. rewrite Hl. split; [reflexivity|].
        simpl snd. rewrite Ht. simpl. rewrite <- app_assoc. reflexivity. }
    destruct (Hgen w) as [Hf Ht]. split; [exact Hf|]. apply emitted_intro, Ht.
  - intros H%(title_shown (X := X)) Hd. rewrite text_results_loop_field.
    assert (Hs : field_shown X "title" Text d = Raise (KeyError "title"))
      by (unfold field_shown; rewrite Hd; reflexivity).
    destruct (field_loop_stops "title" Text pre d post w _ H Hs) as (w' & Hl & Ht & _).
    rewrite Hl. split; [reflexivity|]. apply emitted_intro. rewrite Hl. exact Ht.
Qed.

Lemma browse_lists_read_one_field_witness :
  let X := Demo.shop [] [] in
  let w := Demo.ready X 0%nat in
  let unseen : document := {[ "img" := VNone; "title" := VStr (py "sock") ]} in
  Forall (fun d => image_shown X d = Ok tt) [Demo.untitled; Demo.shoe] /\
  Demo.untitled !! "title" = None /\
  fst (image_results_loop [Demo.untitled; Demo.shoe] w) = Ok tt /\
  emitted (image_results_loop [Demo.untitled; Demo.shoe]) w =
    [EvDraw (Image (VImage 5) None); EvDraw (Image (VImage 2) None)] /\
  image_shown X unseen = Raise TypeError /\
  fst (image_results_loop [Demo.untitled; unseen; Demo.shoe] w) = Raise TypeError /\
  emitted (image_results_loop [Demo.untitled; unseen; Demo.shoe]) w =
    [EvDraw (Image (VImage 5) None)] /\
  fst (text_results_loop [Demo.shoe; Demo.untitled; Demo.hat] w) = Raise (KeyError "title").
Proof.
  intros X w unseen.
  assert (H : Forall (fun d => image_shown X d = Ok tt) [Demo.untitled; Demo.shoe])
    by (repeat constructor).
  assert (H' : Forall (fun d => image_shown X d = Ok tt) [Demo.untitled])
    by (repeat constructor).
  destruct (browse_lists_read_one_field w [Demo.shoe] [Demo.hat]
              [Demo.untitled; Demo.shoe] Demo.untitled Demo.shirt TypeError)
    as (_ & _ & H1 & _ & _ & H4).
  destruct (browse_lists_read_one_field w [Demo.untitled] [Demo.shoe]
              [] unseen Demo.shirt TypeError)
    as (_ & _ & _ & H2 & _).
  destruct (H1 H) as (H1a & H1b & _).
  destruct (H2 H' eq_refl) as [H2a H2b].
  destruct (H4 ltac:(repeat constructor) eq_refl) as [H4a _].
  split; [exact H|]. split; [reflexivity|]. split; [exact H1a|].
  split; [exact H1b|]. split; [reflexivity|]. split; [exact H2a|].
  split; [exact H2b|exact H4a].
Defined.

Lemma search_ok {X} k v index n (w : world X) db c rs s :
  g_db (module w) = Some db ->
  g_collection (module w) = Some (SdCollection c) ->
  db_execute X (Query (Find (Like c {[k := v]} index n))) (outside w) = (Ok rs, s) ->
  _search k v index n w =
  (Ok rs, set_outside s (add_event (EvExecute db (Query (Find (Like c {[k := v]} index n)))) w)).
Proof.
  intros Hdb Hc Hq. rewrite (search_result k v index n w db c Hdb Hc).
  cbv zeta. rewrite Hq. reflexivity.
Qed.

Lemma filter_request_draws evs rest :
  Forall (fun e => is_draw e = true) evs ->
  List.filter is_request (evs ++ rest) = List.filter is_request rest.
Proof.
  intros H. rewrite List.filter_app, (draws_are_not_requests evs H). reflexivity.
Qed.

(** X10.  The requests of the browse tab, for any backend, when it is
    reached with [db] bound and [collection] still the [Collection] of
    line 59 (no raw query in this execution), and the sample has an
    image and a title.  When [st.image] rejects the
    sample the tab ends with that exception after its one request.
    Otherwise the image search for the image of the sample is sent.
    When a document of its answer lacks an image, or has one that
    [st.image] rejects, the tab ends there after these two requests.
    When all of them are shown, the tab sends a third request: the
    title search for the title of the last document of the image
    answer (of the sample itself only when that answer is empty); when
    that document has no title the tab ends with [KeyError] for "title"
    after two requests. *)
Theorem browse_requests {X} (w : world X) (db : conn) (c : string)
    (d0 : document) (cur rs : list document) (img0 t0 : value)
    (s1 s2 : env_state X) (e : exn)
    (Hdb : g_db (module w) = Some db)
    (Hc : g_collection (module w) = Some (SdCollection c))
    (Hsample : db_execute X (Query (Aggregate c [Sample 1])) (outside w)
               = (Ok (d0 :: cur), s1))
    (Hi : d0 !! "img" = Some img0) (Ht : d0 !! "title" = Some t0)
    (Himg : db_execute X (Query (Find (Like c {["img" := VEncoded img0]} "my-index" 3))) s1
            = (Ok rs, s2)) :
  let sample := EvExecute db (Query (Aggregate c [Sample 1])) in
  let by_image :=
    EvExecute db (Query (Find (Like c {["img" := VEncoded img0]} "my-index" 3))) in
  let seed := default d0 (last rs) in
  (st_image X img0 (Some t0) = Raise e ->
     fst (tab3 w) = Raise e /\
     List.filter is_request (emitted tab3 w) = [sample]) /\
  (st_image X img0 (Some t0) = Ok tt ->
     (forall pre d post, rs = pre ++ d :: post ->
        Forall (fun d => image_shown X d = Ok tt) pre -> image_shown X d = Raise e ->
        fst (tab3 w) = Raise e /\
        List.filter is_request (emitted tab3 w) = [sample; by_image]) /\
     (Forall (fun d => image_shown X d = Ok tt) rs ->
        (forall t, seed !! "title" = Some t ->
           List.filter is_request (emitted tab3 w) =
             [sample; by_image;
              EvExecute db (Query (Find (Like c {["title" := t]} "text-index" 10)))]) /\
        (seed !! "title" = None ->
           fst (tab3 w) = Raise (KeyError "title") /\
           List.filter is_request (emitted tab3 w) = [sample; by_image]))).
Proof.
  intros sample by_image seed.
  set (w1 := set_outside s1 (add_event sample w)).
  assert (R1 : random_product w = (Ok d0, w1)).
  { rewrite (random_product_sd w db c Hdb Hc). cbv zeta. rewrite Hsample. reflexivity. }
  assert (E1 : tab3 w =
               (draw (Image img0 (Some t0)) ;;;
                draw (Markdown (py "### Based on image")) ;;;
                r <- get_r ;;; img <- getitem r "img" ;;;
                image_results <- image_search img ;;;
                image_results_loop image_results ;;;
                draw (Markdown (py "### Based on title")) ;;;
                r <- get_r ;;; title <- getitem r "title" ;;;
                text_results <- text_2_text_search title ;;;
                text_results_loop text_results) (bound d0 w1)).
  { rewrite tab3_loops. rewrite (bind_ok random_product _ w w1 d0 R1).
    erewrite (bind_ok (set_r (unpack d0))) by reflexivity.
    erewrite (bind_ok get_r) by (apply get_r_ok; reflexivity).
    erewrite (bind_ok (getitem _ "img")) by (apply getitem_ok; exact Hi).
    erewrite (bind_ok get_r) by (apply get_r_ok; reflexivity).
    erewrite (bind_ok (getitem _ "title")) by (apply getitem_ok; exact Ht).
    reflexivity. }
  split.
  { intros Hrej.
    assert (T : tab3 w = (Raise e, bound d0 w1)).
    { rewrite E1. rewrite (bind_raise (draw _) _ _ e);
        rewrite (draw_raise (Image img0 (Some t0)) _ e Hrej); reflexivity. }
    split; [rewrite T; reflexivity|].
    rewrite (emitted_intro tab3 w [sample] ltac:(rewrite T; reflexivity)).
    reflexivity. }
  intros Hshow.
  set (w2 := add_event (EvDraw (Markdown (py "### Based on image")))
               (add_event (EvDraw (Image img0 (Some t0))) (bound d0 w1))).
  set (w3 := set_outside s2 (add_event by_image w2)).
  assert (S : image_search img0 w2 = (Ok rs, w3)).
  { unfold image_search, pil_image.
    apply (search_ok "img" (VEncoded img0) "my-index" 3 w2 db c rs s2 Hdb Hc Himg). }
  assert (E3 : tab3 w =
               (image_results_loop rs ;;;
                draw (Markdown (py "### Based on title")) ;;;
                r <- get_r ;;; title <- getitem r "title" ;;;
                text_results <- text_2_text_search title ;;;
                text_results_loop text_results) w3).
  { rewrite E1.
    erewrite (bind_ok (draw _)) by (apply draw_ok; exact Hshow).
    erewrite (bind_ok (draw _)) by reflexivity.
    erewrite (bind_ok get_r) by (apply get_r_ok; reflexivity).
    erewrite (bind_ok (getitem _ "img")) by (apply getitem_ok; exact Hi).
    erewrite (bind_ok (image_search img0)) by exact S.
    reflexivity. }
  assert (Ht3 : trace w3 =
                trace w ++ [sample; EvDraw (Image img0 (Some t0));
                            EvDraw (Markdown (py "### Based on image")); by_image]).
  { subst w3 w2 w1. simpl trace. rewrite <- !app_assoc. reflexivity. }
  split.
  { intros pre d post Hrs Hpre Hd.
    destruct (field_loop_stops "img" (fun v => Image v None) pre d post w3 e Hpre Hd)
      as (w4 & Hl & Ht4 & _).
    assert (T : tab3 w = (Raise e, w4)).
    { rewrite E3, Hrs, image_results_loop_field.
      rewrite (bind_raise (field_loop _ _ _) _ _ e); rewrite Hl; reflexivity. }
    split; [rewrite T; reflexivity|].
    rewrite (emitted_intro tab3 w _
               ltac:(rewrite T; cbn [snd]; rewrite Ht4, Ht3, <- app_assoc; reflexivity)).
    simpl. f_equal. f_equal. apply draws_are_not_requests, map_draws. }
  intros Hrs.
  destruct (field_loop_all "img" (fun v => Image v None) rs w3 d0 Hrs eq_refl)
    as (w4 & Hl & Ht4 & Hg4 & (_ & _ & Ho4 & Hdb4 & Hc4)).
  set (w5 := add_event (EvDraw (Markdown (py "### Based on title"))) w4).
  assert (Ht5 : trace w5 =
                trace w ++ sample :: EvDraw (Image img0 (Some t0)) ::
                  EvDraw (Markdown (py "### Based on image")) :: by_image ::
                  List.map drawn_image rs ++
                  [EvDraw (Markdown (py "### Based on title"))]).
  { subst w5. simpl trace. rewrite Ht4, Ht3. rewrite <- !app_assoc. reflexivity. }
  assert (E : tab3 w =
              (title <- getitem seed "title" ;;;
               text_results <- text_2_text_search title ;;;
               text_results_loop text_results) w5).
  { rewrite E3, image_results_loop_field.
    erewrite (bind_ok (field_loop _ _ rs)) by exact Hl.
    erewrite (bind_ok (draw _)) by reflexivity.
    erewrite (bind_ok get_r) by (apply get_r_ok; exact Hg4).
    reflexivity. }
  assert (Hreq5 : List.filter is_request
                    (sample :: EvDraw (Image img0 (Some t0)) ::
                     EvDraw (Markdown (py "### Based on image")) :: by_image ::
                     List.map drawn_image rs ++
                     [EvDraw (Markdown (py "### Based on title"))])
                  = [sample; by_image]).
  { simpl. f_equal. f_equal. rewrite filter_request_draws by apply map_draws.
    reflexivity. }
  split.
  - intros t Hseed.
    set (by_title := EvExecute db (Query (Find (Like c {["title" := t]} "text-index" 10)))).
    assert (Hdb5 : g_db (module w5) = Some db) by (simpl; rewrite Hdb4; exact Hdb).
    assert (Hc5 : g_collection (module w5) = Some (SdCollection c))
      by (simpl; rewrite Hc4; exact Hc).
    pose proof (search_result "title" t "text-index" 10 w5 db c Hdb5 Hc5) as S5.
    cbv zeta in S5.
    assert (Hfin : exists evs, trace (snd (tab3 w)) = trace w5 ++ by_title :: evs /\
                               Forall (fun e => is_draw e = true) evs).
    { rewrite E. erewrite (bind_ok (getitem _ "title")) by (apply getitem_ok; exact Hseed).
      unfold text_2_text_search. unfold bind at 1. rewrite S5.
      destruct (fst (db_execute X _ (outside w5))) as [ts|e']; cbv beta iota.
      - rewrite text_results_loop_field.
        destruct (field_loop_draws "title" Text ts
                    (set_outside
                       (snd (db_execute X
                               (Query (Find (Like c {["title" := t]} "text-index" 10)))
                               (outside w5)))
                       (add_event by_title w5))) as (evs & Hte & Hfe).
        exists evs. split; [|exact Hfe]. etransitivity; [exact Hte|].
        simpl trace. rewrite <- app_assoc. reflexivity.
      - exists []. simpl. auto. }
    destruct Hfin as (evs & Hfin & Hdraw).
    rewrite (emitted_intro tab3 w _ ltac:(rewrite Hfin, Ht5, <- app_assoc; reflexivity)).
    rewrite List.filter_app, Hreq5. subst by_title.
    cbn [List.filter is_request app]. rewrite (draws_are_not_requests evs Hdraw).
    reflexivity.
  - intros Hseed.
    assert (T : tab3 w = (Raise (KeyError "title"), w5)).
    { rewrite E. unfold bind at 1. rewrite (getitem_missing w5 seed "title" Hseed).
      reflexivity. }
    split; [rewrite T; reflexivity|].
    rewrite (emitted_intro tab3 w _ ltac:(rewrite T; exact Ht5)). exact Hreq5.
Qed.

Lemma browse_requests_witness :
  let X := Demo.shop [Demo.shirt; Demo.shoe] [Demo.hat] in
  let w := Demo.ready X 0%nat in
  st_image X (VImage 1) (Some (VStr (py "shirt"))) = Ok tt /\
  Forall (fun d => image_shown X d = Ok tt) [Demo.shirt; Demo.shoe] /\
  List.filter is_request (emitted tab3 w) =
    [EvExecute 0%nat (Query (Aggregate "multimodal" [Sample 1]));
     EvExecute 0%nat
       (Query (Find (Like "multimodal" {["img" := VEncoded (VImage 1)]} "my-index" 3)));
     EvExecute 0%nat
       (Query (Find (Like "multimodal" {["title" := VStr (py "shoe")]} "text-index" 10)))].
Proof.
  intros X w.
  assert (H : Forall (fun d => image_shown X d = Ok tt) [Demo.shirt; Demo.shoe])
    by (repeat constructor).
  split; [reflexivity|]. split; [exact H|].
  destruct (browse_requests w 0%nat "multimodal" Demo.shirt [] [Demo.shirt; Demo.shoe]
              (VImage 1) (VStr (py "shirt")) 1%nat 2%nat TypeError
              eq_refl eq_refl eq_refl eq_refl eq_refl eq_refl) as [_ H1].
  destruct (H1 eq_refl) as [_ H2]. destruct (H2 H) as [H3 _].
  exact (H3 (VStr (py "shoe")) eq_refl).
Defined.

(** ** Every call of an execution *)

Section Sanctioned.

Context {X : externals} (uri : pystr).

Lemma sanctioned_refl (w : world X) : sanctioned_step uri w w.
Proof. intros H. split; [exact H|]. exists []. rewrite app_nil_r. auto. Qed.

Lemma sanctioned_trans (a b c : world X) :
  sanctioned_step uri a b -> sanctioned_step uri b c -> sanctioned_step uri a c.
Proof.
  intros Hab Hbc Ha. destruct (Hab Ha) as (Hb & e1 & T1 & F1).
  destruct (Hbc Hb) as (Hc & e2 & T2 & F2). split; [exact Hc|].
  exists (e1 ++ e2). rewrite T2, T1, <- app_assoc. split; [reflexivity|].
  apply Forall_app. auto.
Qed.

Lemma sanctioned_frame (w w' : world X) evs :
  g_collection (module w') = g_collection (module w) ->
  trace w' = trace w ++ evs -> Forall (sanctioned uri) evs ->
  sanctioned_step uri w w'.
Proof.
  intros Hc Ht Hf H. split; [unfold collection_ok in *; rewrite Hc; exact H|].
  exists evs. auto.
Qed.

Lemma sanctioned_event e (w : world X) :
  sanctioned uri e -> sanctioned_step uri w (add_event e w).
Proof. intros He. apply (sanctioned_frame w _ [e]); auto. Qed.

Lemma sanctioned_outside s (w : world X) : sanctioned_step uri w (set_outside s w).
Proof. apply (sanctioned_frame w _ []); auto. simpl. symmetry. apply app_nil_r. Qed.

Lemma sanctioned_set_r d : keeps (X := X) (sanctioned_step uri) (set_r d).
Proof. intros w. apply (sanctioned_frame w _ []); auto. simpl. symmetry. apply app_nil_r. Qed.

Lemma sanctioned_set_db c : keeps (X := X) (sanctioned_step uri) (set_db c).
Proof. intros w. apply (sanctioned_frame w _ []); auto. simpl. symmetry. apply app_nil_r. Qed.

Lemma search_world {X'} k v index n (w : world X') :
  module (snd (_search k v index n w)) = module w /\
  trace (snd (_search k v index n w)) = trace w ++ search_request w k v index n.
Proof.
  unfold _search, search_request. step_world.
  repeat (split_match; simpl); split; try reflexivity; close_trace.
Qed.

Lemma sanctioned_search k v index n :
  search_call k index n -> keeps (X := X) (sanctioned_step uri) (_search k v index n).
Proof.
  intros Hcall w Hinv. destruct (search_world k v index n w) as [Hm Ht].
  split; [unfold collection_ok in *; rewrite Hm; exact Hinv|].
  eexists. split; [exact Ht|]. unfold search_request, collection_ok in *.
  destruct (g_db (module w)) as [db|]; [|constructor].
  destruct (g_collection (module w)) as [[cn|? ? ?]|]; try constructor; [|constructor].
  simpl. split; [exact Hinv|].
  destruct Hcall as [(-> & -> & [-> | ->])|(-> & -> & ->)]; [left|left|right];
    repeat split; exists v; auto.
Qed.

Lemma random_product_world {X'} (w : world X') :
  g_collection (module (snd (random_product w))) = g_collection (module w) /\
  trace (snd (random_product w)) = trace w ++
    match g_db (module w), g_collection (module w) with
    | Some db, Some (SdCollection c) => [EvExecute db (Query (Aggregate c [Sample 1]))]
    | Some db, Some (PymongoCollection u d c) =>
        pymongo_sample_events w db (PymongoCollection u d c)
    | _, _ => []
    end.
Proof.
  unfold random_product, pymongo_sample_events. step_world.
  destruct (g_db (module w)) as [db|] eqn:Hdb; simpl;
    [|split; [reflexivity|close_trace]].
  destruct (g_collection (module w)) as [[cn|u d cn]|] eqn:Hcn; simpl;
    [| |split; [simpl in *; congruence|close_trace]].
  - destruct (db_execute X' _ (outside w)) as [[[|d0 cur]|e] s]; simpl;
      (split; [simpl in *; congruence|close_trace]).
  - destruct (mongo_aggregate X' [Sample 1] (outside w)) as [[docs|e] s]; simpl;
      [|split; [simpl in *; congruence|close_trace]].
    destruct (db_execute X' (CommandCursor docs) s) as [[[|d0 cur]|e] s']; simpl;
      (split; [simpl in *; congruence|close_trace]).
Qed.

Lemma sanctioned_random : keeps (X := X) (sanctioned_step uri) random_product.
Proof.
  intros w Hinv. destruct (random_product_world w) as [Hm Ht].
  split; [unfold collection_ok in *; rewrite Hm; exact Hinv|].
  eexists. split; [exact Ht|]. unfold collection_ok, pymongo_sample_events in *.
  destruct (g_db (module w)) as [db|]; [|constructor].
  destruct (g_collection (module w)) as [[cn|u d cn]|]; [| |constructor].
  - repeat constructor. exact Hinv.
  - destruct Hinv as (-> & -> & ->).
    destruct (mongo_aggregate X [Sample 1] (outside w)) as [[docs|e] s];
      repeat constructor.
Qed.

Lemma sanctioned_connect :
  keeps (X := X) (sanctioned_step uri) (db <- _init uri ;;; set_db db).
Proof.
  apply (keeps_bind _ sanctioned_trans); [|apply sanctioned_set_db].
  intros w. unfold _init. destruct (cache_resource w); [apply sanctioned_refl|].
  step_world. destruct (superduper X uri (outside w)) as [[[]|e] s]; simpl.
  - apply (sanctioned_frame w _ [EvSuperduper (length (trace w)) uri]);
      [reflexivity|reflexivity|]. repeat constructor.
  - apply sanctioned_outside.
Qed.

Lemma sanctioned_rebind (w w' : world X) evs :
  collection_ok uri w' -> trace w' = trace w ++ evs -> Forall (sanctioned uri) evs ->
  sanctioned_step uri w w'.
Proof. intros Hc Ht Hf _. split; [exact Hc|]. exists evs. auto. Qed.

Lemma sanctioned_keyed k v : keeps (X := X) (sanctioned_step uri) (keyed k v).
Proof. intros w. apply (sanctioned_frame w _ []); auto. simpl. symmetry. apply app_nil_r. Qed.

Lemma sanctioned_tab0 i : keeps (X := X) (sanctioned_step uri) (tab0 i uri).
Proof.
  intros w. destruct (query_button i) eqn:Hq.
  - rewrite (tab0_click i uri w Hq). cbv zeta.
    destruct (mongo_client X uri (outside w)) as [[[]|e] s];
      [|apply (sanctioned_frame w _ []); auto; simpl; symmetry; apply app_nil_r].
    set (h := PymongoCollection uri "ecommerce" "multimodal").
    destruct (json_loads X (raw_query i)) as [f|e].
    + destruct (mongo_matching X f s) as [[docs|e] s'];
        [destruct (json_dumps _) as [text|e]|].
      * apply (sanctioned_rebind w _
                 [EvMongoClient uri; EvMongoFind h f ["_id"] 5; EvDraw (TextJson text)]).
        -- unfold collection_ok. simpl. auto.
        -- simpl. rewrite <- !app_assoc. reflexivity.
        -- repeat constructor.
      * apply (sanctioned_rebind w _ [EvMongoClient uri; EvMongoFind h f ["_id"] 5]).
        -- unfold collection_ok. simpl. auto.
        -- simpl. rewrite <- !app_assoc. reflexivity.
        -- repeat constructor.
      * apply (sanctioned_rebind w _ [EvMongoClient uri; EvMongoFind h f ["_id"] 5]).
        -- unfold collection_ok. simpl. auto.
        -- simpl. rewrite <- !app_assoc. reflexivity.
        -- repeat constructor.
    + apply (sanctioned_rebind w _ [EvMongoClient uri]).
      * unfold collection_ok. simpl. auto.
      * reflexivity.
      * repeat constructor.
  - rewrite (tab0_idle i uri w Hq). apply (sanctioned_keyed _ _ w).
Qed.

Ltac sanctioned_steps :=
  repeat first
    [ apply (keeps_ret _ sanctioned_refl)
    | apply (keeps_getitem _ sanctioned_refl)
    | apply (keeps_get_r _ sanctioned_refl)
    | apply (keeps_lift _ sanctioned_refl)
    | apply sanctioned_set_r
    | apply sanctioned_keyed
    | apply sanctioned_random
    | apply (keeps_emit _ (sanctioned uri) sanctioned_event); exact I
    | apply (keeps_show_results _ sanctioned_refl sanctioned_trans (sanctioned uri)
               sanctioned_event sanctioned_set_r); intros; exact I
    | apply sanctioned_search; unfold search_call; tauto
    | apply (keeps_bind _ sanctioned_trans); [|intros ?]
    | apply (keeps_for_each _ sanctioned_refl sanctioned_trans); intros ? ].

Lemma sanctioned_tab1 i : keeps (X := X) (sanctioned_step uri) (tab1 i).
Proof.
  unfold tab1, text_2_image_search.
  destruct (search_button i); sanctioned_steps.
Qed.

Lemma sanctioned_tab2 i : keeps (X := X) (sanctioned_step uri) (tab2 i).
Proof.
  unfold tab2, image_search. destruct (uploaded_file i); sanctioned_steps.
Qed.

Lemma sanctioned_tab3 : keeps (X := X) (sanctioned_step uri) tab3.
Proof. unfold tab3, image_search, text_2_text_search, draw. sanctioned_steps. Qed.

Lemma sanctioned_main_page i :
  mongodb_uri i = uri -> keeps (X := X) (sanctioned_step uri) (main_page i).
Proof.
  intros Hu. unfold main_page. fold (mongodb_uri i). rewrite Hu.
  apply (keeps_bind _ sanctioned_trans); [apply sanctioned_connect|intros _].
  apply (keeps_bind _ sanctioned_trans).
  { intros w _. split; [reflexivity|]. exists []. simpl. rewrite app_nil_r. auto. }
  intros _. apply (keeps_bind _ sanctioned_trans);
    [apply (keeps_emit _ (sanctioned uri) sanctioned_event); exact I|intros _].
  apply (keeps_bind _ sanctioned_trans); [apply sanctioned_tab0|intros _].
  apply (keeps_bind _ sanctioned_trans); [apply sanctioned_tab1|intros _].
  apply (keeps_bind _ sanctioned_trans); [apply sanctioned_tab2|intros _].
  apply sanctioned_tab3.
Qed.

End Sanctioned.

Lemma gate_events_sanctioned uri i : Forall (sanctioned uri) (gate_events i).
Proof.
  unfold gate_events, candidate_digests, hash.
  destruct (login_button i); [|repeat constructor].
  case_bool_decide; [|repeat constructor].
  destruct (encode (input_password i)); repeat constructor.
Qed.

(** X11.  Every call that leaves the script during one execution,
    whatever the inputs, the prior state and the answers of the
    outside world, is one of the calls the script is written to make:
    connections go to the configured connection string only; vector
    searches go to the collection "multimodal" only, with n = 3 on
    "my-index" and n = 10 on "text-index"; the only aggregation is one
    [$sample] of size 1; the only raw find excludes "_id" and has limit
    5 on "ecommerce"/"multimodal". *)
Theorem every_call_is_sanctioned {X} (i : inputs) (w : world X) :
  Forall (sanctioned (mongodb_uri i)) (emitted (run i) w).
Proof.
  destruct (gate_frame i (fresh_module w)) as (_ & _ & Hm & Ht).
  assert (Hok : collection_ok (mongodb_uri i) (snd (gate i (fresh_module w)))).
  { unfold collection_ok. rewrite Hm. exact I. }
  pose proof (gate_events_sanctioned (mongodb_uri i) i) as Hg.
  simpl trace in Ht. unfold emitted. rewrite run_by_access.
  destruct (gate i (fresh_module w)) as [[[]|e] w'] eqn:G; cbn [snd] in *.
  - destruct (access w').
    + destruct (sanctioned_main_page (mongodb_uri i) i eq_refl w' Hok)
        as (_ & evs & Hte & Hfe).
      rewrite Hte, Ht, <- app_assoc, drop_app_length. apply Forall_app. auto.
    + cbn [snd]. rewrite Ht, drop_app_length. exact Hg.
  - rewrite Ht, drop_app_length. exact Hg.
Qed.

(** ** Sessions *)

Lemma access_gate_rejected {X} i (w : world X) :
  access w = false -> login_button i && accepted i = false ->
  access (snd (gate i (fresh_module w))) = false.
Proof.
  intros Ha Hn. unfold access in *. rewrite gate_session_state. simpl session_state.
  assert (H1 : match
                 match session_state w !! AUTH with
                 | Some _ => session_state w
                 | None => <[AUTH := VNone]> (session_state w)
                 end !! AUTH
               with Some v => truthy v | None => false end = false).
  { destruct (session_state w !! AUTH) eqn:E; [rewrite E; exact Ha|].
    rewrite lookup_insert_eq. reflexivity. }
  destruct (login_button i); [|exact H1]. simpl in Hn.
  rewrite verify_value. unfold accepted in Hn.
  destruct (bool_decide (input_username i = USERNAME)); simpl in Hn.
  - destruct (hash (input_password i)); [|exact H1].
    rewrite lookup_insert_eq. exact Hn.
  - rewrite lookup_insert_eq. reflexivity.
Qed.

(** X12.  No backend before a login.  In a session in which no click
    on Login carries the reference username together with a password
    whose digest is the reference digest, the main page is never run:
    no connection is opened, no request is sent, the memo of [_init]
    stays empty and the outside world is never called. *)
Theorem no_backend_before_login {X} (s : env_state X) (clicks : list inputs)
    (Hnone : Forall (fun i => login_button i && accepted i = false) clicks) :
  let w := runs clicks (start s) in
  access w = false /\
  auth_session w <> authenticated /\
  List.filter is_backend_event (trace w) = [] /\
  cache_resource w = None /\
  outside w = s.
Proof.
  intros w. subst w.
  assert (Hgen : forall w0 : world X,
             access w0 = false ->
             access (runs clicks w0) = false /\
             List.filter is_backend_event (trace (runs clicks w0))
               = List.filter is_backend_event (trace w0) /\
             cache_resource (runs clicks w0) = cache_resource w0 /\
             outside (runs clicks w0) = outside w0).
  { induction Hnone as [|i clicks Hi _ IH]; intros w0 Ha; [simpl; auto|].
    pose proof (access_gate_rejected i w0 Ha Hi) as Hg.
    assert (Hr : run i w0 = gate i (fresh_module w0)).
    { rewrite run_by_access.
      destruct (gate i (fresh_module w0)) as [[[]|e] w']; [|reflexivity].
      simpl in Hg. rewrite Hg. reflexivity. }
    destruct (gate_frame i (fresh_module w0)) as (Hc & Ho & _ & Ht).
    simpl runs. rewrite Hr.
    destruct (IH (snd (gate i (fresh_module w0))) Hg) as (I1 & I2 & I3 & I4).
    split; [exact I1|]. split; [|split].
    - rewrite I2, Ht, List.filter_app, gate_events_not_backend, app_nil_r. reflexivity.
    - rewrite I3. exact Hc.
    - rewrite I4. exact Ho. }
  destruct (Hgen (start s) eq_refl) as (H1 & H2 & H3 & H4).
  split; [exact H1|]. split; [|auto].
  unfold auth_session, access in *.
  destruct (session_state _ !! AUTH) as [[|[|]| | | | |]|]; discriminate.
Qed.

Lemma no_backend_before_login_witness :
  let clicks := [Demo.idle; Demo.sign_in (py "admin") (py "Password");
                 Demo.raw (py "{}"); Demo.sign_in (py "root") (py "password");
                 Demo.search (py "shoe")] in
  let w := runs clicks (start (X := Demo.shop [Demo.shirt] [Demo.hat]) 0%nat) in
  Forall (fun i => login_button i && accepted i = false) clicks /\
  List.filter is_backend_event (trace w) = [] /\
  auth_session w = rejected.
Proof.
  intros clicks w.
  assert (H : Forall (fun i => login_button i && accepted i = false) clicks)
    by (repeat constructor; vm_compute; reflexivity).
  destruct (no_backend_before_login (X := Demo.shop [Demo.shirt] [Demo.hat])
              0%nat clicks H) as (_ & _ & H3 & _).
  split; [exact H|]. split; [exact H3|]. vm_compute. reflexivity.
Defined.

(** ** The digest as a string *)

Lemma be_bytes_length n x : length (SHA256.be_bytes n x) = n.
Proof.
  unfold SHA256.be_bytes. rewrite List.length_map, List.length_rev, List.length_seq.
  reflexivity.
Qed.

Lemma be_bytes_bound n x : Forall (fun b => b < 256) (SHA256.be_bytes n x).
Proof.
  unfold SHA256.be_bytes. apply Forall_forall. intros b Hb.
  apply list_elem_of_In, in_map_iff in Hb as (j & <- & _).
  apply N.mod_lt. discriminate.
Qed.

Lemma digest_shape msg :
  length (SHA256.digest msg) = 32%nat /\ Forall (fun b => b < 256) (SHA256.digest msg).
Proof.
  unfold SHA256.digest. cbv zeta.
  set (h := fold_left SHA256.compress _ _). clearbody h.
  cbn [flat_map]. split.
  - rewrite !length_app, !be_bytes_length. reflexivity.
  - repeat (apply Forall_app; split); try apply be_bytes_bound. constructor.
Qed.

Lemma hex_digit_lower d : d < 16 -> is_lower_hex (SHA256.hex_digit d) = true.
Proof.
  intros Hd. unfold SHA256.hex_digit, is_lower_hex.
  destruct (N.ltb_spec d 10).
  - apply orb_true_iff. left. apply andb_true_iff.
    split; apply N.leb_le; lia.
  - apply orb_true_iff. right. apply andb_true_iff.
    split; apply N.leb_le; lia.
Qed.

Lemma hexdigest_shape msg :
  length (SHA256.hexdigest msg) = 64%nat /\
  Forall (fun c => is_lower_hex c = true) (SHA256.hexdigest msg).
Proof.
  unfold SHA256.hexdigest. destruct (digest_shape msg) as [Hl Hb].
  revert Hl Hb. generalize (SHA256.digest msg) as bs. intros bs Hl Hb.
  assert (H : length (flat_map (fun b => [SHA256.hex_digit (b / 16);
                                           SHA256.hex_digit (b mod 16)]) bs)
              = (2 * length bs)%nat /\
              Forall (fun c => is_lower_hex c = true)
                (flat_map (fun b => [SHA256.hex_digit (b / 16);
                                     SHA256.hex_digit (b mod 16)]) bs)).
  { clear Hl. induction Hb as [|b bs Hb _ [IH1 IH2]]; [split; [reflexivity|constructor]|].
    cbn [flat_map app length]. split; [rewrite IH1; lia|].
    constructor; [|constructor; [|exact IH2]]; apply hex_digit_lower.
    - apply N.Div0.div_lt_upper_bound. lia.
    - apply N.mod_lt. discriminate. }
  destruct H as [H1 H2]. split; [rewrite H1, Hl; reflexivity|exact H2].
Qed.

(** X13.  For every password that is text, [hash_password] returns a
    string of exactly 64 lower-case hexadecimal digits and computes
    one digest, of the UTF-8 encoding of the password; it changes
    nothing else. *)
Theorem hash_password_shape {X} (p : pystr) (w : world X) (Hp : well_formed p) :
  exists b h,
    encode p = Ok b /\
    hash_password p w = (Ok h, add_event (EvSha256 b) w) /\
    length h = 64%nat /\
    Forall (fun c => is_lower_hex c = true) h.
Proof.
  destruct (encode_well_formed p Hp) as [b Hb].
  exists b, (SHA256.hexdigest b). split; [exact Hb|].
  split; [unfold hash_password, sha256_hexdigest, bind, lift; rewrite Hb; reflexivity|].
  apply hexdigest_shape.
Qed.

Lemma hash_password_shape_witness :
  well_formed [233; 0x1F600] /\
  exists h, fst (hash_password [233; 0x1F600]
                   (start (X := Demo.shop [] []) 0%nat)) = Ok h /\
            length h = 64%nat.
Proof.
  assert (H : well_formed [233; 0x1F600]) by (repeat constructor).
  split; [exact H|].
  destruct (hash_password_shape (X := Demo.shop [] []) [233; 0x1F600]
              (start (X := Demo.shop [] []) 0%nat) H) as (b & h & _ & Hh & Hl & _).
  exists h. split; [rewrite Hh; reflexivity|exact Hl].
Defined.

(** X14.  A click on Login decides access by itself.  With a password
    that is text, the execution that the click triggers runs the main
    page exactly when the two fields are the reference credentials,
    whatever the status was before; the gate draws one widget, the
    success message naming the user or the error message, accordingly.
    Without a click the gate draws nothing. *)
Theorem login_click_decides_access {X} (i : inputs) (w : world X)
    (Hclick : login_button i = true) (Hp : well_formed (input_password i)) :
  fst (gate i (fresh_module w)) = Ok tt /\
  access (snd (gate i (fresh_module w))) = accepted i /\
  run i w = (if accepted i then main_page i (snd (gate i (fresh_module w)))
             else gate i (fresh_module w)) /\
  List.filter is_draw (emitted (gate i) (fresh_module w))
    = [EvDraw (login_message i (accepted i))] /\
  (forall j : inputs, login_button j = false ->
     List.filter is_draw (emitted (gate j) (fresh_module w)) = []).
Proof.
  destruct (hash_well_formed _ Hp) as [d Hd].
  assert (Hv : forall w0 : world X,
             fst (verify (input_username i) (input_password i) reference_digest w0)
             = Ok (accepted i)).
  { intros w0. rewrite verify_value. unfold accepted. rewrite Hd.
    destruct (bool_decide (input_username i = USERNAME)); reflexivity. }
  assert (Hg : fst (gate i (fresh_module w)) = Ok tt).
  { rewrite gate_result, Hclick, Hv. reflexivity. }
  assert (Ha : access (snd (gate i (fresh_module w))) = accepted i).
  { unfold access. rewrite gate_session_state, Hclick, Hv, lookup_insert_eq.
    reflexivity. }
  split; [exact Hg|]. split; [exact Ha|]. split; [|split].
  - rewrite run_by_access.
    destruct (gate i (fresh_module w)) as [[[]|e] w'] eqn:G; [|discriminate].
    cbn [snd] in *. rewrite Ha. destruct (accepted i); reflexivity.
  - rewrite run_emitted_gate. unfold gate_events, candidate_digests, accepted, hash.
    rewrite Hclick. unfold hash in Hd.
    destruct (bool_decide (input_username i = USERNAME));
      destruct (encode (input_password i)); try discriminate; reflexivity.
  - intros j Hj. rewrite run_emitted_gate. unfold gate_events, candidate_digests.
    rewrite Hj. reflexivity.
Qed.

Lemma login_click_decides_access_witness :
  let X := Demo.shop [Demo.shirt] [Demo.hat] in
  let i := Demo.sign_in (py "admin") (py "password") in
  let w := snd (run (Demo.sign_in (py "admin") (py "oops")) (start (X := X) 0%nat)) in
  login_button i = true /\ well_formed (input_password i) /\
  auth_session w = rejected /\ accepted i = true /\
  access (snd (gate i (fresh_module w))) = true /\
  List.filter is_draw (emitted (gate i) (fresh_module w))
    = [EvDraw (SidebarSuccess (py "Logged in as admin"))].
Proof.
  intros X i w.
  assert (H : well_formed (input_password i)) by (apply well_formed_ascii; reflexivity).
  assert (Hacc : accepted i = true) by (vm_compute; reflexivity).
  destruct (login_click_decides_access i w eq_refl H) as (_ & H1 & _ & H2 & _).
  split; [reflexivity|]. split; [exact H|]. split; [vm_compute; reflexivity|].
  split; [exact Hacc|]. split; [rewrite H1; exact Hacc|].
  rewrite H2, Hacc. reflexivity.
Defined.

(** X15.  Staying logged in.  In a session whose status is truthy, an
    interaction other than a click on Login runs the main page, which
    starts in the prior world with a fresh module namespace and the
    reference digest computed once more.  Whatever the main page does,
    the status is afterwards what it was, and so is every entry of the
    session state other than those of the two keyed widgets. *)
Theorem login_persists {X} (i : inputs) (w : world X)
    (Hidle : login_button i = false) (Hin : access w = true) :
  gate i (fresh_module w)
    = (Ok tt, add_event (EvSha256 (py "password")) (fresh_module w)) /\
  run i w = main_page i (add_event (EvSha256 (py "password")) (fresh_module w)) /\
  assigned (snd (run i w)) = assigned w /\
  session_state (snd (run i w)) !! AUTH = session_state w !! AUTH /\
  access (snd (run i w)) = true.
Proof.
  assert (Hinit : init_world (fresh_module w) = fresh_module w).
  { unfold init_world, access in *. simpl session_state.
    destruct (session_state w !! AUTH); [reflexivity|discriminate]. }
  assert (G : gate i (fresh_module w)
              = (Ok tt, add_event (EvSha256 (py "password")) (fresh_module w))).
  { rewrite gate_explicit. cbv zeta. rewrite Hidle, Hinit. reflexivity. }
  assert (R : run i w
              = main_page i (add_event (EvSha256 (py "password")) (fresh_module w))).
  { rewrite run_by_access, G. unfold access in *. simpl session_state.
    rewrite Hin. reflexivity. }
  assert (S : assigned (snd (run i w)) = assigned w).
  { rewrite R. destruct (main_page_behind_gate i
                           (add_event (EvSha256 (py "password")) (fresh_module w)))
      as [Hs _]. rewrite Hs. reflexivity. }
  assert (A : session_state (snd (run i w)) !! AUTH = session_state w !! AUTH)
    by (rewrite <- !assigned_AUTH, S; reflexivity).
  split; [exact G|]. split; [exact R|]. split; [exact S|]. split; [exact A|].
  unfold access in *. rewrite A. exact Hin.
Qed.

Lemma login_persists_witness :
  let X := Demo.shop [Demo.shirt; Demo.shoe] [Demo.hat] in
  let w := snd (run (Demo.sign_in (py "admin") (py "password")) (start (X := X) 0%nat)) in
  login_button (Demo.search (py "shoe")) = false /\
  access w = true /\
  access (snd (run (Demo.search (py "shoe")) w)) = true /\
  fst (run (Demo.search (py "shoe")) w) = Ok tt.
Proof.
  intros X w.
  assert (Ha : access w = true) by (vm_compute; reflexivity).
  destruct (login_persists (Demo.search (py "shoe")) w eq_refl Ha) as (_ & _ & _ & _ & H).
  split; [reflexivity|]. split; [exact Ha|]. split; [exact H|].
  vm_compute. reflexivity.
Defined.
